(** * Authorization Tracker: access control and record lifecycle

    A shallow embedding of [server.ts]: the Express routes, the two
    middlewares [authenticateToken] and [isAdmin], and the SQL statements the
    routes run against the [users] and [auth_records] tables.

    Conventions of the embedding.
    - A table is the list of its rows in rowid order.  A statement is a pure
      function on that list; the primary-key and UNIQUE constraints are the
      invariant [wf_state], which every request preserves.
    - A request carries the clock reading ([now], in seconds) and the bcrypt
      salt drawn while it is served, so that a handler is a function
      [State -> Request -> Response * State].
    - A session token is symbolic: it records the key it was signed with, and
      verification compares that key with the server secret.
    - bcryptjs, the SQLite date functions and the driver's treatment of an
      [undefined] parameter are not part of [server.ts]; they are the fields
      of the class [Platform].
    - The [:id] path segment is taken as the integer SQLite compares with the
      INTEGER [id] column.
    - [GET /api/settings] answers with the rows of the table; the object the
      handler folds them into is not built.
    - The static file routes and the start-up migrations and seeding are not
      embedded. *)

From Stdlib Require Import ZArith List String Ascii Bool Lia.
From Stdlib Require Import Sorted Permutation.
Import ListNotations.
Local Open Scope string_scope.
Local Open Scope list_scope.
Local Open Scope Z_scope.

(** ** JavaScript values of a parsed JSON body *)

(** A property of [req.body] after [express.json()].  [JsUndefined] is a key
    that is absent.  [JsObject] is a plain object, carried as the text
    [JSON.stringify] gives for it.  JSON numbers and arrays are left out: the
    fields are strings in [types.ts]; a number would reach a TEXT column as
    the rendering of a double, and the driver spreads an array over
    consecutive placeholders, which moves the values after it to other
    columns. *)
Inductive JsValue : Type :=
| JsUndefined
| JsNull
| JsString (s : string)
| JsBoolean (b : bool)
| JsObject (json : string).

(** Truthiness, as used by [!token], [role || 'employee'] and [if (password)]. *)
Definition truthy (v : JsValue) : bool :=
  match v with
  | JsUndefined | JsNull => false
  | JsString s => negb (String.eqb s EmptyString)
  | JsBoolean b => b
  | JsObject _ => true
  end.

(** [a || b] *)
Definition js_or (a b : JsValue) : JsValue := if truthy a then a else b.

(** [a === 'text'] *)
Definition strict_eq_string (a : option string) (text : string) : bool :=
  match a with
  | Some s => String.eqb s text
  | None => false
  end.

Module JSON.

Definition hex_digit (n : N) : ascii :=
  match n with
  | 0%N => "0" | 1%N => "1" | 2%N => "2" | 3%N => "3" | 4%N => "4"
  | 5%N => "5" | 6%N => "6" | 7%N => "7" | 8%N => "8" | 9%N => "9"
  | 10%N => "a" | 11%N => "b" | 12%N => "c" | 13%N => "d" | 14%N => "e"
  | _ => "f"
  end%char.

Definition backslash : ascii := ascii_of_N 92.
Definition double_quote : ascii := ascii_of_N 34.

Definition escaped (c : ascii) : string := String backslash (String c EmptyString).

(** The escape of one character inside a JSON string literal: the quote,
    the backslash, the five short escapes, and [\u00xx] for the other
    control characters. *)
Definition escape (c : ascii) : string :=
  let n := N_of_ascii c in
  if (n =? 34)%N then escaped double_quote
  else if (n =? 92)%N then escaped backslash
  else if (n =? 8)%N then escaped "b"
  else if (n =? 9)%N then escaped "t"
  else if (n =? 10)%N then escaped "n"
  else if (n =? 12)%N then escaped "f"
  else if (n =? 13)%N then escaped "r"
  else if (n <? 32)%N then
    escaped "u" ++ "00" ++
    String (hex_digit (n / 16)) (String (hex_digit (n mod 16)) EmptyString)
  else String c EmptyString.

Fixpoint escape_all (s : string) : string :=
  match s with
  | EmptyString => EmptyString
  | String c rest => String.append (escape c) (escape_all rest)
  end.

Definition quote (s : string) : string :=
  String double_quote (String.append (escape_all s) (String double_quote EmptyString)).

(** [JSON.stringify(v)]; it is [undefined] on [undefined]. *)
Definition stringify (v : JsValue) : JsValue :=
  match v with
  | JsUndefined => JsUndefined
  | JsNull => JsString "null"
  | JsString s => JsString (quote s)
  | JsBoolean true => JsString "true"
  | JsBoolean false => JsString "false"
  | JsObject json => JsString json
  end.

End JSON.

(** ** Exceptions *)

Inductive Exception : Type :=
| TypeError          (* the driver (TypeError, RangeError) or bcryptjs refuses an argument *)
| SqliteError.       (* a NOT NULL or UNIQUE constraint failed *)

Inductive Result (A : Type) : Type :=
| Returns (a : A)
| Throws (e : Exception).
Arguments Returns {A} a.
Arguments Throws {A} e.

Definition bind_result {A B : Type} (m : Result A) (k : A -> Result B) : Result B :=
  match m with
  | Returns a => k a
  | Throws e => Throws e
  end.

Declare Scope result_scope.
Delimit Scope result_scope with result.
Notation "x <- m ;; k" := (bind_result m (fun x => k))
  (at level 61, m at next level, right associativity) : result_scope.

(** ** Session tokens *)

Module JwtPayload.
(** What [jwt.sign({ id, username }, secret, { expiresIn })] puts in a
    token.  The payload has no role. *)
Record t : Type := mk { id : Z; username : string; iat : Z; exp : Z }.
End JwtPayload.

(** The text of the [token] cookie: either a JWT, which records the key that
    signed it, or any other text. *)
Inductive Token : Type :=
| Malformed (text : string)
| Jwt (key : string) (payload : JwtPayload.t).

Module jwt.

(** ["24h"], in seconds. *)
Definition expiresIn : Z := 24 * 60 * 60.

Definition sign (id : Z) (username : string) (secret : string) (now : Z) : Token :=
  Jwt secret (JwtPayload.mk id username now (now + expiresIn)).

(** [jwt.verify(token, secret, callback)]: [None] is the callback's [err]
    (malformed token, signature made with another key, or [exp] reached),
    [Some user] its decoded payload. *)
Definition verify (token : Token) (secret : string) (now : Z) : option JwtPayload.t :=
  match token with
  | Malformed _ => None
  | Jwt key payload =>
      if negb (String.eqb key secret) then None
      else if now >=? JwtPayload.exp payload then None
      else Some payload
  end.

End jwt.

(** ** Tables *)

Module Users.
(** [users]: id INTEGER PRIMARY KEY AUTOINCREMENT, username TEXT UNIQUE NOT
    NULL, password TEXT NOT NULL, role TEXT DEFAULT 'employee'. *)
Record row : Type := mk { id : Z; username : string; password : string; role : option string }.
End Users.

Module Fields.
(** The twenty-one properties a record route destructures from [req.body],
    in that order; they are also the editable TEXT columns of
    [auth_records]. *)
Set Implicit Arguments.
Record t (A : Type) : Type := mk {
  visit_type : A; insurance : A; insurance_id : A; patient_name : A; dob : A;
  account_number : A; p_r : A; doctor_name : A; procedure_codes : A; dx_codes : A;
  status : A; request_initiated : A; insurance_portal_name : A; rep_name : A;
  phone_number : A; auth_case_number : A; ref_number : A; date_worked : A;
  call_time_spent : A; checklist : A; notes : A }.
Unset Implicit Arguments.

Definition map {A B : Type} (f : A -> B) (x : t A) : t B :=
  mk (f (visit_type x)) (f (insurance x)) (f (insurance_id x)) (f (patient_name x))
    (f (dob x)) (f (account_number x)) (f (p_r x)) (f (doctor_name x))
    (f (procedure_codes x)) (f (dx_codes x)) (f (status x)) (f (request_initiated x))
    (f (insurance_portal_name x)) (f (rep_name x)) (f (phone_number x))
    (f (auth_case_number x)) (f (ref_number x)) (f (date_worked x))
    (f (call_time_spent x)) (f (checklist x)) (f (notes x)).

(** The same value in every property; [all JsUndefined] is the body [{}]. *)
Definition all {A : Type} (a : A) : t A :=
  mk a a a a a a a a a a a a a a a a a a a a a.
End Fields.

Module AuthRecords.
(** [auth_records]: the editable columns [cols] (TEXT, [None] is NULL) and
    the identity and lifecycle columns. *)
Record row : Type := mk {
  id : Z;
  cols : Fields.t (option string);
  is_deleted : Z;
  user_id : Z;
  created_at : Z;
  updated_at : Z }.

Definition status (r : row) : option string := Fields.status (cols r).
Definition date_worked (r : row) : option string := Fields.date_worked (cols r).
Definition request_initiated (r : row) : option string :=
  Fields.request_initiated (cols r).
End AuthRecords.

(** The database: each table with the counter SQLite keeps for its
    AUTOINCREMENT key (the largest rowid the table has ever held). *)
Record State : Type := mkState {
  users : list Users.row;
  users_seq : Z;
  auth_records : list AuthRecords.row;
  auth_records_seq : Z;
  settings : list (option string * option string) }.   (* key TEXT PRIMARY KEY, value TEXT *)

(** ** Requests and responses *)

(** [{ username, password }] of login, [{ username, password, role }] of the
    user routes. *)
Record UserBody : Type := mkUserBody {
  body_username : JsValue;
  body_password : JsValue;
  body_role : JsValue }.

Inductive Route : Type :=
| POST_auth_login (body : UserBody)
| POST_auth_logout
| GET_auth_me
| GET_users
| GET_users_stats
| POST_users (body : UserBody)
| PATCH_users (id : Z) (body : UserBody)
| DELETE_users (id : Z)
| POST_auth_change_password (currentPassword newPassword : JsValue)
| GET_records
| GET_records_deleted
| GET_records_stats
| POST_records (body : Fields.t JsValue)
| PUT_records (id : Z) (body : Fields.t JsValue)
| DELETE_records (id : Z)
| POST_records_restore (id : Z)
| DELETE_records_permanent (id : Z)
| GET_settings
| POST_settings (key value : JsValue).

Record Request : Type := mkRequest {
  cookies_token : option Token;     (* [req.cookies.token] *)
  route : Route;
  now : Z;                          (* the clock while the request is served *)
  salt : string }.                  (* the salt bcrypt draws, if it hashes *)

(** [SELECT id, username, role FROM users] *)
Record UserView : Type := mkUserView {
  view_id : Z; view_username : string; view_role : option string }.

(** A row of [GET /api/users/stats]. *)
Record EmployeeStats : Type := mkEmployeeStats {
  stats_user : UserView;
  today : Z; this_week : Z; this_month : Z; ytd : Z }.

(** The row of [GET /api/records/stats]; a SUM over no rows is NULL. *)
Record Stats : Type := mkStats {
  total : Z;
  pending : option Z; approved : option Z; denied : option Z;
  not_required : option Z; follow_up : option Z; cancelled : option Z;
  not_covered : option Z;
  submitted_today : option Z }.

Inductive Json : Type :=
| json_error (error : string)                 (* { error } *)
| json_success                                (* { success: true } *)
| json_login (user : UserView)                (* { success: true, user } *)
| json_me (user : option UserView)            (* { user } *)
| json_users (rows : list UserView)
| json_users_stats (rows : list EmployeeStats)
| json_records (rows : list AuthRecords.row)
| json_stats (row : Stats)
| json_id (id : Z)                            (* { id: lastInsertRowid } *)
| json_settings (rows : list (option string * option string))
| error_page.                                 (* Express's answer to a throw *)

Record Response : Type := mkResponse {
  status_code : Z;
  json : Json;
  set_cookie : option Token }.

(** [res.json(j)], [res.status(code).json({ error })], and the answer of
    Express's default error handler to an exception a handler throws. *)
Definition res_json (j : Json) : Response := mkResponse 200 j None.
Definition res_error (code : Z) (error : string) : Response :=
  mkResponse code (json_error error) None.
Definition res_internal_error : Response := mkResponse 500 error_page None.

(** ** What the server takes from its libraries and its environment *)

Class Platform : Type := {
  (** [process.env.SESSION_SECRET] *)
  env_SESSION_SECRET : option string;
  (** [bcrypt.hashSync(s, 10)] on a string, with the salt it draws, and
      [bcrypt.compareSync(s, hash)] on two strings. *)
  bcrypt_hash : string -> string -> string;
  bcrypt_compare : string -> string -> bool;
  (** Whether the driver binds a parameter that is [undefined] as NULL
      ([true]) or refuses it with a TypeError ([false]). *)
  binds_undefined : bool;
  (** SQLite's [date(text)] ([None] is NULL), [date('now')] at a clock
      reading, [date(t, 'localtime')] and [strftime(format, t, 'localtime')]
      of a stored timestamp. *)
  date_of_text : string -> option string;
  date_utc : Z -> string;
  date_localtime : Z -> string;
  strftime_localtime : string -> Z -> string }.

(** ** SQL on a table held as the list of its rows *)

Module SQL.

(** [.get()]: the first row the WHERE clause keeps. *)
Definition get {A : Type} (where_ : A -> bool) (table : list A) : option A :=
  find where_ table.

(** UPDATE ... SET ... WHERE: the new table, and [changes]. *)
Definition update {A : Type} (where_ : A -> bool) (set : A -> A) (table : list A) : list A :=
  map (fun r => if where_ r then set r else r) table.

Definition changes {A : Type} (where_ : A -> bool) (table : list A) : Z :=
  Z.of_nat (List.length (filter where_ table)).

(** DELETE FROM ... WHERE *)
Definition delete {A : Type} (where_ : A -> bool) (table : list A) : list A :=
  filter (fun r => negb (where_ r)) table.

(** The key of an inserted row under AUTOINCREMENT: one more than the largest
    rowid the table holds or has held. *)
Definition next_rowid (seq : Z) (ids : list Z) : Z :=
  Z.max seq (fold_right Z.max 0 ids) + 1.

(** COUNT of the star, SUM (NULL over no rows), CASE WHEN c THEN 1 ELSE 0 END. *)
Definition count {A : Type} (rows : list A) : Z := Z.of_nat (List.length rows).

Definition total_of (xs : list Z) : Z := fold_right Z.add 0 xs.

Definition sum (xs : list Z) : option Z :=
  match xs with
  | [] => None
  | _ :: _ => Some (total_of xs)
  end.

Definition case_when (c : bool) : Z := if c then 1 else 0.

(** [column = 'text'] inside a CASE: NULL is not equal to anything. *)
Definition text_is (column : option string) (text : string) : bool :=
  match column with
  | Some s => String.eqb s text
  | None => false
  end.

(** The order of TEXT values with NULL first (BINARY collation). *)
Definition text_compare (a b : option string) : comparison :=
  match a, b with
  | None, None => Eq
  | None, Some _ => Lt
  | Some _, None => Gt
  | Some x, Some y => String.compare x y
  end.

Definition text_leb (a b : option string) : bool :=
  match text_compare a b with
  | Gt => false
  | _ => true
  end.

(** ORDER BY, as a stable insertion sort: rows that compare equal keep their
    rowid order. *)
Fixpoint insert_by {A : Type} (leb : A -> A -> bool) (x : A) (sorted : list A) : list A :=
  match sorted with
  | [] => [x]
  | y :: rest => if leb x y then x :: sorted else y :: insert_by leb x rest
  end.

Definition order_by {A : Type} (leb : A -> A -> bool) (rows : list A) : list A :=
  fold_right (insert_by leb) [] rows.

End SQL.

(** ** The server *)

Section Server.

Context {platform : Platform}.

Local Open Scope result_scope.

(** [process.env.SESSION_SECRET || "default-secret-key"] *)
Definition SESSION_SECRET : string :=
  match env_SESSION_SECRET with
  | Some s => if String.eqb s EmptyString then "default-secret-key" else s
  | None => "default-secret-key"
  end.

(** *** The driver and bcryptjs on JavaScript values *)

(** A parameter of [.run(...)] or [.get(...)] for a TEXT column.  A boolean
    is refused; a plain object is read as a bag of named parameters and
    leaves the placeholder without a value, which the driver refuses too. *)
Definition bind (v : JsValue) : Result (option string) :=
  match v with
  | JsString s => Returns (Some s)
  | JsNull => Returns None
  | JsUndefined => if binds_undefined then Returns None else Throws TypeError
  | JsBoolean _ | JsObject _ => Throws TypeError
  end.

Definition hashSync (password : JsValue) (salt : string) : Result string :=
  match password with
  | JsString s => Returns (bcrypt_hash salt s)
  | _ => Throws TypeError
  end.

Definition compareSync (password : JsValue) (hash : string) : Result bool :=
  match password with
  | JsString s => Returns (bcrypt_compare s hash)
  | _ => Throws TypeError
  end.

(** An exception that leaves a handler is answered by Express with 500; no
    handler writes before it can throw. *)
Definition express (st : State) (r : Result (Response * State)) : Response * State :=
  match r with
  | Returns answer => answer
  | Throws _ => (res_internal_error, st)
  end.

(** *** Auth middleware *)

(** [!token] on a cookie that is present: the empty text is falsy. *)
Definition empty_token (token : Token) : bool :=
  match token with
  | Malformed EmptyString => true
  | _ => false
  end.

Definition authenticateToken (req : Request) (st : State)
    (next : JwtPayload.t -> Response * State) : Response * State :=
  match cookies_token req with
  | None => (res_error 401 "Unauthorized", st)
  | Some token =>
      if empty_token token then (res_error 401 "Unauthorized", st)
      else
        match jwt.verify token SESSION_SECRET (now req) with
        | None => (res_error 403 "Forbidden", st)
        | Some user => next user
        end
  end.

(** [SELECT role FROM users WHERE id = ?] with [req.user.id] *)
Definition select_role (st : State) (id : Z) : option (option string) :=
  option_map Users.role (SQL.get (fun u => Users.id u =? id) (users st)).

Definition isAdmin (st : State) (user : JwtPayload.t)
    (next : Response * State) : Response * State :=
  match select_role st (JwtPayload.id user) with
  | Some role =>
      if strict_eq_string role "admin" then next
      else (res_error 403 "Admin access required", st)
  | None => (res_error 403 "Admin access required", st)
  end.

(** *** Auth routes *)

Definition view (u : Users.row) : UserView :=
  mkUserView (Users.id u) (Users.username u) (Users.role u).

(** [SELECT * FROM users WHERE username = ?]: a NULL parameter matches no row. *)
Definition select_user_by_username (st : State) (username : option string) : option Users.row :=
  match username with
  | Some name => SQL.get (fun u => String.eqb (Users.username u) name) (users st)
  | None => None
  end.

Definition select_user_by_id (st : State) (id : Z) : option Users.row :=
  SQL.get (fun u => Users.id u =? id) (users st).

Definition post_auth_login (st : State) (req : Request) (body : UserBody)
    : Result (Response * State) :=
  username <- bind (body_username body) ;;
  match select_user_by_username st username with
  | Some user =>
      matches <- compareSync (body_password body) (Users.password user) ;;
      if matches then
        let token := jwt.sign (Users.id user) (Users.username user) SESSION_SECRET (now req) in
        Returns (mkResponse 200 (json_login (view user)) (Some token), st)
      else Returns (res_error 401 "Invalid credentials", st)
  | None => Returns (res_error 401 "Invalid credentials", st)
  end.

(** The cookie is overwritten with the empty text, already expired. *)
Definition post_auth_logout (st : State) : Response * State :=
  (mkResponse 200 json_success (Some (Malformed EmptyString)), st).

Definition get_auth_me (st : State) (user : JwtPayload.t) : Response * State :=
  (res_json (json_me (option_map view (select_user_by_id st (JwtPayload.id user)))), st).

(** *** User management *)

Definition set_users (st : State) (table : list Users.row) (seq : Z) : State :=
  mkState table seq (auth_records st) (auth_records_seq st) (settings st).

(** [INSERT INTO users (username, password, role) VALUES (?, ?, ?)] *)
Definition insert_user (st : State) (username : option string) (password : string)
    (role : option string) : Result State :=
  match username with
  | None => Throws SqliteError
  | Some name =>
      if existsb (fun u => String.eqb (Users.username u) name) (users st)
      then Throws SqliteError
      else
        let id := SQL.next_rowid (users_seq st) (map Users.id (users st)) in
        Returns (set_users st (users st ++ [Users.mk id name password role]) id)
  end.

(** [UPDATE users SET username = ?, (password = ?,) role = ? WHERE id = ?];
    [password] is [None] for the statement that leaves the column alone.  The
    constraints are checked only when a row is updated. *)
Definition update_user (st : State) (id : Z) (username : option string)
    (password : option string) (role : option string) : Result State :=
  if negb (existsb (fun u => Users.id u =? id) (users st)) then Returns st
  else
    match username with
    | None => Throws SqliteError
    | Some name =>
        if existsb (fun u => String.eqb (Users.username u) name && negb (Users.id u =? id))
             (users st)
        then Throws SqliteError
        else
          let set u :=
            Users.mk (Users.id u) name
              (match password with Some hash => hash | None => Users.password u end)
              role in
          Returns (set_users st (SQL.update (fun u => Users.id u =? id) set (users st))
                     (users_seq st))
    end.

Definition get_users (st : State) : Response * State :=
  (res_json (json_users (map view (users st))), st).

(** [users u LEFT JOIN auth_records r ON u.id = r.user_id AND r.is_deleted = 0]:
    the rows joined to one user; a user without a record keeps one row whose
    [r] columns are NULL. *)
Definition left_join (u : Users.row) (records : list AuthRecords.row)
    : list (option AuthRecords.row) :=
  match filter (fun r => (Users.id u =? AuthRecords.user_id r)
                         && (AuthRecords.is_deleted r =? 0)) records with
  | [] => [None]
  | r :: rs => map Some (r :: rs)
  end.

(** [SUM(CASE WHEN c THEN 1 ELSE 0 END)] over the joined rows of one user; on
    the NULL row the condition is NULL and the CASE gives 0. *)
Definition sum_case (c : AuthRecords.row -> bool) (joined : list (option AuthRecords.row)) : Z :=
  SQL.total_of
    (map (fun o => match o with
                   | Some r => SQL.case_when (c r)
                   | None => 0
                   end) joined).

Definition same_localtime (format : string) (t now : Z) : bool :=
  String.eqb (strftime_localtime format t) (strftime_localtime format now).

Definition employee_stats (st : State) (now : Z) (u : Users.row) : EmployeeStats :=
  let joined := left_join u (auth_records st) in
  let created := AuthRecords.created_at in
  mkEmployeeStats (view u)
    (sum_case (fun r => String.eqb (date_localtime (created r)) (date_localtime now)) joined)
    (sum_case (fun r => same_localtime "%W" (created r) now
                        && same_localtime "%Y" (created r) now) joined)
    (sum_case (fun r => same_localtime "%m" (created r) now
                        && same_localtime "%Y" (created r) now) joined)
    (sum_case (fun r => same_localtime "%Y" (created r) now) joined).

(** ORDER BY u.role, u.username *)
Definition by_role_username (a b : Users.row) : bool :=
  match SQL.text_compare (Users.role a) (Users.role b) with
  | Lt => true
  | Gt => false
  | Eq => String.leb (Users.username a) (Users.username b)
  end.

Definition get_users_stats (st : State) (req : Request) : Response * State :=
  (res_json (json_users_stats
     (map (employee_stats st (now req)) (SQL.order_by by_role_username (users st)))), st).

Definition post_users (st : State) (req : Request) (body : UserBody) : Response * State :=
  match (hashedPassword <- hashSync (body_password body) (salt req) ;;
         username <- bind (body_username body) ;;
         role <- bind (js_or (body_role body) (JsString "employee")) ;;
         insert_user st username hashedPassword role) with
  | Returns st' => (res_json json_success, st')
  | Throws _ => (res_error 400 "Username already exists", st)
  end.

Definition patch_users (st : State) (req : Request) (id : Z) (body : UserBody)
    : Response * State :=
  match (if truthy (body_password body) then
           hashedPassword <- hashSync (body_password body) (salt req) ;;
           username <- bind (body_username body) ;;
           role <- bind (body_role body) ;;
           update_user st id username (Some hashedPassword) role
         else
           username <- bind (body_username body) ;;
           role <- bind (body_role body) ;;
           update_user st id username None role) with
  | Returns st' => (res_json json_success, st')
  | Throws _ => (res_error 400 "Username already exists or update failed", st)
  end.

Definition delete_users (st : State) (id : Z) : Response * State :=
  match select_user_by_id st id with
  | Some user =>
      if String.eqb (Users.username user) "admin"
      then (res_error 400 "Cannot delete primary admin", st)
      else (res_json json_success,
            set_users st (SQL.delete (fun u => Users.id u =? id) (users st)) (users_seq st))
  | None =>
      (res_json json_success,
       set_users st (SQL.delete (fun u => Users.id u =? id) (users st)) (users_seq st))
  end.

Definition post_auth_change_password (st : State) (req : Request) (user : JwtPayload.t)
    (currentPassword newPassword : JsValue) : Result (Response * State) :=
  match select_user_by_id st (JwtPayload.id user) with
  | Some u =>
      matches <- compareSync currentPassword (Users.password u) ;;
      if matches then
        hashedPassword <- hashSync newPassword (salt req) ;;
        Returns (res_json json_success,
                 set_users st
                   (SQL.update (fun x => Users.id x =? Users.id u)
                      (fun x => Users.mk (Users.id x) (Users.username x) hashedPassword
                                  (Users.role x)) (users st))
                   (users_seq st))
      else Returns (res_error 400 "Invalid current password", st)
  | None => Returns (res_error 400 "Invalid current password", st)
  end.

(** *** Record routes *)

Definition set_auth_records (st : State) (table : list AuthRecords.row) (seq : Z) : State :=
  mkState (users st) (users_seq st) table seq (settings st).

(** The twenty-one parameters both record statements bind, in the order of
    their placeholders; the checklist goes through [JSON.stringify]. *)
Definition record_params (body : Fields.t JsValue) : Result (Fields.t (option string)) :=
  visit_type <- bind (Fields.visit_type body) ;;
  insurance <- bind (Fields.insurance body) ;;
  insurance_id <- bind (Fields.insurance_id body) ;;
  patient_name <- bind (Fields.patient_name body) ;;
  dob <- bind (Fields.dob body) ;;
  account_number <- bind (Fields.account_number body) ;;
  p_r <- bind (Fields.p_r body) ;;
  doctor_name <- bind (Fields.doctor_name body) ;;
  procedure_codes <- bind (Fields.procedure_codes body) ;;
  dx_codes <- bind (Fields.dx_codes body) ;;
  status <- bind (Fields.status body) ;;
  request_initiated <- bind (Fields.request_initiated body) ;;
  insurance_portal_name <- bind (Fields.insurance_portal_name body) ;;
  rep_name <- bind (Fields.rep_name body) ;;
  phone_number <- bind (Fields.phone_number body) ;;
  auth_case_number <- bind (Fields.auth_case_number body) ;;
  ref_number <- bind (Fields.ref_number body) ;;
  date_worked <- bind (Fields.date_worked body) ;;
  call_time_spent <- bind (Fields.call_time_spent body) ;;
  checklist <- bind (JSON.stringify (Fields.checklist body)) ;;
  notes <- bind (Fields.notes body) ;;
  Returns (Fields.mk visit_type insurance insurance_id patient_name dob account_number
             p_r doctor_name procedure_codes dx_codes status request_initiated
             insurance_portal_name rep_name phone_number auth_case_number
             ref_number date_worked call_time_spent checklist notes).

Definition active (r : AuthRecords.row) : bool := AuthRecords.is_deleted r =? 0.
Definition trashed (r : AuthRecords.row) : bool := AuthRecords.is_deleted r =? 1.
Definition has_id (id : Z) (r : AuthRecords.row) : bool := AuthRecords.id r =? id.

(** [SELECT * FROM auth_records WHERE is_deleted = 0 ORDER BY date_worked DESC] *)
Definition select_active (st : State) : list AuthRecords.row :=
  SQL.order_by
    (fun a b => SQL.text_leb (AuthRecords.date_worked b) (AuthRecords.date_worked a))
    (filter active (auth_records st)).

(** [SELECT * FROM auth_records WHERE is_deleted = 1 ORDER BY updated_at DESC] *)
Definition select_deleted (st : State) : list AuthRecords.row :=
  SQL.order_by
    (fun a b => AuthRecords.updated_at b <=? AuthRecords.updated_at a)
    (filter trashed (auth_records st)).

(** [date(request_initiated) = date('now')] *)
Definition initiated_today (now : Z) (r : AuthRecords.row) : bool :=
  match AuthRecords.request_initiated r with
  | Some text =>
      match date_of_text text with
      | Some day => String.eqb day (date_utc now)
      | None => false
      end
  | None => false
  end.

(** [SUM(CASE WHEN status = s AND is_deleted = 0 THEN 1 ELSE 0 END)] *)
Definition sum_status (s : string) (rows : list AuthRecords.row) : option Z :=
  SQL.sum (map (fun r => SQL.case_when (SQL.text_is (AuthRecords.status r) s && active r)) rows).

(** The aggregate of [GET /api/records/stats], over the rows the WHERE clause
    [is_deleted = 0] keeps. *)
Definition select_stats (st : State) (now : Z) : Stats :=
  let rows := filter active (auth_records st) in
  mkStats
    (SQL.count rows)
    (sum_status "Pending" rows)
    (sum_status "Approved" rows)
    (sum_status "Denied" rows)
    (sum_status "Not Required" rows)
    (sum_status "Follow Up" rows)
    (sum_status "Cancelled" rows)
    (sum_status "Not Covered" rows)
    (SQL.sum (map (fun r => SQL.case_when (initiated_today now r && active r)) rows)).

Definition get_records (st : State) : Response * State :=
  (res_json (json_records (select_active st)), st).

Definition get_records_deleted (st : State) : Response * State :=
  (res_json (json_records (select_deleted st)), st).

Definition get_records_stats (st : State) (req : Request) : Response * State :=
  (res_json (json_stats (select_stats st (now req))), st).

(** [INSERT INTO auth_records (the editable columns, user_id) VALUES (...)]:
    [id], [is_deleted], [created_at] and [updated_at] take their defaults.
    The result is [lastInsertRowid] and the new database. *)
Definition insert_record (st : State) (vals : Fields.t (option string)) (userId : Z)
    (now : Z) : Z * State :=
  let id := SQL.next_rowid (auth_records_seq st) (map AuthRecords.id (auth_records st)) in
  (id, set_auth_records st (auth_records st ++ [AuthRecords.mk id vals 0 userId now now]) id).

Definition post_records (st : State) (req : Request) (user : JwtPayload.t)
    (body : Fields.t JsValue) : Result (Response * State) :=
  vals <- record_params body ;;
  let (id, st') := insert_record st vals (JwtPayload.id user) (now req) in
  Returns (res_json (json_id id), st').

(** [UPDATE auth_records SET (the editable columns), updated_at =
    CURRENT_TIMESTAMP WHERE id = ?] *)
Definition overwrite (vals : Fields.t (option string)) (now : Z) (r : AuthRecords.row)
    : AuthRecords.row :=
  AuthRecords.mk (AuthRecords.id r) vals (AuthRecords.is_deleted r) (AuthRecords.user_id r)
    (AuthRecords.created_at r) now.

Definition put_records (st : State) (req : Request) (id : Z) (body : Fields.t JsValue)
    : Result (Response * State) :=
  vals <- record_params body ;;
  Returns (res_json json_success,
           set_auth_records st
             (SQL.update (has_id id) (overwrite vals (now req)) (auth_records st))
             (auth_records_seq st)).

(** [UPDATE auth_records SET is_deleted = ?, updated_at = CURRENT_TIMESTAMP
    WHERE id = ?], with 1 to soft-delete and 0 to restore. *)
Definition set_is_deleted (flag : Z) (now : Z) (r : AuthRecords.row) : AuthRecords.row :=
  AuthRecords.mk (AuthRecords.id r) (AuthRecords.cols r) flag (AuthRecords.user_id r)
    (AuthRecords.created_at r) now.

Definition delete_records (st : State) (req : Request) (id : Z) : Response * State :=
  (res_json json_success,
   set_auth_records st
     (SQL.update (has_id id) (set_is_deleted 1 (now req)) (auth_records st))
     (auth_records_seq st)).

Definition post_records_restore (st : State) (req : Request) (id : Z) : Response * State :=
  (res_json json_success,
   set_auth_records st
     (SQL.update (has_id id) (set_is_deleted 0 (now req)) (auth_records st))
     (auth_records_seq st)).

(** [DELETE FROM auth_records WHERE id = ? AND is_deleted = 1] *)
Definition delete_records_permanent (st : State) (id : Z) : Response * State :=
  (res_json json_success,
   set_auth_records st
     (SQL.delete (fun r => has_id id r && trashed r) (auth_records st))
     (auth_records_seq st)).

(** *** Settings routes *)

Definition get_settings (st : State) : Response * State :=
  (res_json (json_settings (settings st)), st).

(** [INSERT OR REPLACE INTO settings (key, value) VALUES (?, ?)]: a row with
    the same key, when the key is not NULL, gives way to the new row. *)
Definition same_key (key : option string) (row : option string * option string) : bool :=
  match key, fst row with
  | Some a, Some b => String.eqb a b
  | _, _ => false
  end.

Definition post_settings (st : State) (key value : JsValue) : Result (Response * State) :=
  k <- bind key ;;
  v <- bind value ;;
  Returns (res_json json_success,
           mkState (users st) (users_seq st) (auth_records st) (auth_records_seq st)
             (SQL.delete (same_key k) (settings st) ++ [(k, v)])).

(** *** The application: each route with its middleware chain *)

Definition handle (st : State) (req : Request) : Response * State :=
  match route req with
  | POST_auth_login body => express st (post_auth_login st req body)
  | POST_auth_logout => post_auth_logout st
  | GET_auth_me => authenticateToken req st (fun user => get_auth_me st user)
  | GET_users => authenticateToken req st (fun user => isAdmin st user (get_users st))
  | GET_users_stats =>
      authenticateToken req st (fun user => isAdmin st user (get_users_stats st req))
  | POST_users body =>
      authenticateToken req st (fun user => isAdmin st user (post_users st req body))
  | PATCH_users id body =>
      authenticateToken req st (fun user => isAdmin st user (patch_users st req id body))
  | DELETE_users id =>
      authenticateToken req st (fun user => isAdmin st user (delete_users st id))
  | POST_auth_change_password currentPassword newPassword =>
      authenticateToken req st (fun user =>
        express st (post_auth_change_password st req user currentPassword newPassword))
  | GET_records => authenticateToken req st (fun _ => get_records st)
  | GET_records_deleted => authenticateToken req st (fun _ => get_records_deleted st)
  | GET_records_stats => authenticateToken req st (fun _ => get_records_stats st req)
  | POST_records body =>
      authenticateToken req st (fun user => express st (post_records st req user body))
  | PUT_records id body =>
      authenticateToken req st (fun _ => express st (put_records st req id body))
  | DELETE_records id =>
      authenticateToken req st (fun user => isAdmin st user (delete_records st req id))
  | POST_records_restore id =>
      authenticateToken req st (fun _ => post_records_restore st req id)
  | DELETE_records_permanent id =>
      authenticateToken req st (fun user => isAdmin st user (delete_records_permanent st id))
  | GET_settings => authenticateToken req st (fun _ => get_settings st)
  | POST_settings key value =>
      authenticateToken req st (fun _ => express st (post_settings st key value))
  end.

(** *** Vocabulary of the properties *)

(** The routes whose chain holds [authenticateToken], and those whose chain
    also holds [isAdmin]. *)
Definition behind_authenticateToken (r : Route) : bool :=
  match r with
  | POST_auth_login _ | POST_auth_logout => false
  | _ => true
  end.

Definition admin_only (r : Route) : bool :=
  match r with
  | GET_users | GET_users_stats | POST_users _ | PATCH_users _ _ | DELETE_users _
  | DELETE_records _ | DELETE_records_permanent _ => true
  | _ => false
  end.

(** The claims of the request's session, when its cookie verifies. *)
Definition verified (req : Request) : option JwtPayload.t :=
  match cookies_token req with
  | Some token => jwt.verify token SESSION_SECRET (now req)
  | None => None
  end.

(** The body as the record statements see it: the checklist stringified. *)
Definition stringified (body : Fields.t JsValue) : Fields.t JsValue :=
  Fields.mk (Fields.visit_type body) (Fields.insurance body) (Fields.insurance_id body)
    (Fields.patient_name body) (Fields.dob body) (Fields.account_number body)
    (Fields.p_r body) (Fields.doctor_name body) (Fields.procedure_codes body)
    (Fields.dx_codes body) (Fields.status body) (Fields.request_initiated body)
    (Fields.insurance_portal_name body) (Fields.rep_name body) (Fields.phone_number body)
    (Fields.auth_case_number body) (Fields.ref_number body) (Fields.date_worked body)
    (Fields.call_time_spent body) (JSON.stringify (Fields.checklist body))
    (Fields.notes body).

End Server.

(** The constraints of the schema on the two main tables: [id] is a primary
    key of both and [username] is UNIQUE. *)
Definition wf_state (st : State) : Prop :=
  NoDup (map Users.id (users st)) /\
  NoDup (map Users.username (users st)) /\
  NoDup (map AuthRecords.id (auth_records st)).

(** A value that fills one placeholder, or an absent key: a string, null or
    undefined. *)
Definition textual (v : JsValue) : bool :=
  match v with
  | JsUndefined | JsNull | JsString _ => true
  | JsBoolean _ | JsObject _ => false
  end.

Definition fields_all (p : JsValue -> bool) (x : Fields.t JsValue) : bool :=
  p (Fields.visit_type x) && p (Fields.insurance x) && p (Fields.insurance_id x)
  && p (Fields.patient_name x) && p (Fields.dob x) && p (Fields.account_number x)
  && p (Fields.p_r x) && p (Fields.doctor_name x) && p (Fields.procedure_codes x)
  && p (Fields.dx_codes x) && p (Fields.status x) && p (Fields.request_initiated x)
  && p (Fields.insurance_portal_name x) && p (Fields.rep_name x)
  && p (Fields.phone_number x) && p (Fields.auth_case_number x)
  && p (Fields.ref_number x) && p (Fields.date_worked x)
  && p (Fields.call_time_spent x) && p (Fields.checklist x) && p (Fields.notes x).

(** The seven statuses of [AuthStatus] in [types.ts]. *)
Definition AuthStatus : list string :=
  ["Pending"; "Approved"; "Denied"; "Not Required"; "Follow Up"; "Cancelled"; "Not Covered"].

Definition enumerated_status (r : AuthRecords.row) : bool :=
  existsb (SQL.text_is (AuthRecords.status r)) AuthStatus.

(** A count of the stats row read as a number: NULL, the SUM over no rows,
    reads as 0. *)
Definition number (count : option Z) : Z :=
  match count with
  | Some n => n
  | None => 0
  end.

Definition sum_of_statuses (s : Stats) : Z :=
  number (pending s) + number (approved s) + number (denied s) + number (not_required s)
  + number (follow_up s) + number (cancelled s) + number (not_covered s).

(** A cookie that is absent or empty. *)
Definition no_token (req : Request) : bool :=
  match cookies_token req with
  | None => true
  | Some token => empty_token token
  end.

(** ** Start-up and sequences of requests *)

Section Startup.

Context {platform : Platform}.

(** [process.env.ADMIN_PASSWORD || "admin-password"] *)
Definition ADMIN_PASSWORD (env_ADMIN_PASSWORD : option string) : string :=
  match env_ADMIN_PASSWORD with
  | Some s => if String.eqb s EmptyString then "admin-password" else s
  | None => "admin-password"
  end.

(** Seed Admin User if not exists: without a row named "admin" one is
    inserted with the configured password; a row whose password is still the
    old default "admin" gets the password "admin-password" and the role
    admin; any other row named "admin" is left alone. *)
Definition seed_admin (env_ADMIN_PASSWORD : option string) (salt : string) (st : State)
    : Result State :=
  match select_user_by_username st (Some "admin") with
  | None =>
      insert_user st (Some "admin")
        (bcrypt_hash salt (ADMIN_PASSWORD env_ADMIN_PASSWORD)) (Some "admin")
  | Some adminUser =>
      if bcrypt_compare "admin" (Users.password adminUser) then
        Returns (set_users st
                   (SQL.update (fun u => String.eqb (Users.username u) "admin")
                      (fun u => Users.mk (Users.id u) (Users.username u)
                                  (bcrypt_hash salt "admin-password") (Some "admin"))
                      (users st))
                   (users_seq st))
      else Returns st
  end.

(** The database after a sequence of requests, served one after the other. *)
Fixpoint run (st : State) (reqs : list Request) : State :=
  match reqs with
  | [] => st
  | req :: rest => run (snd (handle st req)) rest
  end.

End Startup.

(** The orders of the two listings. *)
Definition date_worked_desc (a b : AuthRecords.row) : Prop :=
  SQL.text_leb (AuthRecords.date_worked b) (AuthRecords.date_worked a) = true.

Definition updated_at_desc (a b : AuthRecords.row) : Prop :=
  AuthRecords.updated_at b <= AuthRecords.updated_at a.

(** What one request can do to the [auth_records] table: nothing; rewrite
    the rows with one id by a function that keeps [id], [user_id] and
    [created_at]; delete the trashed rows with one id; or append one row
    under a fresh key. *)
Definition records_transition (st st' : State) : Prop :=
  (auth_records st' = auth_records st /\ auth_records_seq st' = auth_records_seq st)
  \/ (exists id set,
        auth_records st' = SQL.update (has_id id) set (auth_records st)
        /\ auth_records_seq st' = auth_records_seq st
        /\ forall r, AuthRecords.id (set r) = AuthRecords.id r
                     /\ AuthRecords.user_id (set r) = AuthRecords.user_id r
                     /\ AuthRecords.created_at (set r) = AuthRecords.created_at r)
  \/ (exists id,
        auth_records st' = SQL.delete (fun r => has_id id r && trashed r) (auth_records st)
        /\ auth_records_seq st' = auth_records_seq st)
  \/ (exists row,
        auth_records st' = auth_records st ++ [row]
        /\ AuthRecords.id row
           = SQL.next_rowid (auth_records_seq st) (map AuthRecords.id (auth_records st))
        /\ auth_records_seq st' = AuthRecords.id row).

(** The AUTOINCREMENT counter is at least every key in the table. *)
Definition ids_bounded (st : State) : Prop :=
  forall r, In r (auth_records st) -> AuthRecords.id r <= auth_records_seq st.

(** The routes whose handler holds a statement that writes to a table. *)
Definition writes_users (r : Route) : bool :=
  match r with
  | POST_users _ | PATCH_users _ _ | DELETE_users _ | POST_auth_change_password _ _ => true
  | _ => false
  end.

Definition writes_records (r : Route) : bool :=
  match r with
  | POST_records _ | PUT_records _ _ | DELETE_records _ | POST_records_restore _
  | DELETE_records_permanent _ => true
  | _ => false
  end.

Definition writes_settings (r : Route) : bool :=
  match r with
  | POST_settings _ _ => true
  | _ => false
  end.

(** The routes that only read. *)
Definition read_only (r : Route) : bool :=
  match r with
  | GET_auth_me | GET_users | GET_users_stats | GET_records | GET_records_deleted
  | GET_records_stats | GET_settings => true
  | _ => false
  end.

(** ** Concrete data, to run the model *)

(** A platform whose hashing is the identity and whose calendar never leaves
    its first day; the argument is the driver's treatment of [undefined]. *)
Definition simple_platform (undefined_is_null : bool) : Platform := {|
  env_SESSION_SECRET := None;
  bcrypt_hash := fun _ s => s;
  bcrypt_compare := String.eqb;
  binds_undefined := undefined_is_null;
  date_of_text := fun text => Some text;
  date_utc := fun _ => "1970-01-01";
  date_localtime := fun _ => "1970-01-01";
  strftime_localtime := fun _ _ => "01" |}.

Definition admin_row : Users.row := Users.mk 1 "admin" "admin-password" (Some "admin").
Definition erin_row : Users.row := Users.mk 2 "erin" "pw" (Some "employee").
Definition alex_row : Users.row := Users.mk 3 "alex" "pw3" (Some "admin").

(** Tokens as login issues them at time 0 under the default secret. *)
Definition admin_token : Token := jwt.sign 1 "admin" "default-secret-key" 0.
Definition erin_token : Token := jwt.sign 2 "erin" "default-secret-key" 0.
Definition alex_token : Token := jwt.sign 3 "alex" "default-secret-key" 0.
(** A token for a user id that no row carries, and one signed with another key. *)
Definition ghost_token : Token := jwt.sign 99 "ghost" "default-secret-key" 0.
Definition forged_token : Token := jwt.sign 1 "admin" "another-key" 0.

Definition blank : Fields.t (option string) := Fields.all None.

Definition with_status (s : option string) : Fields.t (option string) :=
  Fields.mk None None None (Some "Pat Doe") None None None None None None
    s None None None None None None (Some "2024-05-01") None None None.

Definition pending_record : AuthRecords.row :=
  AuthRecords.mk 1 (with_status (Some "Pending")) 0 2 10 10.
Definition trashed_record : AuthRecords.row :=
  AuthRecords.mk 2 (with_status (Some "Denied")) 1 2 20 30.
Definition archived_record : AuthRecords.row :=
  AuthRecords.mk 3 (with_status (Some "Archived")) 0 2 40 40.

Definition empty_db : State := mkState [admin_row; erin_row; alex_row] 3 [] 0 [].
Definition small_db : State :=
  mkState [admin_row; erin_row; alex_row] 3 [pending_record; trashed_record] 2 [].

(** A body with a name and nothing else, and the same with a status. *)
Definition body_with_status (status : JsValue) : Fields.t JsValue :=
  Fields.mk (JsString "Office") (JsString "Acme") (JsString "I-1") (JsString "Pat Doe")
    (JsString "1990-01-01") (JsString "A-1") (JsString "P") (JsString "Dr. Lee")
    (JsString "99213") (JsString "Z00") status (JsString "2024-05-01") (JsString "portal")
    (JsString "rep") (JsString "555") (JsString "C-1") (JsString "R-1")
    (JsString "2024-05-02") (JsString "5m") (JsString "{}") (JsString "none").

Definition request (token : option Token) (r : Route) (now : Z) : Request :=
  mkRequest token r now "salt".

(** The parameters the driver binds for [body_with_status (JsString s)]. *)
Definition bound_with_status (s : option string) : Fields.t (option string) :=
  Fields.mk (Some "Office") (Some "Acme") (Some "I-1") (Some "Pat Doe")
    (Some "1990-01-01") (Some "A-1") (Some "P") (Some "Dr. Lee")
    (Some "99213") (Some "Z00") s (Some "2024-05-01") (Some "portal")
    (Some "rep") (Some "555") (Some "C-1") (Some "R-1")
    (Some "2024-05-02") (Some "5m") (Some (JSON.quote "{}")) (Some "none").

(** The two drivers. *)
Definition null_driver : Platform := simple_platform true.
Definition strict_driver : Platform := simple_platform false.

Definition forged_request : Request := request (Some forged_token) GET_records 5.
Definition garbage_request : Request :=
  request (Some (Malformed "not-a-token")) GET_records 5.
Definition expired_request : Request := request (Some erin_token) GET_records 86400.
Definition anonymous_request : Request := request None GET_records 5.

Definition purge_trashed : Request :=
  request (Some admin_token) (DELETE_records_permanent 2) 50.
Definition soft_delete_pending : Request := request (Some admin_token) (DELETE_records 1) 50.
Definition restore_pending : Request := request (Some erin_token) (POST_records_restore 1) 60.

Definition create_archived : Request :=
  request (Some erin_token) (POST_records (body_with_status (JsString "Archived"))) 40.
Definition create_without_status : Request :=
  request (Some erin_token) (POST_records (body_with_status JsUndefined)) 40.
Definition create_with_null_status : Request :=
  request (Some erin_token) (POST_records (body_with_status JsNull)) 40.

Definition update_pending : Request :=
  request (Some erin_token) (PUT_records 1 (body_with_status (JsString "Approved"))) 70.
Definition update_missing : Request :=
  request (Some erin_token) (PUT_records 7 (body_with_status (JsString "Approved"))) 70.
Definition restore_missing : Request := request (Some erin_token) (POST_records_restore 7) 70.
Definition soft_delete_missing : Request := request (Some admin_token) (DELETE_records 7) 70.

Definition alex_logs_in : Request :=
  request None (POST_auth_login (mkUserBody (JsString "alex") (JsString "pw3") JsUndefined)) 0.
Definition admin_demotes_alex : Request :=
  request (Some admin_token)
    (PATCH_users 3 (mkUserBody (JsString "alex") JsUndefined (JsString "employee"))) 100.
Definition alex_lists_users : Request := request (Some alex_token) GET_users 200.

Definition ghost_creates : Request :=
  request (Some ghost_token) (POST_records (body_with_status (JsString "Pending"))) 40.
Definition ghost_views : Request := request (Some ghost_token) GET_records 40.
Definition ghost_updates : Request :=
  request (Some ghost_token) (PUT_records 1 (body_with_status (JsString "Approved"))) 40.
Definition ghost_restores : Request := request (Some ghost_token) (POST_records_restore 2) 40.
Definition ghost_lists_users : Request := request (Some ghost_token) GET_users 40.

Definition erin_wrong_password : Request :=
  request None (POST_auth_login (mkUserBody (JsString "erin") (JsString "nope") JsUndefined)) 0.
Definition zed_logs_in : Request :=
  request None (POST_auth_login (mkUserBody (JsString "zed") (JsString "pw") JsUndefined)) 0.
Definition logout_request : Request := request (Some erin_token) POST_auth_logout 5.
Definition after_logout : Request := request (Some (Malformed EmptyString)) GET_records 6.
Definition purge_pending : Request :=
  request (Some admin_token) (DELETE_records_permanent 1) 55.
Definition erin_views_trash : Request := request (Some erin_token) GET_records_deleted 5.
Definition alex_deletes_admin : Request := request (Some alex_token) (DELETE_users 1) 5.
Definition admin_deletes_erin : Request := request (Some admin_token) (DELETE_users 2) 5.
Definition admin_creates_erin : Request :=
  request (Some admin_token)
    (POST_users (mkUserBody (JsString "erin") (JsString "x") JsUndefined)) 5.
Definition admin_creates_zoe : Request :=
  request (Some admin_token)
    (POST_users (mkUserBody (JsString "zoe") (JsString "pw9") JsUndefined)) 5.
Definition zoe_logs_in : Request :=
  request None (POST_auth_login (mkUserBody (JsString "zoe") (JsString "pw9") JsUndefined)) 9.
Definition admin_renames_erin : Request :=
  request (Some admin_token)
    (PATCH_users 2 (mkUserBody (JsString "alex") JsUndefined (JsString "employee"))) 5.
Definition admin_edits_nobody : Request :=
  request (Some admin_token)
    (PATCH_users 7 (mkUserBody (JsString "alex") JsUndefined (JsString "employee"))) 5.
Definition admin_renames_erin_with_password : Request :=
  request (Some admin_token)
    (PATCH_users 2 (mkUserBody (JsString "alex") (JsString "secret") (JsString "employee"))) 5.
Definition admin_edits_nobody_with_password : Request :=
  request (Some admin_token)
    (PATCH_users 7 (mkUserBody (JsString "alex") (JsString "secret") (JsString "employee"))) 5.
Definition erin_changes_password : Request :=
  request (Some erin_token) (POST_auth_change_password (JsString "pw") (JsString "new")) 5.
Definition erin_wrong_current : Request :=
  request (Some erin_token) (POST_auth_change_password (JsString "no") (JsString "new")) 5.
Definition erin_logs_in_anew : Request :=
  request None (POST_auth_login (mkUserBody (JsString "erin") (JsString "new") JsUndefined)) 9.
Definition alex_renames_admin : Request :=
  request (Some alex_token)
    (PATCH_users 1 (mkUserBody (JsString "root") JsUndefined (JsString "admin"))) 5.
Definition erin_writes_setting : Request :=
  request (Some erin_token) (POST_settings (JsString "theme") (JsString "dark")) 5.
Definition erin_reads_settings : Request := request (Some erin_token) GET_settings 6.
Definition no_users : State := mkState [] 0 [] 0 [].
Definition themed_db : State :=
  mkState [admin_row; erin_row; alex_row] 3 [pending_record; trashed_record] 2
    [(Some "theme", Some "light"); (Some "lang", Some "en")].
Definition a_day_of_requests : list Request :=
  [update_pending; soft_delete_pending; create_archived; purge_trashed; restore_pending;
   admin_creates_zoe; admin_deletes_erin].

(** Distinct keys of a concrete table. *)
Ltac distinct_keys :=
  repeat split; simpl;
  repeat (constructor; [simpl; intuition (discriminate || lia)|]); constructor.

(** ** Properties *)

Section Properties.

Context {platform : Platform}.

(** *** The two middlewares *)

Lemma authenticateToken_verified (req : Request) (st : State)
    (next : JwtPayload.t -> Response * State) (user : JwtPayload.t) :
  verified req = Some user -> authenticateToken req st next = next user.
Proof.
  unfold verified, authenticateToken.
  destruct (cookies_token req) as [token|]; [|discriminate].
  intros Hv. rewrite Hv.
  destruct token as [text|key payload]; [discriminate|reflexivity].
Qed.

Lemma authenticateToken_rejects (req : Request) (st : State)
    (next : JwtPayload.t -> Response * State) :
  verified req = None ->
  authenticateToken req st next =
    (if no_token req then res_error 401 "Unauthorized" else res_error 403 "Forbidden", st).
Proof.
  unfold verified, authenticateToken, no_token.
  destruct (cookies_token req) as [token|]; [|reflexivity].
  intros Hv. rewrite Hv. destruct (empty_token token); reflexivity.
Qed.

Lemma strict_eq_string_true (a : option string) (text : string) :
  strict_eq_string a text = true <-> a = Some text.
Proof.
  destruct a as [s|]; simpl.
  - rewrite String.eqb_eq. split; congruence.
  - split; discriminate.
Qed.

Lemma isAdmin_denies (st : State) (user : JwtPayload.t) (next : Response * State) :
  select_role st (JwtPayload.id user) <> Some (Some "admin") ->
  isAdmin st user next = (res_error 403 "Admin access required", st).
Proof.
  unfold isAdmin. intros Hrole.
  destruct (select_role st (JwtPayload.id user)) as [role|]; [|reflexivity].
  destruct (strict_eq_string role "admin") eqn:E; [|reflexivity].
  apply strict_eq_string_true in E. congruence.
Qed.

Lemma isAdmin_allows (st : State) (user : JwtPayload.t) (next : Response * State) :
  select_role st (JwtPayload.id user) = Some (Some "admin") ->
  isAdmin st user next = next.
Proof.
  unfold isAdmin. intros ->. reflexivity.
Qed.

(** A route behind [isAdmin], asked by a session whose stored role is not
    admin, is answered 403 and writes nothing. *)
Lemma admin_only_denied (st : State) (req : Request) (user : JwtPayload.t) :
  admin_only (route req) = true ->
  verified req = Some user ->
  select_role st (JwtPayload.id user) <> Some (Some "admin") ->
  handle st req = (res_error 403 "Admin access required", st).
Proof.
  intros Hadmin Hv Hrole. unfold handle.
  destruct (route req); try discriminate Hadmin;
    rewrite (authenticateToken_verified _ _ _ _ Hv); apply isAdmin_denies; exact Hrole.
Qed.

(** *** Statements on a table *)

Lemma In_insert_by {A : Type} (leb : A -> A -> bool) (x y : A) (l : list A) :
  In x (SQL.insert_by leb y l) <-> x = y \/ In x l.
Proof.
  induction l as [|z l IH]; simpl.
  - intuition congruence.
  - destruct (leb y z); simpl; [intuition congruence|].
    rewrite IH. intuition congruence.
Qed.

Lemma In_order_by {A : Type} (leb : A -> A -> bool) (x : A) (l : list A) :
  In x (SQL.order_by leb l) <-> In x l.
Proof.
  unfold SQL.order_by. induction l as [|y l IH]; simpl; [tauto|].
  rewrite In_insert_by, IH. intuition congruence.
Qed.

Lemma update_no_match {A : Type} (where_ : A -> bool) (set : A -> A) (t : list A) :
  (forall r, In r t -> where_ r = false) -> SQL.update where_ set t = t.
Proof.
  unfold SQL.update. induction t as [|r t IH]; simpl; intros Hno; [reflexivity|].
  rewrite (Hno r) by auto. f_equal. apply IH. auto.
Qed.

Lemma changes_no_match {A : Type} (where_ : A -> bool) (t : list A) :
  (forall r, In r t -> where_ r = false) -> SQL.changes where_ t = 0.
Proof.
  unfold SQL.changes. induction t as [|r t IH]; simpl; intros Hno; [reflexivity|].
  rewrite (Hno r) by auto. apply IH. auto.
Qed.

Lemma In_update {A : Type} (where_ : A -> bool) (set : A -> A) (t : list A) (r : A) :
  In r t -> where_ r = true -> In (set r) (SQL.update where_ set t).
Proof.
  intros Hin Hw. unfold SQL.update.
  apply in_map_iff. exists r. rewrite Hw. auto.
Qed.

Lemma In_delete {A : Type} (where_ : A -> bool) (t : list A) (r : A) :
  In r (SQL.delete where_ t) <-> In r t /\ where_ r = false.
Proof.
  unfold SQL.delete. rewrite filter_In, negb_true_iff. tauto.
Qed.

Lemma ids_update (where_ : AuthRecords.row -> bool) (set : AuthRecords.row -> AuthRecords.row)
    (t : list AuthRecords.row) :
  (forall r, AuthRecords.id (set r) = AuthRecords.id r) ->
  map AuthRecords.id (SQL.update where_ set t) = map AuthRecords.id t.
Proof.
  intros Hid. unfold SQL.update. rewrite map_map. apply map_ext.
  intros r. destruct (where_ r); auto.
Qed.

(** Under a primary key or a UNIQUE constraint, the row with a given key is
    the only one, and a lookup by that key finds it. *)
Lemma unique_key {A K : Type} (key : A -> K) (t : list A) (r x : A) :
  NoDup (map key t) -> In r t -> In x t -> key x = key r -> x = r.
Proof.
  induction t as [|y t IH]; simpl; intros Hnd Hr Hx Heq; [contradiction|].
  inversion Hnd as [|? ? Hnotin Hnd']; subst.
  destruct Hr as [->|Hr], Hx as [->|Hx]; auto.
  - exfalso. apply Hnotin. rewrite <- Heq. apply in_map. exact Hx.
  - exfalso. apply Hnotin. rewrite Heq. apply in_map. exact Hr.
Qed.

Lemma get_unique {A K : Type} (key : A -> K) (where_ : A -> bool) (t : list A) (r : A) :
  (forall x, where_ x = true <-> key x = key r) ->
  NoDup (map key t) -> In r t -> SQL.get where_ t = Some r.
Proof.
  intros Hw Hnd Hin. unfold SQL.get.
  destruct (find where_ t) as [x|] eqn:F.
  - apply find_some in F. destruct F as [Hx Hk]. apply Hw in Hk.
    f_equal. eapply unique_key; eauto.
  - exfalso. apply (find_none _ _ F) in Hin.
    assert (where_ r = true) by (apply Hw; reflexivity). congruence.
Qed.

Lemma get_by_id (t : list AuthRecords.row) (r : AuthRecords.row) :
  NoDup (map AuthRecords.id t) -> In r t ->
  SQL.get (has_id (AuthRecords.id r)) t = Some r.
Proof.
  intros Hnd Hin. apply get_unique with (key := AuthRecords.id); auto.
  intros x. apply Z.eqb_eq.
Qed.

Lemma set_auth_records_same (st : State) :
  set_auth_records st (auth_records st) (auth_records_seq st) = st.
Proof. destruct st; reflexivity. Qed.

(** *** Authentication failures *)

(** C2, as the code has it: on every route behind [authenticateToken], a
    request whose cookie does not verify is answered 401 "Unauthorized" only
    when the cookie is absent or empty; a token that is present and fails
    verification (malformed, signed with another key, or expired) is answered
    403 "Forbidden".  Either way nothing is written. *)
Theorem invalid_token_is_forbidden (st : State) (req : Request) :
  behind_authenticateToken (route req) = true ->
  verified req = None ->
  handle st req =
    (if no_token req then res_error 401 "Unauthorized" else res_error 403 "Forbidden", st).
Proof.
  intros Hroute Hv. unfold handle.
  destruct (route req); try discriminate Hroute;
    apply authenticateToken_rejects; exact Hv.
Qed.

(** *** The admin gate *)


(** *** The record lifecycle *)

Lemma handle_purge_table (st : State) (req : Request) (id : Z) :
  route req = DELETE_records_permanent id ->
  auth_records (snd (handle st req)) = auth_records st
  \/ auth_records (snd (handle st req))
     = SQL.delete (fun r => has_id id r && trashed r) (auth_records st).
Proof.
  intros Hroute. unfold handle. rewrite Hroute.
  unfold authenticateToken, isAdmin, delete_records_permanent.
  destruct (cookies_token req) as [token|]; [|left; reflexivity].
  destruct (empty_token token); [left; reflexivity|].
  destruct (jwt.verify token SESSION_SECRET (now req)) as [user|]; [|left; reflexivity].
  destruct (select_role st (JwtPayload.id user)) as [role|]; [|left; reflexivity].
  destruct (strict_eq_string role "admin"); [right|left]; reflexivity.
Qed.

(** C1: whoever sends it, a purge request removes a row only if the row has
    the requested id and [is_deleted = 1]; an active row is never removed.
    When an admin purges a trashed record, no row with its id is left in the
    active listing or in the trash listing. *)
Theorem purge_only_trashed (st : State) (req : Request) (id : Z) :
  route req = DELETE_records_permanent id ->
  (forall r, In r (auth_records st) -> ~ In r (auth_records (snd (handle st req))) ->
             AuthRecords.id r = id /\ AuthRecords.is_deleted r = 1)
  /\ (forall r, In r (auth_records st) -> AuthRecords.is_deleted r = 0 ->
                In r (auth_records (snd (handle st req))))
  /\ (forall user r,
        wf_state st ->
        verified req = Some user ->
        select_role st (JwtPayload.id user) = Some (Some "admin") ->
        In r (auth_records st) -> AuthRecords.id r = id -> AuthRecords.is_deleted r = 1 ->
        fst (handle st req) = res_json json_success
        /\ (forall x, In x (select_active (snd (handle st req))) -> AuthRecords.id x <> id)
        /\ (forall x, In x (select_deleted (snd (handle st req))) -> AuthRecords.id x <> id)).
Proof.
  intros Hroute.
  assert (Hkept : forall r, In r (auth_records st) ->
            ~ In r (auth_records (snd (handle st req))) ->
            AuthRecords.id r = id /\ AuthRecords.is_deleted r = 1).
  { intros r Hin Hgone.
    destruct (handle_purge_table st req id Hroute) as [E|E]; rewrite E in Hgone.
    - contradiction.
    - rewrite In_delete in Hgone.
      destruct (has_id id r && trashed r) eqn:W.
      + apply andb_true_iff in W. destruct W as [Hi Ht].
        unfold has_id in Hi. unfold trashed in Ht.
        apply Z.eqb_eq in Hi. apply Z.eqb_eq in Ht. auto.
      + exfalso. auto. }
  split; [exact Hkept|]. split.
  - intros r Hin Hactive.
    destruct (handle_purge_table st req id Hroute) as [E|E]; rewrite E; [exact Hin|].
    apply In_delete. split; [exact Hin|].
    unfold trashed. rewrite Hactive. apply andb_false_r.
  - intros user r (_ & _ & Hnd) Hv Hrole Hin Hid Hdel.
    unfold handle. rewrite Hroute.
    rewrite (authenticateToken_verified _ _ _ _ Hv).
    rewrite (isAdmin_allows _ _ _ Hrole). simpl.
    split; [reflexivity|].
    assert (Hgone : forall x,
              In x (SQL.delete (fun r => has_id id r && trashed r) (auth_records st)) ->
              AuthRecords.id x <> id).
    { intros x Hx Heq. apply In_delete in Hx. destruct Hx as [Hx Hw].
      assert (x = r) by (eapply unique_key with (key := AuthRecords.id); eauto; congruence).
      subst x.
      unfold has_id, trashed in Hw.
      rewrite Hid, Hdel in Hw. rewrite !Z.eqb_refl in Hw. discriminate. }
    split; intros x Hx.
    + unfold select_active in Hx. apply In_order_by in Hx. simpl in Hx.
      apply filter_In in Hx. apply Hgone. tauto.
    + unfold select_deleted in Hx. apply In_order_by in Hx. simpl in Hx.
      apply filter_In in Hx. apply Hgone. tauto.
Qed.


(** C5: an admin soft-deletes an active record and any session restores it.
    In between the record is trashed with [updated_at] refreshed; afterwards
    the record with that id has every column of the record before the delete,
    except [updated_at], which holds the time of the restore. *)
Theorem soft_delete_then_restore (st : State) (req1 req2 : Request)
    (admin user : JwtPayload.t) (r : AuthRecords.row) :
  wf_state st ->
  In r (auth_records st) ->
  AuthRecords.is_deleted r = 0 ->
  route req1 = DELETE_records (AuthRecords.id r) ->
  verified req1 = Some admin ->
  select_role st (JwtPayload.id admin) = Some (Some "admin") ->
  route req2 = POST_records_restore (AuthRecords.id r) ->
  verified req2 = Some user ->
  let st1 := snd (handle st req1) in
  let st2 := snd (handle st1 req2) in
  SQL.get (has_id (AuthRecords.id r)) (auth_records st1)
    = Some (AuthRecords.mk (AuthRecords.id r) (AuthRecords.cols r) 1
              (AuthRecords.user_id r) (AuthRecords.created_at r) (now req1))
  /\ SQL.get (has_id (AuthRecords.id r)) (auth_records st2)
    = Some (AuthRecords.mk (AuthRecords.id r) (AuthRecords.cols r)
              (AuthRecords.is_deleted r) (AuthRecords.user_id r)
              (AuthRecords.created_at r) (now req2)).
Proof.
  intros (_ & _ & Hnd) Hin Hactive Hr1 Hv1 Hrole Hr2 Hv2 st1 st2.
  assert (E1 : auth_records st1
               = SQL.update (has_id (AuthRecords.id r)) (set_is_deleted 1 (now req1))
                            (auth_records st)).
  { subst st1. unfold handle. rewrite Hr1.
    rewrite (authenticateToken_verified _ _ _ _ Hv1).
    rewrite (isAdmin_allows _ _ _ Hrole). reflexivity. }
  assert (E2 : auth_records st2
               = SQL.update (has_id (AuthRecords.id r)) (set_is_deleted 0 (now req2))
                            (auth_records st1)).
  { subst st2. unfold handle. rewrite Hr2.
    rewrite (authenticateToken_verified _ _ _ _ Hv2). reflexivity. }
  assert (Hself : has_id (AuthRecords.id r) r = true) by apply Z.eqb_refl.
  assert (Hnd1 : NoDup (map AuthRecords.id (auth_records st1))).
  { rewrite E1, ids_update; [exact Hnd|reflexivity]. }
  assert (Hin1 : In (set_is_deleted 1 (now req1) r) (auth_records st1)).
  { rewrite E1. apply In_update; assumption. }
  split.
  - apply (get_by_id _ (set_is_deleted 1 (now req1) r) Hnd1 Hin1).
  - assert (Hnd2 : NoDup (map AuthRecords.id (auth_records st2))).
    { rewrite E2, ids_update; [exact Hnd1|reflexivity]. }
    assert (Hin2 : In (set_is_deleted 0 (now req2) (set_is_deleted 1 (now req1) r))
                     (auth_records st2)).
    { rewrite E2. apply In_update; assumption. }
    rewrite Hactive.
    apply (get_by_id _ _ Hnd2 Hin2).
Qed.

(** C9: when no row has the requested id, an update (with a body the driver
    can bind), a restore and an admin's soft-delete are each answered with
    success, [{ success: true }] under status 200; the statement changes zero
    rows and the database is left as it was. *)
Theorem missing_id_is_silent_success (st : State) (req : Request) (id : Z)
    (user : JwtPayload.t) :
  verified req = Some user ->
  (forall r, In r (auth_records st) -> AuthRecords.id r <> id) ->
  SQL.changes (has_id id) (auth_records st) = 0
  /\ (forall body vals,
        route req = PUT_records id body -> record_params body = Returns vals ->
        handle st req = (mkResponse 200 json_success None, st))
  /\ (route req = POST_records_restore id ->
      handle st req = (mkResponse 200 json_success None, st))
  /\ (route req = DELETE_records id ->
      select_role st (JwtPayload.id user) = Some (Some "admin") ->
      handle st req = (mkResponse 200 json_success None, st)).
Proof.
  intros Hv Habsent.
  assert (Hno : forall r, In r (auth_records st) -> has_id id r = false).
  { intros r Hin. unfold has_id. apply Z.eqb_neq. auto. }
  split; [apply changes_no_match; exact Hno|].
  split; [|split].
  - intros body vals Hroute Hbind. unfold handle. rewrite Hroute.
    rewrite (authenticateToken_verified _ _ _ _ Hv).
    unfold put_records. rewrite Hbind. simpl.
    rewrite update_no_match by exact Hno.
    rewrite set_auth_records_same. reflexivity.
  - intros Hroute. unfold handle. rewrite Hroute.
    rewrite (authenticateToken_verified _ _ _ _ Hv).
    unfold post_records_restore.
    rewrite update_no_match by exact Hno.
    rewrite set_auth_records_same. reflexivity.
  - intros Hroute Hrole. unfold handle. rewrite Hroute.
    rewrite (authenticateToken_verified _ _ _ _ Hv).
    rewrite (isAdmin_allows _ _ _ Hrole).
    unfold delete_records.
    rewrite update_no_match by exact Hno.
    rewrite set_auth_records_same. reflexivity.
Qed.


(** *** Create and update *)

(** The parameters a record statement binds are the properties of the body,
    each through [bind], the checklist stringified first. *)
Lemma record_params_returns (body : Fields.t JsValue) (vals : Fields.t (option string)) :
  record_params body = Returns vals ->
  Fields.map Returns vals = Fields.map bind (stringified body).
Proof.
  unfold record_params, stringified, Fields.map. simpl.
  repeat match goal with
         | |- context [bind_result (bind ?v) _] =>
             destruct (bind v); simpl; [|discriminate]
         end.
  intros E. injection E as <-. reflexivity.
Qed.

Lemma record_params_status (body : Fields.t JsValue) (vals : Fields.t (option string)) :
  record_params body = Returns vals ->
  bind (Fields.status body) = Returns (Fields.status vals).
Proof.
  intros E. apply record_params_returns in E.
  apply (f_equal (fun x => Fields.status x)) in E. simpl in E. symmetry. exact E.
Qed.

(** C8: an update overwrites the twenty-one editable columns of the row with
    the requested id by the bound properties of the body and sets
    [updated_at] to the current time; [id], [is_deleted], [created_at] and
    [user_id] of that row, every other row and the [users] table stay as they
    were. *)
Theorem update_overwrites_editable_columns (st : State) (req : Request) (id : Z)
    (body : Fields.t JsValue) (vals : Fields.t (option string)) (user : JwtPayload.t) :
  route req = PUT_records id body ->
  verified req = Some user ->
  record_params body = Returns vals ->
  let st' := snd (handle st req) in
  fst (handle st req) = res_json json_success
  /\ Fields.map Returns vals = Fields.map bind (stringified body)
  /\ auth_records st'
     = map (fun r => if AuthRecords.id r =? id
                     then AuthRecords.mk (AuthRecords.id r) vals (AuthRecords.is_deleted r)
                            (AuthRecords.user_id r) (AuthRecords.created_at r) (now req)
                     else r) (auth_records st)
  /\ users st' = users st
  /\ (forall r, wf_state st -> In r (auth_records st) -> AuthRecords.id r = id ->
        exists r', SQL.get (has_id id) (auth_records st') = Some r'
          /\ AuthRecords.cols r' = vals
          /\ AuthRecords.updated_at r' = now req
          /\ AuthRecords.id r' = AuthRecords.id r
          /\ AuthRecords.is_deleted r' = AuthRecords.is_deleted r
          /\ AuthRecords.created_at r' = AuthRecords.created_at r
          /\ AuthRecords.user_id r' = AuthRecords.user_id r).
Proof.
  intros Hroute Hv Hbind st'.
  assert (E : handle st req
              = (res_json json_success,
                 set_auth_records st
                   (SQL.update (has_id id) (overwrite vals (now req)) (auth_records st))
                   (auth_records_seq st))).
  { unfold handle. rewrite Hroute.
    rewrite (authenticateToken_verified _ _ _ _ Hv).
    unfold put_records. rewrite Hbind. reflexivity. }
  subst st'. rewrite E. simpl.
  split; [reflexivity|].
  split; [apply record_params_returns; exact Hbind|].
  split; [reflexivity|].
  split; [reflexivity|].
  intros r (_ & _ & Hnd) Hin Hid.
  exists (overwrite vals (now req) r). subst id.
  split; [|simpl; tauto].
  apply (get_by_id _ (overwrite vals (now req) r)).
  - rewrite ids_update; [exact Hnd|reflexivity].
  - apply In_update; [exact Hin|apply Z.eqb_refl].
Qed.


(** The key of an inserted row is the key of no stored row. *)
Lemma next_rowid_is_new (seq : Z) (t : list AuthRecords.row) (r : AuthRecords.row) :
  In r t -> AuthRecords.id r <> SQL.next_rowid seq (map AuthRecords.id t).
Proof.
  intros Hin.
  assert (Hmax : AuthRecords.id r <= fold_right Z.max 0 (map AuthRecords.id t)).
  { induction t as [|y t IH]; simpl in *; [contradiction|].
    destruct Hin as [->|Hin]; [lia|]. specialize (IH Hin). lia. }
  unfold SQL.next_rowid. lia.
Qed.

Lemma bind_textual (v : JsValue) :
  binds_undefined = true -> textual v = true ->
  bind v = Returns (match v with JsString s => Some s | _ => None end).
Proof.
  intros U T. destruct v; simpl in *; try discriminate; try reflexivity.
  rewrite U. reflexivity.
Qed.

(** When the driver binds [undefined], a body whose properties are strings,
    null or absent always binds. *)
Lemma record_params_binds (body : Fields.t JsValue) :
  binds_undefined = true ->
  fields_all textual (stringified body) = true ->
  exists vals, record_params body = Returns vals.
Proof.
  intros U H. unfold fields_all, stringified in H. simpl in H.
  repeat (apply andb_true_iff in H; destruct H as [H ?]).
  unfold record_params.
  repeat match goal with
         | |- context [bind_result (bind ?v) _] =>
             rewrite (bind_textual v U) by assumption; cbn [bind_result]
         end.
  eexists. reflexivity.
Qed.

(** C7, evaluated on the code: the INSERT names the [status] column and binds
    the body's [status] to it, so the column default 'Pending' never applies.
    Take a create request whose status is absent or null and whose other
    properties are strings, null or absent (the checklist any value).  Either
    the driver refuses an [undefined] parameter, the answer is 500 and
    nothing is inserted; or one row is appended whose status is NULL, with
    [is_deleted = 0] and [created_at = updated_at], and no row with the
    answered id has the status 'Pending'. *)
Theorem create_without_status_is_not_pending (st : State) (req : Request)
    (user : JwtPayload.t) (body : Fields.t JsValue) :
  route req = POST_records body ->
  verified req = Some user ->
  Fields.status body = JsUndefined \/ Fields.status body = JsNull ->
  fields_all textual (stringified body) = true ->
  let id := SQL.next_rowid (auth_records_seq st) (map AuthRecords.id (auth_records st)) in
  (handle st req = (res_internal_error, st) /\ binds_undefined = false)
  \/ exists vals,
       Fields.status vals = None
       /\ fst (handle st req) = res_json (json_id id)
       /\ auth_records (snd (handle st req))
          = auth_records st
            ++ [AuthRecords.mk id vals 0 (JwtPayload.id user) (now req) (now req)]
       /\ (forall r, In r (auth_records (snd (handle st req))) ->
                     AuthRecords.id r = id -> AuthRecords.status r <> Some "Pending").
Proof.
  intros Hroute Hv Hstatus Hothers id.
  assert (E0 : handle st req = express st (post_records st req user body)).
  { unfold handle. rewrite Hroute.
    rewrite (authenticateToken_verified _ _ _ _ Hv). reflexivity. }
  rewrite E0. unfold post_records.
  destruct (record_params body) as [vals|e] eqn:E; simpl.
  - right. exists vals.
    assert (Hnull : Fields.status vals = None).
    { apply record_params_status in E.
      destruct Hstatus as [Hs|Hs]; rewrite Hs in E; simpl in E.
      - destruct binds_undefined; [|discriminate]. congruence.
      - congruence. }
    split; [exact Hnull|]. split; [reflexivity|]. split; [reflexivity|].
    intros r Hr Hid. apply in_app_or in Hr. destruct Hr as [Hr|[<-|[]]].
    + exfalso. exact (next_rowid_is_new (auth_records_seq st) (auth_records st) r Hr Hid).
    + unfold AuthRecords.status. simpl. rewrite Hnull. discriminate.
  - left. split; [reflexivity|].
    destruct binds_undefined eqn:U; [|reflexivity].
    destruct (record_params_binds body U Hothers) as (vals & Hvals). congruence.
Qed.

(** *** A session whose user is gone *)

(** C10: a token that verifies is accepted although no row of [users] has
    its id.  With it the two listings answer with the stored active and
    trashed records and the stats route with the count of the active ones; a
    create (with a body the driver can bind) appends a record whose
    [user_id] is the missing id and which then is in the active listing; an
    update and a restore rewrite the rows with the requested id and are
    answered with success; every admin-only route is answered 403 and writes
    nothing. *)
Theorem session_outlives_user (st : State) (req : Request) (user : JwtPayload.t) :
  verified req = Some user ->
  select_user_by_id st (JwtPayload.id user) = None ->
  (route req = GET_records ->
   exists rows,
     handle st req = (mkResponse 200 (json_records rows) None, st)
     /\ forall r, In r rows <-> In r (auth_records st) /\ AuthRecords.is_deleted r = 0)
  /\ (route req = GET_records_deleted ->
      exists rows,
        handle st req = (mkResponse 200 (json_records rows) None, st)
        /\ forall r, In r rows <-> In r (auth_records st) /\ AuthRecords.is_deleted r = 1)
  /\ (route req = GET_records_stats ->
      exists s,
        handle st req = (mkResponse 200 (json_stats s) None, st)
        /\ total s
           = Z.of_nat (List.length
                         (filter (fun r => AuthRecords.is_deleted r =? 0) (auth_records st))))
  /\ (forall body vals,
        route req = POST_records body -> record_params body = Returns vals ->
        let id := SQL.next_rowid (auth_records_seq st)
                    (map AuthRecords.id (auth_records st)) in
        let row := AuthRecords.mk id vals 0 (JwtPayload.id user) (now req) (now req) in
        fst (handle st req) = mkResponse 200 (json_id id) None
        /\ auth_records (snd (handle st req)) = auth_records st ++ [row]
        /\ users (snd (handle st req)) = users st
        /\ (forall r, In r (auth_records st) -> AuthRecords.id r <> id)
        /\ In row (select_active (snd (handle st req))))
  /\ (forall id body vals,
        route req = PUT_records id body -> record_params body = Returns vals ->
        fst (handle st req) = mkResponse 200 json_success None
        /\ auth_records (snd (handle st req))
           = map (fun r => if AuthRecords.id r =? id
                           then AuthRecords.mk (AuthRecords.id r) vals
                                  (AuthRecords.is_deleted r) (AuthRecords.user_id r)
                                  (AuthRecords.created_at r) (now req)
                           else r) (auth_records st)
        /\ users (snd (handle st req)) = users st)
  /\ (forall id,
        route req = POST_records_restore id ->
        fst (handle st req) = mkResponse 200 json_success None
        /\ auth_records (snd (handle st req))
           = map (fun r => if AuthRecords.id r =? id
                           then AuthRecords.mk (AuthRecords.id r) (AuthRecords.cols r) 0
                                  (AuthRecords.user_id r) (AuthRecords.created_at r) (now req)
                           else r) (auth_records st)
        /\ users (snd (handle st req)) = users st)
  /\ (admin_only (route req) = true ->
      handle st req = (mkResponse 403 (json_error "Admin access required") None, st)).
Proof.
  intros Hv Hgone.
  split; [|split; [|split; [|split; [|split; [|split]]]]].
  - intros Hroute. exists (select_active st). split.
    + unfold handle. rewrite Hroute.
      rewrite (authenticateToken_verified _ _ _ _ Hv). reflexivity.
    + intros r. unfold select_active. rewrite In_order_by, filter_In.
      unfold active. rewrite Z.eqb_eq. reflexivity.
  - intros Hroute. exists (select_deleted st). split.
    + unfold handle. rewrite Hroute.
      rewrite (authenticateToken_verified _ _ _ _ Hv). reflexivity.
    + intros r. unfold select_deleted. rewrite In_order_by, filter_In.
      unfold trashed. rewrite Z.eqb_eq. reflexivity.
  - intros Hroute. exists (select_stats st (now req)). split.
    + unfold handle. rewrite Hroute.
      rewrite (authenticateToken_verified _ _ _ _ Hv). reflexivity.
    + reflexivity.
  - intros body vals Hroute Hbind id row.
    assert (E : handle st req
                = (res_json (json_id id),
                   set_auth_records st (auth_records st ++ [row]) id)).
    { unfold handle. rewrite Hroute.
      rewrite (authenticateToken_verified _ _ _ _ Hv).
      unfold post_records. rewrite Hbind. reflexivity. }
    rewrite E. cbn [fst snd].
    split; [reflexivity|]. split; [reflexivity|]. split; [reflexivity|]. split.
    + intros r Hr. apply next_rowid_is_new. exact Hr.
    + unfold select_active. apply In_order_by. apply filter_In. split; [|reflexivity].
      simpl. apply in_or_app. right. left. reflexivity.
  - intros id body vals Hroute Hbind. unfold handle. rewrite Hroute.
    rewrite (authenticateToken_verified _ _ _ _ Hv).
    unfold put_records. rewrite Hbind. simpl. auto.
  - intros id Hroute. unfold handle. rewrite Hroute.
    rewrite (authenticateToken_verified _ _ _ _ Hv). simpl. auto.
  - intros Hadmin. apply admin_only_denied with (user := user); auto.
    unfold select_role. unfold select_user_by_id in Hgone. rewrite Hgone. discriminate.
Qed.


(** *** The status counts *)

Lemma number_sum (xs : list Z) : number (SQL.sum xs) = SQL.total_of xs.
Proof. destruct xs; reflexivity. Qed.

(** One active row adds one to exactly one of eight counts: the seven
    statuses and "none of the seven". *)
Lemma one_bucket (r : AuthRecords.row) :
  active r = true ->
  SQL.case_when (SQL.text_is (AuthRecords.status r) "Pending" && active r)
  + SQL.case_when (SQL.text_is (AuthRecords.status r) "Approved" && active r)
  + SQL.case_when (SQL.text_is (AuthRecords.status r) "Denied" && active r)
  + SQL.case_when (SQL.text_is (AuthRecords.status r) "Not Required" && active r)
  + SQL.case_when (SQL.text_is (AuthRecords.status r) "Follow Up" && active r)
  + SQL.case_when (SQL.text_is (AuthRecords.status r) "Cancelled" && active r)
  + SQL.case_when (SQL.text_is (AuthRecords.status r) "Not Covered" && active r)
  + SQL.case_when (negb (enumerated_status r)) = 1.
Proof.
  intros ->. unfold enumerated_status, AuthStatus. simpl existsb.
  destruct (AuthRecords.status r) as [s|]; simpl; [|reflexivity].
  repeat match goal with
         | |- context [String.eqb s ?text] =>
             let E := fresh "E" in
             destruct (String.eqb s text) eqn:E;
             [apply String.eqb_eq in E; subst s; reflexivity|]
         end.
  reflexivity.
Qed.

Lemma count_cons {A : Type} (x : A) (l : list A) : SQL.count (x :: l) = 1 + SQL.count l.
Proof. unfold SQL.count. simpl List.length. lia. Qed.

Lemma partition_of_active (rows : list AuthRecords.row) :
  (forall r, In r rows -> active r = true) ->
  SQL.count rows
  = number (sum_status "Pending" rows) + number (sum_status "Approved" rows)
    + number (sum_status "Denied" rows) + number (sum_status "Not Required" rows)
    + number (sum_status "Follow Up" rows) + number (sum_status "Cancelled" rows)
    + number (sum_status "Not Covered" rows)
    + SQL.count (filter (fun r => negb (enumerated_status r)) rows).
Proof.
  unfold sum_status. rewrite !number_sum.
  induction rows as [|r rows IH]; intros Hactive; [reflexivity|].
  rewrite count_cons, IH by (intros x Hx; apply Hactive; right; exact Hx).
  pose proof (one_bucket r (Hactive r (or_introl eq_refl))) as Hone.
  simpl map. simpl filter. unfold SQL.total_of in *. simpl fold_right.
  destruct (negb (enumerated_status r)); [rewrite count_cons|];
    unfold SQL.case_when in Hone at 8; lia.
Qed.

Lemma count_zero {A : Type} (l : list A) : SQL.count l = 0 <-> l = [].
Proof.
  unfold SQL.count. destruct l; simpl List.length; split;
    try reflexivity; try discriminate; lia.
Qed.

Lemma filter_nil_iff {A : Type} (f : A -> bool) (l : list A) :
  filter f l = [] <-> forall x, In x l -> f x = false.
Proof.
  induction l as [|y l IH]; simpl; [tauto|].
  destruct (f y) eqn:E.
  - split; [discriminate|]. intros H. rewrite (H y) in E by auto. discriminate.
  - rewrite IH. split.
    + intros H x [->|Hx]; auto.
    + intros H x Hx. apply H. auto.
Qed.

Lemma get_records_stats_answer (st : State) (req : Request) (user : JwtPayload.t) :
  route req = GET_records_stats -> verified req = Some user ->
  handle st req = (res_json (json_stats (select_stats st (now req))), st).
Proof.
  intros Hroute Hv. unfold handle. rewrite Hroute.
  rewrite (authenticateToken_verified _ _ _ _ Hv). reflexivity.
Qed.

(** C3, as the code has it: [total] is the number of active records; it is
    the sum of the seven status counts (a NULL count, over no active record,
    read as 0) plus the number of active records whose status is none of the
    seven.  So [total] equals the sum of the seven counts exactly when every
    active record has one of the seven statuses. *)
Theorem stats_total_counts_every_active_record (st : State) (now : Z) :
  let s := select_stats st now in
  let others :=
    SQL.count (filter (fun r => negb (enumerated_status r))
                 (filter active (auth_records st))) in
  total s = SQL.count (filter active (auth_records st))
  /\ total s = sum_of_statuses s + others
  /\ (total s = sum_of_statuses s <->
      forall r, In r (auth_records st) -> active r = true -> enumerated_status r = true).
Proof.
  intros s others.
  assert (Hsum : total s = sum_of_statuses s + others).
  { subst s others. unfold select_stats, sum_of_statuses. simpl.
    apply partition_of_active. intros r Hr. apply filter_In in Hr. tauto. }
  split; [reflexivity|]. split; [exact Hsum|].
  rewrite Hsum.
  assert (Hzero : others = 0 <->
            forall r, In r (auth_records st) -> active r = true ->
                      enumerated_status r = true).
  { subst others. rewrite count_zero, filter_nil_iff. split.
    - intros H r Hin Hact. apply negb_false_iff. apply H.
      apply filter_In. auto.
    - intros H r Hr. apply filter_In in Hr. apply negb_false_iff. apply H; tauto. }
  rewrite <- Hzero. lia.
Qed.


(** *** Roles are read from the store *)

Lemma select_user_by_id_wf (st : State) (u : Users.row) :
  wf_state st -> In u (users st) -> select_user_by_id st (Users.id u) = Some u.
Proof.
  intros (Hid & _ & _) Hin. unfold select_user_by_id.
  apply get_unique with (key := Users.id); auto.
  intros x. apply Z.eqb_eq.
Qed.

Lemma select_user_by_username_wf (st : State) (u : Users.row) :
  wf_state st -> In u (users st) ->
  select_user_by_username st (Some (Users.username u)) = Some u.
Proof.
  intros (_ & Hname & _) Hin. unfold select_user_by_username.
  apply get_unique with (key := Users.username); auto.
  intros x. apply String.eqb_eq.
Qed.

(** What a successful login puts in the cookie. *)
Lemma login_issues_token (st : State) (req : Request) (u : Users.row)
    (password role : JsValue) (token : Token) :
  wf_state st -> In u (users st) ->
  route req = POST_auth_login (mkUserBody (JsString (Users.username u)) password role) ->
  set_cookie (fst (handle st req)) = Some token ->
  token = jwt.sign (Users.id u) (Users.username u) SESSION_SECRET (now req)
  /\ snd (handle st req) = st.
Proof.
  intros Hwf Hin Hroute. unfold handle. rewrite Hroute.
  unfold post_auth_login. cbn [bind bind_result body_username body_password].
  rewrite (select_user_by_username_wf st u Hwf Hin).
  unfold compareSync.
  destruct password; simpl; try discriminate.
  destruct (bcrypt_compare s (Users.password u)); simpl; [|discriminate].
  intros E. injection E as <-. auto.
Qed.

Lemma find_update {A : Type} (where_ : A -> bool) (set : A -> A) (t : list A) :
  (forall r, where_ r = true -> where_ (set r) = true) ->
  find where_ (SQL.update where_ set t) = option_map set (find where_ t).
Proof.
  intros Hset. unfold SQL.update. induction t as [|r t IH]; simpl; [reflexivity|].
  destruct (where_ r) eqn:W.
  - rewrite (Hset r W). reflexivity.
  - rewrite W. exact IH.
Qed.

(** The statement behind a demotion: the row keeps its username, so no
    constraint fails, and its role is overwritten. *)
Lemma update_user_role (st : State) (u : Users.row) (role : option string) :
  wf_state st -> In u (users st) ->
  exists st',
    update_user st (Users.id u) (Some (Users.username u)) None role = Returns st'
    /\ select_role st' (Users.id u) = Some role.
Proof.
  intros Hwf Hin. unfold update_user.
  assert (Hex : existsb (fun x => Users.id x =? Users.id u) (users st) = true).
  { apply existsb_exists. exists u. split; [exact Hin|apply Z.eqb_refl]. }
  rewrite Hex. simpl negb. cbv iota.
  assert (Hun : existsb (fun x => String.eqb (Users.username x) (Users.username u)
                                  && negb (Users.id x =? Users.id u)) (users st) = false).
  { apply not_true_is_false. intros E. apply existsb_exists in E.
    destruct E as (x & Hx & Hc). apply andb_true_iff in Hc. destruct Hc as [Hn Hi].
    apply String.eqb_eq in Hn. destruct Hwf as (_ & Hname & _).
    assert (x = u) by (eapply unique_key with (key := Users.username); eauto).
    subst x. rewrite Z.eqb_refl in Hi. discriminate. }
  rewrite Hun. eexists. split; [reflexivity|].
  unfold select_role, SQL.get. simpl users.
  rewrite find_update by (intros r Hr; exact Hr).
  pose proof (select_user_by_id_wf st u Hwf Hin) as Hget.
  unfold select_user_by_id, SQL.get in Hget. rewrite Hget. reflexivity.
Qed.

Lemma verify_issued (id : Z) (username : string) (issued now : Z) :
  now < issued + jwt.expiresIn ->
  jwt.verify (jwt.sign id username SESSION_SECRET issued) SESSION_SECRET now
  = Some (JwtPayload.mk id username issued (issued + jwt.expiresIn)).
Proof.
  intros Hnow. unfold jwt.verify, jwt.sign.
  rewrite String.eqb_refl. simpl.
  destruct (now >=? issued + jwt.expiresIn) eqn:E; [|reflexivity].
  apply Z.geb_le in E. lia.
Qed.

(** C4: an admin logs in and receives a token; an admin then edits that
    user's role to employee.  The token still verifies, and before the edit
    it passed the admin gate; on the edited database every admin-only
    request made with it, before it expires, is answered 403 and writes
    nothing, because [isAdmin] reads the role stored under the token's id. *)
Theorem demoted_admin_is_forbidden (st : State) (u : Users.row)
    (login demote again : Request) (password : JsValue) (token : Token)
    (actor : JwtPayload.t) :
  wf_state st ->
  In u (users st) ->
  Users.role u = Some "admin" ->
  route login = POST_auth_login (mkUserBody (JsString (Users.username u)) password JsUndefined) ->
  set_cookie (fst (handle st login)) = Some token ->
  route demote
  = PATCH_users (Users.id u)
      (mkUserBody (JsString (Users.username u)) JsUndefined (JsString "employee")) ->
  verified demote = Some actor ->
  select_role st (JwtPayload.id actor) = Some (Some "admin") ->
  cookies_token again = Some token ->
  now again < now login + jwt.expiresIn ->
  admin_only (route again) = true ->
  let st1 := snd (handle (snd (handle st login)) demote) in
  (exists payload,
     verified again = Some payload
     /\ JwtPayload.id payload = Users.id u
     /\ forall next, isAdmin st payload next = next)
  /\ select_role st1 (Users.id u) = Some (Some "employee")
  /\ handle st1 again = (res_error 403 "Admin access required", st1).
Proof.
  intros Hwf Hin Hadminrole Hlogin Hcookie Hdemote Hactor Hactorrole Htoken Hfresh Hroute st1.
  destruct (login_issues_token st login u password JsUndefined token Hwf Hin Hlogin Hcookie)
    as [-> Hsame].
  assert (Hv : verified again
               = Some (JwtPayload.mk (Users.id u) (Users.username u) (now login)
                         (now login + jwt.expiresIn))).
  { unfold verified. rewrite Htoken. apply verify_issued. exact Hfresh. }
  assert (Hrole1 : select_role st1 (Users.id u) = Some (Some "employee")).
  { subst st1. rewrite Hsame. unfold handle. rewrite Hdemote.
    rewrite (authenticateToken_verified _ _ _ _ Hactor).
    rewrite (isAdmin_allows _ _ _ Hactorrole).
    unfold patch_users. simpl.
    destruct (update_user_role st u (Some "employee") Hwf Hin) as (st' & -> & Hr).
    exact Hr. }
  split; [|split].
  - eexists. split; [exact Hv|]. split; [reflexivity|].
    intros next. apply isAdmin_allows. simpl.
    unfold select_role. 
    pose proof (select_user_by_id_wf st u Hwf Hin) as Hget.
    unfold select_user_by_id in Hget. rewrite Hget. simpl. congruence.
  - exact Hrole1.
  - eapply admin_only_denied; [exact Hroute|exact Hv|].
    simpl. rewrite Hrole1. discriminate.
Qed.


(** *** The schema constraints are an invariant *)

Lemma NoDup_map_filter {A K : Type} (key : A -> K) (p : A -> bool) (l : list A) :
  NoDup (map key l) -> NoDup (map key (filter p l)).
Proof.
  induction l as [|x l IH]; simpl; intros Hnd; [constructor|].
  inversion Hnd as [|? ? Hnotin Hnd']; subst.
  destruct (p x); simpl; [constructor|]; auto.
  intros Hin. apply Hnotin. apply in_map_iff in Hin. destruct Hin as (y & Hy & Hf).
  apply in_map_iff. exists y. apply filter_In in Hf. tauto.
Qed.

Lemma NoDup_map_snoc {A K : Type} (key : A -> K) (l : list A) (y : A) :
  NoDup (map key l) -> ~ In (key y) (map key l) -> NoDup (map key (l ++ [y])).
Proof.
  induction l as [|x l IH]; simpl; intros Hnd Hfresh.
  - constructor; [tauto|constructor].
  - inversion Hnd as [|? ? Hnotin Hnd']; subst. constructor.
    + rewrite map_app, in_app_iff. simpl. intros [H|[H|[]]]; [tauto|].
      apply Hfresh. left. congruence.
    + apply IH; [exact Hnd'|]. tauto.
Qed.

Lemma next_rowid_fresh (seq : Z) (ids : list Z) : ~ In (SQL.next_rowid seq ids) ids.
Proof.
  assert (Hmax : forall x, In x ids -> x <= fold_right Z.max 0 ids).
  { induction ids as [|y ids IH]; simpl; intros x Hx; [contradiction|].
    destruct Hx as [->|Hx]; [lia|]. specialize (IH x Hx). lia. }
  intros Hin. apply Hmax in Hin. unfold SQL.next_rowid in Hin. lia.
Qed.

Lemma insert_user_wf (st st' : State) (username : option string) (password : string)
    (role : option string) :
  wf_state st -> insert_user st username password role = Returns st' -> wf_state st'.
Proof.
  intros (Hid & Hname & Hrec). unfold insert_user.
  destruct username as [name|]; [|discriminate].
  destruct (existsb _ (users st)) eqn:E; [discriminate|].
  intros R. injection R as <-. unfold wf_state. simpl.
  split; [|split]; [| |exact Hrec].
  - apply NoDup_map_snoc; [exact Hid|]. simpl. apply next_rowid_fresh.
  - apply NoDup_map_snoc; [exact Hname|]. simpl. intros Hin.
    apply in_map_iff in Hin. destruct Hin as (x & Hx & Hin).
    assert (existsb (fun u => String.eqb (Users.username u) name) (users st) = true).
    { apply existsb_exists. exists x. split; [exact Hin|]. apply String.eqb_eq. exact Hx. }
    congruence.
Qed.

(** Renaming the rows with one id keeps the usernames distinct when no other
    row holds the new name. *)
Lemma rename_keeps_usernames (id : Z) (set : Users.row -> Users.row) (name : string)
    (l : list Users.row) :
  (forall u, Users.username (set u) = name) ->
  NoDup (map Users.id l) -> NoDup (map Users.username l) ->
  (forall x, In x l -> Users.username x = name -> Users.id x = id) ->
  NoDup (map Users.username (SQL.update (fun u => Users.id u =? id) set l)).
Proof.
  intros Hset. unfold SQL.update.
  induction l as [|y l IH]; simpl; intros Hid Hname Hother; [constructor|].
  inversion Hid as [|? ? Hidy Hid']; inversion Hname as [|? ? Hnamey Hname']; subst.
  constructor; [|apply IH; auto].
  intros Hin. apply in_map_iff in Hin. destruct Hin as (x' & Hx' & Hin).
  apply in_map_iff in Hin. destruct Hin as (x & <- & Hin).
  destruct (Users.id y =? id) eqn:Ey; destruct (Users.id x =? id) eqn:Ex.
  - apply Z.eqb_eq in Ey, Ex. apply Hidy. apply in_map_iff. exists x. split; [lia|exact Hin].
  - rewrite Hset in Hx'. apply Z.eqb_eq in Ey. apply Z.eqb_neq in Ex.
    apply Ex. apply Hother; auto.
  - rewrite Hset in Hx'. apply Z.eqb_neq in Ey. apply Ey. apply Hother; auto.
  - apply Hnamey. apply in_map_iff. exists x. auto.
Qed.

Lemma ids_update_users (where_ : Users.row -> bool) (set : Users.row -> Users.row)
    (t : list Users.row) :
  (forall r, Users.id (set r) = Users.id r) ->
  map Users.id (SQL.update where_ set t) = map Users.id t.
Proof.
  intros Hid. unfold SQL.update. rewrite map_map. apply map_ext.
  intros r. destruct (where_ r); auto.
Qed.

Lemma update_user_wf (st st' : State) (id : Z) (username password role : option string) :
  wf_state st -> update_user st id username password role = Returns st' -> wf_state st'.
Proof.
  intros (Hid & Hname & Hrec). unfold update_user.
  destruct (negb _); [intros R; injection R as <-; repeat split; assumption|].
  destruct username as [name|]; [|discriminate].
  destruct (existsb _ (users st)) eqn:E; [discriminate|].
  intros R. injection R as <-. unfold wf_state. simpl.
  split; [|split]; [| |exact Hrec].
  - rewrite ids_update_users; [exact Hid|reflexivity].
  - apply rename_keeps_usernames with (name := name); auto.
    intros x Hx Hn.
    destruct (Users.id x =? id) eqn:Ex; [apply Z.eqb_eq; exact Ex|].
    exfalso.
    assert (existsb (fun u => String.eqb (Users.username u) name && negb (Users.id u =? id))
              (users st) = true).
    { apply existsb_exists. exists x. split; [exact Hx|].
      rewrite Ex. simpl. rewrite andb_true_r. apply String.eqb_eq. exact Hn. }
    congruence.
Qed.

Lemma usernames_update (where_ : Users.row -> bool) (set : Users.row -> Users.row)
    (t : list Users.row) :
  (forall r, Users.username (set r) = Users.username r) ->
  map Users.username (SQL.update where_ set t) = map Users.username t.
Proof.
  intros Hn. unfold SQL.update. rewrite map_map. apply map_ext.
  intros r. destruct (where_ r); auto.
Qed.

Lemma authenticateToken_wf (req : Request) (st : State)
    (next : JwtPayload.t -> Response * State) :
  wf_state st -> (forall user, wf_state (snd (next user))) ->
  wf_state (snd (authenticateToken req st next)).
Proof.
  intros Hwf Hnext. unfold authenticateToken.
  destruct (cookies_token req) as [token|]; [|exact Hwf].
  destruct (empty_token token); [exact Hwf|].
  destruct (jwt.verify token SESSION_SECRET (now req)); [apply Hnext|exact Hwf].
Qed.

Lemma isAdmin_wf (st : State) (user : JwtPayload.t) (next : Response * State) :
  wf_state st -> wf_state (snd next) -> wf_state (snd (isAdmin st user next)).
Proof.
  intros Hwf Hnext. unfold isAdmin.
  destruct (select_role st (JwtPayload.id user)) as [role|]; [|exact Hwf].
  destruct (strict_eq_string role "admin"); assumption.
Qed.

Lemma express_wf (st : State) (r : Result (Response * State)) :
  wf_state st -> (forall answer, r = Returns answer -> wf_state (snd answer)) ->
  wf_state (snd (express st r)).
Proof.
  intros Hwf Hr. destruct r as [answer|e]; simpl; [apply Hr; reflexivity|exact Hwf].
Qed.

Lemma record_update_wf (st : State) (where_ : AuthRecords.row -> bool)
    (set : AuthRecords.row -> AuthRecords.row) :
  (forall r, AuthRecords.id (set r) = AuthRecords.id r) ->
  wf_state st ->
  wf_state (set_auth_records st (SQL.update where_ set (auth_records st))
              (auth_records_seq st)).
Proof.
  intros Hset (Hid & Hname & Hrec). repeat split; simpl; auto.
  rewrite ids_update; auto.
Qed.

(** Every request leaves the primary keys and the usernames distinct. *)
Lemma handle_preserves_wf (st : State) (req : Request) :
  wf_state st -> wf_state (snd (handle st req)).
Proof.
  intros Hwf. pose proof Hwf as (Hid & Hname & Hrec). unfold handle.
  destruct (route req);
    try (apply authenticateToken_wf; [exact Hwf|intros user]);
    try (apply isAdmin_wf; [exact Hwf|]);
    try exact Hwf.
  - (* login *)
    apply express_wf; [exact Hwf|]. intros answer. unfold post_auth_login.
    destruct (bind (body_username body)) as [username|]; simpl; [|discriminate].
    destruct (select_user_by_username st username) as [u|];
      [|intros R; injection R as <-; exact Hwf].
    destruct (compareSync (body_password body) (Users.password u)) as [[|]|]; simpl;
      try discriminate; intros R; injection R as <-; exact Hwf.
  - (* create user *)
    unfold post_users.
    destruct (hashSync (body_password body) (salt req)) as [hash|]; simpl; [|exact Hwf].
    destruct (bind (body_username body)) as [username|]; simpl; [|exact Hwf].
    destruct (bind (js_or (body_role body) (JsString "employee"))) as [role|]; simpl;
      [|exact Hwf].
    destruct (insert_user st username hash role) as [st'|] eqn:E; simpl; [|exact Hwf].
    eapply insert_user_wf; eauto.
  - (* edit user *)
    unfold patch_users.
    destruct (truthy (body_password body)).
    + destruct (hashSync (body_password body) (salt req)) as [hash|]; simpl; [|exact Hwf].
      destruct (bind (body_username body)) as [username|]; simpl; [|exact Hwf].
      destruct (bind (body_role body)) as [role|]; simpl; [|exact Hwf].
      destruct (update_user st id username (Some hash) role) as [st'|] eqn:E; simpl;
        [|exact Hwf].
      eapply update_user_wf; eauto.
    + destruct (bind (body_username body)) as [username|]; simpl; [|exact Hwf].
      destruct (bind (body_role body)) as [role|]; simpl; [|exact Hwf].
      destruct (update_user st id username None role) as [st'|] eqn:E; simpl; [|exact Hwf].
      eapply update_user_wf; eauto.
  - (* delete user *)
    unfold delete_users.
    assert (Hdel : wf_state (set_users st (SQL.delete (fun u => Users.id u =? id) (users st))
                               (users_seq st))).
    { repeat split; simpl; auto; apply NoDup_map_filter; assumption. }
    destruct (select_user_by_id st id) as [u|]; [|exact Hdel].
    destruct (String.eqb (Users.username u) "admin"); [exact Hwf|exact Hdel].
  - (* change password *)
    apply express_wf; [exact Hwf|]. intros answer. unfold post_auth_change_password.
    destruct (select_user_by_id st (JwtPayload.id user)) as [u|];
      [|intros R; injection R as <-; exact Hwf].
    destruct (compareSync currentPassword (Users.password u)) as [[|]|]; simpl;
      try discriminate; [|intros R; injection R as <-; exact Hwf].
    destruct (hashSync newPassword (salt req)) as [hash|]; simpl; [|discriminate].
    intros R. injection R as <-. repeat split; simpl; auto.
    + rewrite ids_update_users; [exact Hid|reflexivity].
    + rewrite usernames_update; [exact Hname|reflexivity].
  - (* create record *)
    apply express_wf; [exact Hwf|]. intros answer. unfold post_records.
    destruct (record_params body) as [vals|]; simpl; [|discriminate].
    intros R. injection R as <-. repeat split; simpl; auto.
    apply NoDup_map_snoc; [exact Hrec|]. simpl. apply next_rowid_fresh.
  - (* update record *)
    apply express_wf; [exact Hwf|]. intros answer. unfold put_records.
    destruct (record_params body) as [vals|]; simpl; [|discriminate].
    intros R. injection R as <-. apply record_update_wf; [reflexivity|exact Hwf].
  - (* soft delete *)
    apply record_update_wf; [reflexivity|exact Hwf].
  - (* restore *)
    apply record_update_wf; [reflexivity|exact Hwf].
  - (* purge *)
    repeat split; simpl; auto. apply NoDup_map_filter. exact Hrec.
  - (* write a setting *)
    apply express_wf; [exact Hwf|]. intros answer. unfold post_settings.
    destruct (bind key) as [k|]; simpl; [|discriminate].
    destruct (bind value) as [v|]; simpl; [|discriminate].
    intros R. injection R as <-. repeat split; assumption.
Qed.

End Properties.

(** ** Runs on concrete requests *)

Lemma small_db_wf : wf_state small_db.
Proof. distinct_keys. Defined.

(** C2, as stated, fails: a token signed with another key, a text that is
    not a token and an expired token are each answered 403, not the 401 of a
    request without a token. *)
Lemma invalid_token_is_not_401 :
  (no_token forged_request = false
   /\ @verified null_driver forged_request = None
   /\ status_code (fst (@handle null_driver small_db forged_request)) <> 401)
  /\ (no_token garbage_request = false
      /\ @verified null_driver garbage_request = None
      /\ status_code (fst (@handle null_driver small_db garbage_request)) <> 401)
  /\ (no_token expired_request = false
      /\ @verified null_driver expired_request = None
      /\ status_code (fst (@handle null_driver small_db expired_request)) <> 401)
  /\ status_code (fst (@handle null_driver small_db anonymous_request)) = 401.
Proof. repeat split; try reflexivity; vm_compute; discriminate. Qed.

Lemma invalid_token_is_forbidden_witness :
  behind_authenticateToken (route forged_request) = true
  /\ @verified null_driver forged_request = None
  /\ @handle null_driver small_db forged_request = (res_error 403 "Forbidden", small_db).
Proof.
  split; [reflexivity|]. split; [reflexivity|].
  apply (@invalid_token_is_forbidden null_driver small_db forged_request); reflexivity.
Defined.

Lemma purge_only_trashed_witness :
  route purge_trashed = DELETE_records_permanent 2
  /\ wf_state small_db
  /\ @verified null_driver purge_trashed = Some (JwtPayload.mk 1 "admin" 0 86400)
  /\ select_role small_db 1 = Some (Some "admin")
  /\ In trashed_record (auth_records small_db)
  /\ (forall r, In r (auth_records small_db) ->
        ~ In r (auth_records (snd (@handle null_driver small_db purge_trashed))) ->
        AuthRecords.id r = 2 /\ AuthRecords.is_deleted r = 1)
  /\ In pending_record (auth_records (snd (@handle null_driver small_db purge_trashed)))
  /\ (forall x, In x (select_active (snd (@handle null_driver small_db purge_trashed))) ->
        AuthRecords.id x <> 2)
  /\ (forall x, In x (select_deleted (snd (@handle null_driver small_db purge_trashed))) ->
        AuthRecords.id x <> 2).
Proof.
  pose proof (@purge_only_trashed null_driver small_db purge_trashed 2 eq_refl)
    as (Honly & Hkept & Hgone).
  split; [reflexivity|]. split; [exact small_db_wf|]. split; [reflexivity|].
  split; [reflexivity|]. split; [simpl; tauto|]. split; [exact Honly|].
  split; [apply Hkept; [simpl; tauto|reflexivity]|].
  apply (Hgone (JwtPayload.mk 1 "admin" 0 86400) trashed_record small_db_wf);
    try reflexivity.
  simpl; tauto.
Defined.

(** C3, as stated, fails: after a create with the status "Archived" the
    total is 1 while each of the seven counts is 0. *)
Lemma stats_total_exceeds_status_sum :
  total (@select_stats null_driver
           (snd (@handle null_driver empty_db create_archived)) 50) = 1
  /\ sum_of_statuses (@select_stats null_driver
                        (snd (@handle null_driver empty_db create_archived)) 50) = 0
  /\ total (@select_stats null_driver
              (snd (@handle null_driver empty_db create_archived)) 50)
     <> sum_of_statuses (@select_stats null_driver
                           (snd (@handle null_driver empty_db create_archived)) 50).
Proof. repeat split; vm_compute; discriminate. Qed.

Lemma demoted_admin_is_forbidden_witness :
  wf_state small_db
  /\ In alex_row (users small_db)
  /\ set_cookie (fst (@handle null_driver small_db alex_logs_in)) = Some alex_token
  /\ @verified null_driver admin_demotes_alex = Some (JwtPayload.mk 1 "admin" 0 86400)
  /\ @verified null_driver alex_lists_users = Some (JwtPayload.mk 3 "alex" 0 86400)
  /\ fst (@handle null_driver small_db alex_lists_users)
     = res_json (json_users (map view (users small_db)))
  /\ @handle null_driver
       (snd (@handle null_driver (snd (@handle null_driver small_db alex_logs_in))
               admin_demotes_alex))
       alex_lists_users
     = (res_error 403 "Admin access required",
        snd (@handle null_driver (snd (@handle null_driver small_db alex_logs_in))
               admin_demotes_alex)).
Proof.
  split; [exact small_db_wf|]. split; [simpl; tauto|]. split; [reflexivity|].
  split; [reflexivity|]. split; [reflexivity|]. split; [reflexivity|].
  apply (@demoted_admin_is_forbidden null_driver small_db alex_row
           alex_logs_in admin_demotes_alex alex_lists_users (JsString "pw3") alex_token
           (JwtPayload.mk 1 "admin" 0 86400));
    try reflexivity.
  - exact small_db_wf.
  - simpl; tauto.
Defined.

Lemma soft_delete_then_restore_witness :
  wf_state small_db
  /\ In pending_record (auth_records small_db)
  /\ AuthRecords.is_deleted pending_record = 0
  /\ @verified null_driver soft_delete_pending = Some (JwtPayload.mk 1 "admin" 0 86400)
  /\ @verified null_driver restore_pending = Some (JwtPayload.mk 2 "erin" 0 86400)
  /\ SQL.get (has_id 1)
       (auth_records
          (snd (@handle null_driver (snd (@handle null_driver small_db soft_delete_pending))
                  restore_pending)))
     = Some (AuthRecords.mk 1 (with_status (Some "Pending")) 0 2 10 60).
Proof.
  split; [exact small_db_wf|]. split; [simpl; tauto|]. split; [reflexivity|].
  split; [reflexivity|]. split; [reflexivity|].
  apply (@soft_delete_then_restore null_driver small_db soft_delete_pending restore_pending
           (JwtPayload.mk 1 "admin" 0 86400) (JwtPayload.mk 2 "erin" 0 86400)
           pending_record);
    try reflexivity.
  - exact small_db_wf.
  - simpl; tauto.
Defined.


Lemma create_without_status_is_not_pending_witness :
  route create_without_status = POST_records (body_with_status JsUndefined)
  /\ @verified null_driver create_without_status = Some (JwtPayload.mk 2 "erin" 0 86400)
  /\ Fields.status (body_with_status JsUndefined) = JsUndefined
  /\ fields_all textual (stringified (body_with_status JsUndefined)) = true
  /\ exists vals,
       Fields.status vals = None
       /\ fst (@handle null_driver empty_db create_without_status) = res_json (json_id 1)
       /\ auth_records (snd (@handle null_driver empty_db create_without_status))
          = [AuthRecords.mk 1 vals 0 2 40 40]
       /\ forall r,
            In r (auth_records (snd (@handle null_driver empty_db create_without_status))) ->
            AuthRecords.id r = 1 -> AuthRecords.status r <> Some "Pending".
Proof.
  split; [reflexivity|]. split; [reflexivity|]. split; [reflexivity|].
  split; [reflexivity|].
  destruct (@create_without_status_is_not_pending null_driver empty_db
              create_without_status (JwtPayload.mk 2 "erin" 0 86400)
              (body_with_status JsUndefined) eq_refl eq_refl (or_introl eq_refl) eq_refl)
    as [[_ Hstrict]|(vals & Hnull & Hid & Htable & Hnot)].
  - discriminate Hstrict.
  - exists vals. split; [exact Hnull|]. split; [exact Hid|]. split; [exact Htable|exact Hnot].
Defined.

(** The same create request on the two drivers, and with a JSON null: the
    stored status is NULL, or nothing is stored. *)
Example create_without_status_runs :
  @handle null_driver empty_db create_without_status
  = (res_json (json_id 1),
     set_auth_records empty_db [AuthRecords.mk 1 (bound_with_status None) 0 2 40 40] 1)
  /\ @handle strict_driver empty_db create_without_status = (res_internal_error, empty_db)
  /\ @handle null_driver empty_db create_with_null_status
     = (res_json (json_id 1),
        set_auth_records empty_db [AuthRecords.mk 1 (bound_with_status None) 0 2 40 40] 1)
  /\ @handle strict_driver empty_db create_with_null_status
     = (res_json (json_id 1),
        set_auth_records empty_db [AuthRecords.mk 1 (bound_with_status None) 0 2 40 40] 1).
Proof. repeat split. Qed.

Lemma update_overwrites_editable_columns_witness :
  route update_pending = PUT_records 1 (body_with_status (JsString "Approved"))
  /\ @verified null_driver update_pending = Some (JwtPayload.mk 2 "erin" 0 86400)
  /\ @record_params null_driver (body_with_status (JsString "Approved"))
     = Returns (bound_with_status (Some "Approved"))
  /\ wf_state small_db
  /\ fst (@handle null_driver small_db update_pending) = res_json json_success
  /\ auth_records (snd (@handle null_driver small_db update_pending))
     = [AuthRecords.mk 1 (bound_with_status (Some "Approved")) 0 2 10 70; trashed_record]
  /\ users (snd (@handle null_driver small_db update_pending)) = users small_db.
Proof.
  destruct (@update_overwrites_editable_columns null_driver small_db update_pending 1
              (body_with_status (JsString "Approved")) (bound_with_status (Some "Approved"))
              (JwtPayload.mk 2 "erin" 0 86400) eq_refl eq_refl eq_refl)
    as (Hok & _ & Htable & Husers & _).
  split; [reflexivity|]. split; [reflexivity|]. split; [reflexivity|].
  split; [exact small_db_wf|]. split; [exact Hok|]. split; [exact Htable|exact Husers].
Defined.

Lemma missing_id_is_silent_success_witness :
  @verified null_driver update_missing = Some (JwtPayload.mk 2 "erin" 0 86400)
  /\ @verified null_driver soft_delete_missing = Some (JwtPayload.mk 1 "admin" 0 86400)
  /\ (forall r, In r (auth_records small_db) -> AuthRecords.id r <> 7)
  /\ SQL.changes (has_id 7) (auth_records small_db) = 0
  /\ @handle null_driver small_db update_missing = (mkResponse 200 json_success None, small_db)
  /\ @handle null_driver small_db restore_missing = (mkResponse 200 json_success None, small_db)
  /\ @handle null_driver small_db soft_delete_missing
     = (mkResponse 200 json_success None, small_db).
Proof.
  assert (Habsent : forall r, In r (auth_records small_db) -> AuthRecords.id r <> 7).
  { simpl. intros r [<-|[<-|[]]]; simpl; lia. }
  destruct (@missing_id_is_silent_success null_driver small_db update_missing 7
              (JwtPayload.mk 2 "erin" 0 86400) eq_refl Habsent) as (Hzero & Hput & _ & _).
  destruct (@missing_id_is_silent_success null_driver small_db restore_missing 7
              (JwtPayload.mk 2 "erin" 0 86400) eq_refl Habsent) as (_ & _ & Hrestore & _).
  destruct (@missing_id_is_silent_success null_driver small_db soft_delete_missing 7
              (JwtPayload.mk 1 "admin" 0 86400) eq_refl Habsent) as (_ & _ & _ & Hdelete).
  split; [reflexivity|]. split; [reflexivity|]. split; [exact Habsent|].
  split; [exact Hzero|].
  split; [apply (Hput (body_with_status (JsString "Approved"))
                   (bound_with_status (Some "Approved"))); reflexivity|].
  split; [apply Hrestore; reflexivity|apply Hdelete; reflexivity].
Defined.

Lemma session_outlives_user_witness :
  @verified null_driver ghost_creates = Some (JwtPayload.mk 99 "ghost" 0 86400)
  /\ select_user_by_id small_db 99 = None
  /\ @record_params null_driver (body_with_status (JsString "Pending"))
     = Returns (bound_with_status (Some "Pending"))
  /\ @record_params null_driver (body_with_status (JsString "Approved"))
     = Returns (bound_with_status (Some "Approved"))
  /\ fst (@handle null_driver small_db ghost_creates) = mkResponse 200 (json_id 3) None
  /\ auth_records (snd (@handle null_driver small_db ghost_creates))
     = [pending_record; trashed_record;
        AuthRecords.mk 3 (bound_with_status (Some "Pending")) 0 99 40 40]
  /\ In (AuthRecords.mk 3 (bound_with_status (Some "Pending")) 0 99 40 40)
       (select_active (snd (@handle null_driver small_db ghost_creates)))
  /\ auth_records (snd (@handle null_driver small_db ghost_updates))
     = [AuthRecords.mk 1 (bound_with_status (Some "Approved")) 0 2 10 40; trashed_record]
  /\ auth_records (snd (@handle null_driver small_db ghost_restores))
     = [pending_record; AuthRecords.mk 2 (with_status (Some "Denied")) 0 2 20 40]
  /\ (exists rows,
        @handle null_driver small_db ghost_views
        = (mkResponse 200 (json_records rows) None, small_db)
        /\ forall r, In r rows <-> In r (auth_records small_db)
                                   /\ AuthRecords.is_deleted r = 0)
  /\ @handle null_driver small_db ghost_lists_users
     = (mkResponse 403 (json_error "Admin access required") None, small_db).
Proof.
  split; [reflexivity|]. split; [reflexivity|]. split; [reflexivity|].
  split; [reflexivity|].
  destruct (@session_outlives_user null_driver small_db ghost_creates
              (JwtPayload.mk 99 "ghost" 0 86400) eq_refl eq_refl)
    as (_ & _ & _ & Hcreate & _).
  destruct (@session_outlives_user null_driver small_db ghost_updates
              (JwtPayload.mk 99 "ghost" 0 86400) eq_refl eq_refl)
    as (_ & _ & _ & _ & Hupdate & _).
  destruct (@session_outlives_user null_driver small_db ghost_restores
              (JwtPayload.mk 99 "ghost" 0 86400) eq_refl eq_refl)
    as (_ & _ & _ & _ & _ & Hrestore & _).
  destruct (@session_outlives_user null_driver small_db ghost_views
              (JwtPayload.mk 99 "ghost" 0 86400) eq_refl eq_refl)
    as (Hview & _).
  destruct (@session_outlives_user null_driver small_db ghost_lists_users
              (JwtPayload.mk 99 "ghost" 0 86400) eq_refl eq_refl)
    as (_ & _ & _ & _ & _ & _ & Hadmin).
  destruct (Hcreate (body_with_status (JsString "Pending"))
              (bound_with_status (Some "Pending")) eq_refl eq_refl)
    as (Hid & Htable & _ & _ & Hlisted).
  destruct (Hupdate 1 (body_with_status (JsString "Approved"))
              (bound_with_status (Some "Approved")) eq_refl eq_refl)
    as (_ & Hupdated & _).
  destruct (Hrestore 2 eq_refl) as (_ & Hrestored & _).
  split; [exact Hid|]. split; [exact Htable|]. split; [exact Hlisted|].
  split; [exact Hupdated|]. split; [exact Hrestored|].
  split; [exact (Hview eq_refl)|exact (Hadmin eq_refl)].
Defined.

(** ** Further properties of the routes *)

Section Coverage.

Context {platform : Platform}.

(** *** Sessions: login, expiry, logout *)

Lemma handle_unverified (st : State) (req : Request) :
  behind_authenticateToken (route req) = true ->
  verified req = None ->
  handle st req =
    (if no_token req then res_error 401 "Unauthorized" else res_error 403 "Forbidden", st).
Proof.
  intros Hroute Hv. unfold handle.
  destruct (route req); try discriminate Hroute;
    apply authenticateToken_rejects; exact Hv.
Qed.


(** X2: a login with an unknown username and a login with a wrong password
    get the same answer, 401 "Invalid credentials"; no cookie is set and
    nothing is written. *)
Theorem login_failure_is_uniform (st : State) (req : Request) (name pw : string)
    (role : JsValue) :
  route req = POST_auth_login (mkUserBody (JsString name) (JsString pw) role) ->
  (forall u, select_user_by_username st (Some name) = Some u ->
             bcrypt_compare pw (Users.password u) = false) ->
  handle st req = (mkResponse 401 (json_error "Invalid credentials") None, st).
Proof.
  intros Hroute Hfail. unfold handle. rewrite Hroute. unfold post_auth_login.
  cbn [bind bind_result body_username body_password].
  destruct (select_user_by_username st (Some name)) as [u|] eqn:E; [|reflexivity].
  unfold compareSync. rewrite (Hfail u eq_refl). reflexivity.
Qed.

(** X3: logout needs no session, writes nothing and replaces the cookie by
    the empty text; a request that carries this cookie is answered 401 on
    every route behind [authenticateToken]. *)
Theorem logout_clears_cookie (st : State) (req : Request) :
  route req = POST_auth_logout ->
  handle st req = (mkResponse 200 json_success (Some (Malformed EmptyString)), st)
  /\ forall st' req',
       cookies_token req' = set_cookie (fst (handle st req)) ->
       behind_authenticateToken (route req') = true ->
       handle st' req' = (res_error 401 "Unauthorized", st').
Proof.
  intros Hroute. unfold handle at 1 2. rewrite Hroute. split; [reflexivity|].
  simpl. intros st' req' Hcookie Hbehind.
  assert (Hv : verified req' = None) by (unfold verified; rewrite Hcookie; reflexivity).
  rewrite (handle_unverified st' req' Hbehind Hv).
  unfold no_token. rewrite Hcookie. reflexivity.
Qed.


(** *** Reasoning through the middleware chain *)

Lemma authenticateToken_cases (P : Response * State -> Prop) (req : Request) (st : State)
    (next : JwtPayload.t -> Response * State) :
  (forall resp, P (resp, st)) ->
  (forall user, verified req = Some user -> P (next user)) ->
  P (authenticateToken req st next).
Proof.
  intros Hdeny Hnext. unfold authenticateToken.
  destruct (cookies_token req) as [token|] eqn:C; [|apply Hdeny].
  destruct (empty_token token); [apply Hdeny|].
  destruct (jwt.verify token SESSION_SECRET (now req)) as [user|] eqn:V; [|apply Hdeny].
  apply Hnext. unfold verified. rewrite C. exact V.
Qed.

Lemma isAdmin_cases (P : Response * State -> Prop) (st : State) (user : JwtPayload.t)
    (next : Response * State) :
  (forall resp, P (resp, st)) ->
  (select_role st (JwtPayload.id user) = Some (Some "admin") -> P next) ->
  P (isAdmin st user next).
Proof.
  intros Hdeny Hnext. unfold isAdmin.
  destruct (select_role st (JwtPayload.id user)) as [role|] eqn:R; [|apply Hdeny].
  destruct (strict_eq_string role "admin") eqn:E; [|apply Hdeny].
  apply Hnext. apply strict_eq_string_true in E. congruence.
Qed.

Lemma express_cases (P : Response * State -> Prop) (st : State)
    (r : Result (Response * State)) :
  (forall resp, P (resp, st)) ->
  (forall answer, r = Returns answer -> P answer) ->
  P (express st r).
Proof.
  intros Hthrow Hret. destruct r as [answer|e]; simpl; [apply Hret; reflexivity|apply Hthrow].
Qed.

(** The user routes answer with a database whose other tables are as before. *)
Lemma insert_user_frame (st st' : State) (username : option string) (password : string)
    (role : option string) :
  insert_user st username password role = Returns st' ->
  auth_records st' = auth_records st /\ auth_records_seq st' = auth_records_seq st
  /\ settings st' = settings st.
Proof.
  unfold insert_user. destruct username as [name|]; [|discriminate].
  destruct (existsb _ (users st)); [discriminate|].
  intros R. injection R as <-. auto.
Qed.

Lemma update_user_frame (st st' : State) (id : Z) (username password role : option string) :
  update_user st id username password role = Returns st' ->
  auth_records st' = auth_records st /\ auth_records_seq st' = auth_records_seq st
  /\ settings st' = settings st.
Proof.
  unfold update_user. destruct (negb _); [intros R; injection R as <-; auto|].
  destruct username as [name|]; [|discriminate].
  destruct (existsb _ (users st)); [discriminate|].
  intros R. injection R as <-. auto.
Qed.

Lemma post_users_frame (st : State) (req : Request) (body : UserBody) :
  auth_records (snd (post_users st req body)) = auth_records st
  /\ auth_records_seq (snd (post_users st req body)) = auth_records_seq st
  /\ settings (snd (post_users st req body)) = settings st.
Proof.
  unfold post_users.
  destruct (hashSync (body_password body) (salt req)) as [hash|]; simpl; auto.
  destruct (bind (body_username body)) as [username|]; simpl; auto.
  destruct (bind (js_or (body_role body) (JsString "employee"))) as [role|]; simpl; auto.
  destruct (insert_user st username hash role) as [st'|] eqn:E; simpl; auto.
  eapply insert_user_frame; eauto.
Qed.

Lemma patch_users_frame (st : State) (req : Request) (id : Z) (body : UserBody) :
  auth_records (snd (patch_users st req id body)) = auth_records st
  /\ auth_records_seq (snd (patch_users st req id body)) = auth_records_seq st
  /\ settings (snd (patch_users st req id body)) = settings st.
Proof.
  unfold patch_users. destruct (truthy (body_password body)).
  - destruct (hashSync (body_password body) (salt req)) as [hash|]; simpl; auto.
    destruct (bind (body_username body)) as [username|]; simpl; auto.
    destruct (bind (body_role body)) as [role|]; simpl; auto.
    destruct (update_user st id username (Some hash) role) as [st'|] eqn:E; simpl; auto.
    eapply update_user_frame; eauto.
  - destruct (bind (body_username body)) as [username|]; simpl; auto.
    destruct (bind (body_role body)) as [role|]; simpl; auto.
    destruct (update_user st id username None role) as [st'|] eqn:E; simpl; auto.
    eapply update_user_frame; eauto.
Qed.

Lemma delete_users_frame (st : State) (id : Z) :
  auth_records (snd (delete_users st id)) = auth_records st
  /\ auth_records_seq (snd (delete_users st id)) = auth_records_seq st
  /\ settings (snd (delete_users st id)) = settings st.
Proof.
  unfold delete_users. destruct (select_user_by_id st id) as [u|]; simpl; auto.
  destruct (String.eqb (Users.username u) "admin"); simpl; auto.
Qed.

Lemma change_password_frame (st : State) (req : Request) (user : JwtPayload.t)
    (currentPassword newPassword : JsValue) (answer : Response * State) :
  post_auth_change_password st req user currentPassword newPassword = Returns answer ->
  auth_records (snd answer) = auth_records st
  /\ auth_records_seq (snd answer) = auth_records_seq st
  /\ settings (snd answer) = settings st.
Proof.
  unfold post_auth_change_password.
  destruct (select_user_by_id st (JwtPayload.id user)) as [u|];
    [|intros R; injection R as <-; auto].
  destruct (compareSync currentPassword (Users.password u)) as [[|]|]; simpl;
    try discriminate; [|intros R; injection R as <-; auto].
  destruct (hashSync newPassword (salt req)) as [hash|]; simpl; [|discriminate].
  intros R. injection R as <-. auto.
Qed.

Lemma login_frame (st : State) (req : Request) (body : UserBody)
    (answer : Response * State) :
  post_auth_login st req body = Returns answer -> snd answer = st.
Proof.
  unfold post_auth_login.
  destruct (bind (body_username body)) as [username|]; simpl; [|discriminate].
  destruct (select_user_by_username st username) as [u|];
    [|intros R; injection R as <-; reflexivity].
  destruct (compareSync (body_password body) (Users.password u)) as [[|]|]; simpl;
    try discriminate; intros R; injection R as <-; reflexivity.
Qed.

(** Every request changes the [auth_records] table in one of four ways. *)
Lemma handle_records_transition (st : State) (req : Request) :
  records_transition st (snd (handle st req)).
Proof.
  assert (Hsame : forall resp : Response, records_transition st (snd (resp, st))).
  { intros resp. left. split; reflexivity. }
  unfold handle.
  destruct (route req);
    try (apply (authenticateToken_cases (fun out => records_transition st (snd out)));
         [exact Hsame|intros user Hv]);
    try (apply (isAdmin_cases (fun out => records_transition st (snd out)));
         [exact Hsame|intros Hrole]);
    try (apply Hsame).
  - apply (express_cases (fun out => records_transition st (snd out))); [exact Hsame|].
    intros answer E. rewrite (login_frame _ _ _ _ E). left. split; reflexivity.
  - left. destruct (post_users_frame st req body) as (A & B & _). split; assumption.
  - left. destruct (patch_users_frame st req id body) as (A & B & _). split; assumption.
  - left. destruct (delete_users_frame st id) as (A & B & _). split; assumption.
  - apply (express_cases (fun out => records_transition st (snd out))); [exact Hsame|].
    intros answer E. left.
    destruct (change_password_frame _ _ _ _ _ _ E) as (A & B & _). split; assumption.
  - apply (express_cases (fun out => records_transition st (snd out))); [exact Hsame|].
    intros answer. unfold post_records.
    destruct (record_params body) as [vals|]; simpl; [|discriminate].
    intros R. injection R as <-. right. right. right.
    eexists. simpl. split; [reflexivity|]. split; reflexivity.
  - apply (express_cases (fun out => records_transition st (snd out))); [exact Hsame|].
    intros answer. unfold put_records.
    destruct (record_params body) as [vals|]; simpl; [|discriminate].
    intros R. injection R as <-. right. left.
    exists id, (overwrite vals (now req)). simpl. auto.
  - right. left. exists id, (set_is_deleted 1 (now req)). simpl. auto.
  - right. left. exists id, (set_is_deleted 0 (now req)). simpl. auto.
  - right. right. left. exists id. simpl. auto.
  - apply (express_cases (fun out => records_transition st (snd out))); [exact Hsame|].
    intros answer. unfold post_settings.
    destruct (bind key) as [k|]; simpl; [|discriminate].
    destruct (bind value) as [v|]; simpl; [|discriminate].
    intros R. injection R as <-. left. split; reflexivity.
Qed.


(** *** What no request does to a record *)

Lemma next_rowid_above (seq : Z) (ids : list Z) : seq < SQL.next_rowid seq ids.
Proof. unfold SQL.next_rowid. lia. Qed.

Lemma In_update_inv {A : Type} (where_ : A -> bool) (set : A -> A) (t : list A) (x : A) :
  In x (SQL.update where_ set t) -> exists r, In r t /\ (x = r \/ x = set r).
Proof.
  unfold SQL.update. intros Hx. apply in_map_iff in Hx. destruct Hx as (r & E & Hr).
  exists r. split; [exact Hr|]. destruct (where_ r); auto.
Qed.

(** X4: no request of any route, from any caller, removes a record that is
    not trashed: after the request the table still holds a row with that id.
    A record has to pass through the trash before it can go. *)
Theorem untrashed_record_survives (st : State) (req : Request) (r : AuthRecords.row) :
  In r (auth_records st) ->
  AuthRecords.is_deleted r <> 1 ->
  exists r', In r' (auth_records (snd (handle st req)))
             /\ AuthRecords.id r' = AuthRecords.id r.
Proof.
  intros Hin Hlive.
  destruct (handle_records_transition st req)
    as [[E _]|[(id & set & E & _ & Hset)|[(id & E & _)|(row & E & _)]]]; rewrite E.
  - exists r. auto.
  - exists (if has_id id r then set r else r). split.
    + unfold SQL.update. apply in_map_iff. exists r. auto.
    + destruct (has_id id r); [apply Hset|reflexivity].
  - exists r. split; [|reflexivity]. apply In_delete. split; [exact Hin|].
    unfold trashed. destruct (AuthRecords.is_deleted r =? 1) eqn:T.
    + apply Z.eqb_eq in T. contradiction.
    + apply andb_false_r.
  - exists r. split; [|reflexivity]. apply in_or_app. left. exact Hin.
Qed.

Lemma step_seq_mono (st : State) (req : Request) :
  auth_records_seq st <= auth_records_seq (snd (handle st req)).
Proof.
  destruct (handle_records_transition st req)
    as [[_ E]|[(id & set & _ & E & _)|[(id & _ & E)|(row & _ & Hid & E)]]];
    rewrite E; try lia.
  rewrite Hid. pose proof (next_rowid_above (auth_records_seq st)
                             (map AuthRecords.id (auth_records st))). lia.
Qed.

Lemma step_ids_bounded (st : State) (req : Request) :
  ids_bounded st -> ids_bounded (snd (handle st req)).
Proof.
  intros Hb x Hx.
  destruct (handle_records_transition st req)
    as [[E S]|[(id & set & E & S & Hset)|[(id & E & S)|(row & E & Hid & S)]]];
    rewrite E in Hx; rewrite S.
  - apply Hb. exact Hx.
  - apply In_update_inv in Hx. destruct Hx as (r & Hr & [->| ->]).
    + apply Hb. exact Hr.
    + destruct (Hset r) as (-> & _). apply Hb. exact Hr.
  - apply In_delete in Hx. apply Hb. tauto.
  - apply in_app_or in Hx. destruct Hx as [Hx|[<-|[]]]; [|lia].
    specialize (Hb x Hx). rewrite Hid.
    pose proof (next_rowid_above (auth_records_seq st)
                  (map AuthRecords.id (auth_records st))). lia.
Qed.

(** One request keeps the owner and the creation time of the record with a
    given id, and gives no new record an id at or below the counter. *)
Lemma step_identity (st : State) (req : Request) (i owner created : Z) :
  i <= auth_records_seq st ->
  (forall r, In r (auth_records st) -> AuthRecords.id r = i ->
             AuthRecords.user_id r = owner /\ AuthRecords.created_at r = created) ->
  forall r', In r' (auth_records (snd (handle st req))) -> AuthRecords.id r' = i ->
             AuthRecords.user_id r' = owner /\ AuthRecords.created_at r' = created.
Proof.
  intros Hi Hold r' Hin Hid.
  destruct (handle_records_transition st req)
    as [[E _]|[(id & set & E & _ & Hset)|[(id & E & _)|(row & E & Hrow & _)]]];
    rewrite E in Hin.
  - apply Hold; assumption.
  - apply In_update_inv in Hin. destruct Hin as (r & Hr & [->| ->]).
    + apply Hold; assumption.
    + destruct (Hset r) as (Ei & Eo & Ec). rewrite Eo, Ec. apply Hold; [exact Hr|congruence].
  - apply In_delete in Hin. apply Hold; tauto.
  - apply in_app_or in Hin. destruct Hin as [Hin|[<-|[]]]; [apply Hold; assumption|].
    exfalso. rewrite Hrow in Hid.
    pose proof (next_rowid_above (auth_records_seq st)
                  (map AuthRecords.id (auth_records st))). lia.
Qed.

(** X5: along any sequence of requests, by whatever callers, a record id
    keeps denoting the record it was given to: every row that later carries
    the id of a present record has that record's [user_id] and [created_at].
    In particular the owner is never reassigned, and the id of a purged
    record is never given to a new one. *)
Theorem record_identity_is_stable (st : State) (reqs : list Request)
    (r r' : AuthRecords.row) :
  wf_state st ->
  ids_bounded st ->
  In r (auth_records st) ->
  In r' (auth_records (run st reqs)) ->
  AuthRecords.id r' = AuthRecords.id r ->
  AuthRecords.user_id r' = AuthRecords.user_id r
  /\ AuthRecords.created_at r' = AuthRecords.created_at r.
Proof.
  intros (_ & _ & Hnd) Hb Hin.
  assert (Hi : AuthRecords.id r <= auth_records_seq st) by (apply Hb; exact Hin).
  assert (Hold : forall x, In x (auth_records st) -> AuthRecords.id x = AuthRecords.id r ->
            AuthRecords.user_id x = AuthRecords.user_id r
            /\ AuthRecords.created_at x = AuthRecords.created_at r).
  { intros x Hx Hid.
    assert (x = r) by (eapply unique_key with (key := AuthRecords.id); eauto).
    subst x. auto. }
  clear Hnd Hb Hin. revert st Hi Hold.
  induction reqs as [|req rest IH]; simpl; intros st Hi Hold Hin' Hid.
  - apply Hold; assumption.
  - apply (IH (snd (handle st req))); auto.
    + pose proof (step_seq_mono st req). lia.
    + apply step_identity; assumption.
Qed.

(** An id that the counter has passed and that no row carries (the id of a
    purged record) is carried by no row after any sequence of requests. *)
Lemma retired_id_is_never_reused (st : State) (reqs : list Request) (i : Z) :
  i <= auth_records_seq st ->
  (forall r, In r (auth_records st) -> AuthRecords.id r <> i) ->
  forall r', In r' (auth_records (run st reqs)) -> AuthRecords.id r' <> i.
Proof.
  revert st. induction reqs as [|req rest IH]; simpl; intros st Hi Hfree; [exact Hfree|].
  apply IH.
  - pose proof (step_seq_mono st req). lia.
  - intros x Hx Hid.
    destruct (handle_records_transition st req)
      as [[E _]|[(id & set & E & _ & Hset)|[(id & E & _)|(row & E & Hrow & _)]]];
      rewrite E in Hx.
    + apply (Hfree x Hx Hid).
    + apply In_update_inv in Hx. destruct Hx as (r & Hr & [->| ->]).
      * apply (Hfree r Hr Hid).
      * destruct (Hset r) as (Ei & _). apply (Hfree r Hr). congruence.
    + apply In_delete in Hx. apply (Hfree x); tauto.
    + apply in_app_or in Hx. destruct Hx as [Hx|[<-|[]]]; [apply (Hfree x Hx Hid)|].
      rewrite Hrow in Hid.
      pose proof (next_rowid_above (auth_records_seq st)
                    (map AuthRecords.id (auth_records st))). lia.
Qed.


(** *** The two listings *)

Lemma string_compare_trans (a b c : string) :
  String.compare a b <> Gt -> String.compare b c <> Gt -> String.compare a c <> Gt.
Proof.
  revert b c. induction a as [|x a IH]; intros [|y b] [|z c]; simpl;
    try congruence.
  unfold Ascii.compare.
  destruct (N.compare_spec (N_of_ascii x) (N_of_ascii y)) as [Exy|Lxy|Gxy];
    destruct (N.compare_spec (N_of_ascii y) (N_of_ascii z)) as [Eyz|Lyz|Gyz];
    destruct (N.compare_spec (N_of_ascii x) (N_of_ascii z)) as [Exz|Lxz|Gxz];
    try congruence; try lia; try (intros; discriminate).
  apply IH.
Qed.

Lemma text_leb_trans (a b c : option string) :
  SQL.text_leb a b = true -> SQL.text_leb b c = true -> SQL.text_leb a c = true.
Proof.
  unfold SQL.text_leb, SQL.text_compare.
  destruct a as [a|], b as [b|], c as [c|]; try reflexivity; try discriminate.
  pose proof (string_compare_trans a b c) as T.
  destruct (String.compare a b), (String.compare b c), (String.compare a c);
    try reflexivity; try discriminate; intros _ _; exfalso; apply T; congruence.
Qed.

Lemma text_leb_total (a b : option string) :
  SQL.text_leb a b = true \/ SQL.text_leb b a = true.
Proof.
  unfold SQL.text_leb, SQL.text_compare.
  destruct a as [a|], b as [b|]; auto.
  rewrite (String.compare_antisym b a). destruct (String.compare a b); auto.
Qed.

Lemma insert_by_permutation {A : Type} (leb : A -> A -> bool) (x : A) (l : list A) :
  Permutation (SQL.insert_by leb x l) (x :: l).
Proof.
  induction l as [|y l IH]; simpl; [reflexivity|].
  destruct (leb x y); [reflexivity|].
  rewrite IH. apply perm_swap.
Qed.

Lemma order_by_permutation {A : Type} (leb : A -> A -> bool) (l : list A) :
  Permutation (SQL.order_by leb l) l.
Proof.
  unfold SQL.order_by. induction l as [|x l IH]; simpl; [reflexivity|].
  rewrite insert_by_permutation. constructor. exact IH.
Qed.

Lemma insert_by_sorted {A : Type} (leb : A -> A -> bool) (x : A) (l : list A) :
  (forall a b, leb a b = true \/ leb b a = true) ->
  (forall a b c, leb a b = true -> leb b c = true -> leb a c = true) ->
  StronglySorted (fun a b => leb a b = true) l ->
  StronglySorted (fun a b => leb a b = true) (SQL.insert_by leb x l).
Proof.
  intros Htotal Htrans. induction l as [|y l IH]; simpl; intros Hs.
  - constructor; constructor.
  - apply StronglySorted_inv in Hs. destruct Hs as [Hs Hy].
    destruct (leb x y) eqn:E.
    + constructor; [constructor; assumption|].
      constructor; [exact E|].
      rewrite Forall_forall in *. intros z Hz. eapply Htrans; eauto.
    + constructor; [apply IH; exact Hs|].
      rewrite Forall_forall in *. intros z Hz.
      apply In_insert_by in Hz. destruct Hz as [->|Hz]; [|auto].
      destruct (Htotal x y); congruence.
Qed.

Lemma order_by_sorted {A : Type} (leb : A -> A -> bool) (l : list A) :
  (forall a b, leb a b = true \/ leb b a = true) ->
  (forall a b c, leb a b = true -> leb b c = true -> leb a c = true) ->
  StronglySorted (fun a b => leb a b = true) (SQL.order_by leb l).
Proof.
  intros Htotal Htrans. unfold SQL.order_by.
  induction l as [|x l IH]; simpl; [constructor|].
  apply insert_by_sorted; assumption.
Qed.

(** X7: for every session, [GET /api/records] answers with the records whose
    [is_deleted] is 0, each exactly as often as it is stored, ordered so that
    every row's [date_worked] is at least that of every row after it (a NULL
    date after every text); nothing is written. *)
Theorem active_listing_is_sorted (st : State) (req : Request) (user : JwtPayload.t) :
  route req = GET_records ->
  verified req = Some user ->
  exists rows,
    handle st req = (res_json (json_records rows), st)
    /\ Permutation rows (filter active (auth_records st))
    /\ StronglySorted date_worked_desc rows.
Proof.
  intros Hroute Hv. exists (select_active st). split; [|split].
  - unfold handle. rewrite Hroute.
    rewrite (authenticateToken_verified _ _ _ _ Hv). reflexivity.
  - apply order_by_permutation.
  - unfold select_active, date_worked_desc. apply order_by_sorted.
    + intros a b. apply text_leb_total.
    + intros a b c H1 H2. eapply text_leb_trans; eauto.
Qed.

(** X8: for every session, [GET /api/records/deleted] answers with the
    records whose [is_deleted] is 1, each exactly as often as it is stored,
    the most recently updated first; nothing is written. *)
Theorem trash_listing_is_sorted (st : State) (req : Request) (user : JwtPayload.t) :
  route req = GET_records_deleted ->
  verified req = Some user ->
  exists rows,
    handle st req = (res_json (json_records rows), st)
    /\ Permutation rows (filter trashed (auth_records st))
    /\ StronglySorted updated_at_desc rows.
Proof.
  intros Hroute Hv. exists (select_deleted st). split; [|split].
  - unfold handle. rewrite Hroute.
    rewrite (authenticateToken_verified _ _ _ _ Hv). reflexivity.
  - apply order_by_permutation.
  - unfold select_deleted.
    assert (S : StronglySorted
                  (fun a b => (AuthRecords.updated_at b <=? AuthRecords.updated_at a) = true)
                  (SQL.order_by
                     (fun a b => AuthRecords.updated_at b <=? AuthRecords.updated_at a)
                     (filter trashed (auth_records st)))).
    { apply order_by_sorted.
      - intros a b. rewrite !Z.leb_le. lia.
      - intros a b c. rewrite !Z.leb_le. lia. }
    revert S. generalize (SQL.order_by
                     (fun a b => AuthRecords.updated_at b <=? AuthRecords.updated_at a)
                     (filter trashed (auth_records st))).
    intros l S. induction S as [|a l S IH Hall]; constructor; auto.
    rewrite Forall_forall in *. intros x Hx. unfold updated_at_desc.
    apply Z.leb_le. apply Hall. exact Hx.
Qed.


(** *** How the lifecycle moves the counts *)

Lemma filter_active_snoc (t : list AuthRecords.row) (row : AuthRecords.row) :
  active row = true -> filter active (t ++ [row]) = filter active t ++ [row].
Proof. intros H. rewrite filter_app. simpl. rewrite H. reflexivity. Qed.

Lemma total_of_app (xs ys : list Z) :
  SQL.total_of (xs ++ ys) = SQL.total_of xs + SQL.total_of ys.
Proof. unfold SQL.total_of. induction xs as [|x xs IH]; simpl; lia. Qed.

Lemma count_app {A : Type} (xs ys : list A) :
  SQL.count (xs ++ ys) = SQL.count xs + SQL.count ys.
Proof. unfold SQL.count. rewrite length_app. lia. Qed.

Lemma number_sum_status_app (s : string) (xs ys : list AuthRecords.row) :
  number (sum_status s (xs ++ ys)) = number (sum_status s xs) + number (sum_status s ys).
Proof. unfold sum_status. rewrite !number_sum, map_app, total_of_app. reflexivity. Qed.

Lemma number_sum_status_one (s : string) (r : AuthRecords.row) :
  number (sum_status s [r])
  = SQL.case_when (SQL.text_is (AuthRecords.status r) s && active r).
Proof.
  unfold sum_status. rewrite number_sum. unfold SQL.total_of. simpl. lia.
Qed.

(** X9: a create request with a body the driver can bind answers with a key
    that no stored record has; the new record is in the active listing with
    the caller as owner, the trash listing is as before, [total] grows by
    one, and the count of a status grows by one if it is the new record's
    status and stays as it was otherwise. *)
Theorem created_record_is_listed_and_counted (st : State) (req : Request)
    (user : JwtPayload.t) (body : Fields.t JsValue) (vals : Fields.t (option string)) :
  route req = POST_records body ->
  verified req = Some user ->
  record_params body = Returns vals ->
  let id := SQL.next_rowid (auth_records_seq st) (map AuthRecords.id (auth_records st)) in
  let row := AuthRecords.mk id vals 0 (JwtPayload.id user) (now req) (now req) in
  let st' := snd (handle st req) in
  fst (handle st req) = res_json (json_id id)
  /\ (forall r, In r (auth_records st) -> AuthRecords.id r <> id)
  /\ In row (select_active st')
  /\ select_deleted st' = select_deleted st
  /\ (forall t, total (select_stats st' t) = total (select_stats st t) + 1)
  /\ (forall s,
        number (sum_status s (filter active (auth_records st')))
        = number (sum_status s (filter active (auth_records st)))
          + SQL.case_when (SQL.text_is (Fields.status vals) s))
  /\ (forall t,
        number (pending (select_stats st' t))
        = number (pending (select_stats st t))
          + SQL.case_when (SQL.text_is (Fields.status vals) "Pending")).
Proof.
  intros Hroute Hv Hbind id row st'.
  assert (E : handle st req
              = (res_json (json_id id),
                 set_auth_records st (auth_records st ++ [row]) id)).
  { unfold handle. rewrite Hroute.
    rewrite (authenticateToken_verified _ _ _ _ Hv).
    unfold post_records. rewrite Hbind. reflexivity. }
  assert (Hcount : forall s,
            number (sum_status s (filter active (auth_records st ++ [row])))
            = number (sum_status s (filter active (auth_records st)))
              + SQL.case_when (SQL.text_is (Fields.status vals) s)).
  { intros s. rewrite filter_active_snoc by reflexivity.
    rewrite number_sum_status_app, number_sum_status_one.
    change (active row) with true. rewrite andb_true_r. reflexivity. }
  subst st'. rewrite E. simpl.
  split; [reflexivity|]. split; [|split; [|split; [|split; [|split]]]].
  - intros r Hr Hid.
    apply (next_rowid_fresh (auth_records_seq st) (map AuthRecords.id (auth_records st))).
    fold id. rewrite <- Hid. apply in_map. exact Hr.
  - unfold select_active. apply In_order_by. simpl.
    rewrite filter_active_snoc by reflexivity. apply in_or_app. right. simpl. auto.
  - unfold select_deleted. simpl. rewrite filter_app. simpl. rewrite app_nil_r. reflexivity.
  - intros t. unfold select_stats. simpl.
    rewrite filter_active_snoc by reflexivity. rewrite count_app.
    unfold SQL.count. simpl. lia.
  - exact Hcount.
  - intros t. apply Hcount.
Qed.




Lemma filter_active_delete_trashed (id : Z) (t : list AuthRecords.row) :
  filter active (SQL.delete (fun r => has_id id r && trashed r) t) = filter active t.
Proof.
  unfold SQL.delete. induction t as [|r t IH]; simpl; [reflexivity|].
  destruct (has_id id r && trashed r) eqn:W; simpl.
  - apply andb_true_iff in W. destruct W as [_ T].
    unfold trashed in T. apply Z.eqb_eq in T.
    unfold active. rewrite T. simpl. exact IH.
  - destruct (active r); [f_equal|]; exact IH.
Qed.

(** X11: a purge request, answered or refused, leaves the active listing and
    every field of the stats row as they were: what is in the trash counts
    for nothing. *)
Theorem purge_leaves_active_view (st : State) (req : Request) (id : Z) :
  route req = DELETE_records_permanent id ->
  select_active (snd (handle st req)) = select_active st
  /\ forall t, select_stats (snd (handle st req)) t = select_stats st t.
Proof.
  intros Hroute.
  assert (E : filter active (auth_records (snd (handle st req)))
              = filter active (auth_records st)).
  { destruct (handle_purge_table st req id Hroute) as [-> | ->];
      [reflexivity|apply filter_active_delete_trashed]. }
  split.
  - unfold select_active. rewrite E. reflexivity.
  - intros t. unfold select_stats. rewrite E. reflexivity.
Qed.

Lemma total_of_case_bounded {A : Type} (c : A -> bool) (rows : list A) :
  0 <= SQL.total_of (map (fun r => SQL.case_when (c r)) rows) <= SQL.count rows.
Proof.
  unfold SQL.total_of. induction rows as [|r rows IH]; [unfold SQL.count; simpl; lia|].
  rewrite count_cons. cbn [map fold_right].
  destruct (c r); [change (SQL.case_when true) with 1|change (SQL.case_when false) with 0];
    lia.
Qed.

(** X12: in the stats row each of the seven status counts and
    [submitted_today], a NULL read as 0, lies between 0 and [total]. *)
Theorem stats_counts_are_bounded (st : State) (now : Z) :
  let s := select_stats st now in
  Forall (fun n => 0 <= number n <= total s)
    [pending s; approved s; denied s; not_required s; follow_up s; cancelled s;
     not_covered s; submitted_today s].
Proof.
  intros s. subst s. unfold select_stats, sum_status. cbn [total pending approved denied
    not_required follow_up cancelled not_covered submitted_today].
  repeat constructor; rewrite number_sum;
    match goal with
    | |- context [map (fun r => SQL.case_when (@?c r)) ?rows] =>
        exact (proj1 (total_of_case_bounded c rows))
        || exact (proj2 (total_of_case_bounded c rows))
    end.
Qed.

(** *** Employee statistics *)

Lemma sum_case_left_join (c : AuthRecords.row -> bool) (u : Users.row)
    (records : list AuthRecords.row) :
  sum_case c (left_join u records)
  = SQL.total_of
      (map (fun r => SQL.case_when (c r))
         (filter (fun r => (Users.id u =? AuthRecords.user_id r)
                           && (AuthRecords.is_deleted r =? 0)) records)).
Proof.
  unfold left_join, sum_case.
  destruct (filter _ records) as [|r rs]; [reflexivity|].
  rewrite map_map. reflexivity.
Qed.

Lemma total_of_case_weaker {A : Type} (c d : A -> bool) (rows : list A) :
  SQL.total_of (map (fun r => SQL.case_when (c r && d r)) rows)
  <= SQL.total_of (map (fun r => SQL.case_when (d r)) rows).
Proof.
  unfold SQL.total_of. induction rows as [|r rows IH]; cbn [map fold_right]; [lia|].
  destruct (c r), (d r); simpl andb;
    change (SQL.case_when true) with 1; change (SQL.case_when false) with 0; lia.
Qed.

(** X13: in a row of the employee statistics no count is negative, and the
    week and month counts never exceed the year-to-date count, which never
    exceeds the number of active records the user owns. *)
Theorem employee_stats_are_bounded (st : State) (now : Z) (u : Users.row) :
  let e := employee_stats st now u in
  let owned :=
    SQL.count (filter (fun r => (Users.id u =? AuthRecords.user_id r)
                                && (AuthRecords.is_deleted r =? 0)) (auth_records st)) in
  0 <= today e <= owned
  /\ 0 <= this_week e <= ytd e
  /\ 0 <= this_month e <= ytd e
  /\ ytd e <= owned.
Proof.
  intros e owned. subst e owned. unfold employee_stats.
  cbn [today this_week this_month ytd]. rewrite !sum_case_left_join.
  repeat split;
    try apply total_of_case_bounded; try apply total_of_case_weaker.
Qed.

(** X14: a record counts for its creator alone.  After a create request the
    statistics row of every other user is what it was, at any clock reading;
    the creator's row, read at the time of the create, has [today],
    [this_week], [this_month] and [ytd] each one higher. *)
Theorem creation_counts_for_its_creator_only (st : State) (req : Request)
    (user : JwtPayload.t) (body : Fields.t JsValue) (vals : Fields.t (option string))
    (u : Users.row) :
  route req = POST_records body ->
  verified req = Some user ->
  record_params body = Returns vals ->
  let st' := snd (handle st req) in
  (Users.id u <> JwtPayload.id user ->
   forall t, employee_stats st' t u = employee_stats st t u)
  /\ (Users.id u = JwtPayload.id user ->
      let before := employee_stats st (now req) u in
      let after := employee_stats st' (now req) u in
      today after = today before + 1
      /\ this_week after = this_week before + 1
      /\ this_month after = this_month before + 1
      /\ ytd after = ytd before + 1).
Proof.
  intros Hroute Hv Hbind st'.
  assert (E : auth_records st'
              = auth_records st
                ++ [AuthRecords.mk
                      (SQL.next_rowid (auth_records_seq st)
                         (map AuthRecords.id (auth_records st)))
                      vals 0 (JwtPayload.id user) (now req) (now req)]).
  { subst st'. unfold handle. rewrite Hroute.
    rewrite (authenticateToken_verified _ _ _ _ Hv).
    unfold post_records. rewrite Hbind. reflexivity. }
  split.
  - intros Hother t. unfold employee_stats, left_join. rewrite E, filter_app. simpl.
    apply Z.eqb_neq in Hother. rewrite Hother. simpl. rewrite app_nil_r. reflexivity.
  - intros Hsame before after. subst before after. unfold employee_stats.
    cbn [today this_week this_month ytd]. rewrite !sum_case_left_join.
    rewrite E, !filter_app. simpl. rewrite Hsame, Z.eqb_refl. simpl.
    rewrite !map_app, !total_of_app. unfold same_localtime. simpl.
    rewrite !String.eqb_refl. unfold SQL.total_of. simpl. repeat split; lia.
Qed.


(** *** Managing users *)

(** X15: the user named "admin" cannot be deleted through the API: whoever
    sends the delete request for that row, the database is unchanged, and an
    admin's request is answered 400 "Cannot delete primary admin". *)
Theorem primary_admin_is_protected (st : State) (req : Request) (u : Users.row) :
  wf_state st ->
  In u (users st) ->
  Users.username u = "admin" ->
  route req = DELETE_users (Users.id u) ->
  snd (handle st req) = st
  /\ forall actor,
       verified req = Some actor ->
       select_role st (JwtPayload.id actor) = Some (Some "admin") ->
       handle st req = (res_error 400 "Cannot delete primary admin", st).
Proof.
  intros Hwf Hin Hname Hroute.
  assert (E : delete_users st (Users.id u)
              = (res_error 400 "Cannot delete primary admin", st)).
  { unfold delete_users. rewrite (select_user_by_id_wf st u Hwf Hin), Hname. reflexivity. }
  unfold handle. rewrite Hroute. split.
  - apply (authenticateToken_cases (fun out => snd out = st)); [reflexivity|intros user _].
    apply (isAdmin_cases (fun out => snd out = st)); [reflexivity|intros _].
    rewrite E. reflexivity.
  - intros actor Hv Hrole.
    rewrite (authenticateToken_verified _ _ _ _ Hv), (isAdmin_allows _ _ _ Hrole).
    exact E.
Qed.

(** X16: an admin's delete of a user not named "admin" removes that row and
    no other; the records the user created stay in [auth_records] with their
    [user_id], and the key counter does not move. *)
Theorem delete_user_removes_one_row (st : State) (req : Request) (actor : JwtPayload.t)
    (u : Users.row) :
  wf_state st ->
  In u (users st) ->
  Users.username u <> "admin" ->
  route req = DELETE_users (Users.id u) ->
  verified req = Some actor ->
  select_role st (JwtPayload.id actor) = Some (Some "admin") ->
  let st' := snd (handle st req) in
  fst (handle st req) = res_json json_success
  /\ (forall x, In x (users st') <-> In x (users st) /\ x <> u)
  /\ select_user_by_id st' (Users.id u) = None
  /\ users_seq st' = users_seq st
  /\ auth_records st' = auth_records st.
Proof.
  intros Hwf Hin Hname Hroute Hv Hrole st'.
  assert (E : handle st req
              = (res_json json_success,
                 set_users st (SQL.delete (fun x => Users.id x =? Users.id u) (users st))
                   (users_seq st))).
  { unfold handle. rewrite Hroute.
    rewrite (authenticateToken_verified _ _ _ _ Hv), (isAdmin_allows _ _ _ Hrole).
    unfold delete_users. rewrite (select_user_by_id_wf st u Hwf Hin).
    apply String.eqb_neq in Hname. rewrite Hname. reflexivity. }
  subst st'. rewrite E. simpl.
  assert (Hrows : forall x,
            In x (SQL.delete (fun x => Users.id x =? Users.id u) (users st))
            <-> In x (users st) /\ x <> u).
  { intros x. rewrite In_delete. destruct Hwf as (Hid & _ & _). split.
    - intros [Hx Hne]. split; [exact Hx|]. intros ->. rewrite Z.eqb_refl in Hne. discriminate.
    - intros [Hx Hne]. split; [exact Hx|]. apply Z.eqb_neq. intros Hid'.
      apply Hne. eapply unique_key with (key := Users.id); eauto. }
  split; [reflexivity|]. split; [exact Hrows|]. split; [|split; reflexivity].
  unfold select_user_by_id, SQL.get. simpl.
  destruct (find _ _) as [x|] eqn:F; [|reflexivity].
  apply find_some in F. destruct F as [Hx Hid]. apply Hrows in Hx.
  destruct Hx as [Hx Hne]. exfalso. apply Hne. apply Z.eqb_eq in Hid.
  destruct Hwf as (Hnd & _ & _). eapply unique_key with (key := Users.id); eauto.
Qed.

Lemma existsb_username (st : State) (u : Users.row) :
  In u (users st) ->
  existsb (fun x => String.eqb (Users.username x) (Users.username u)) (users st) = true.
Proof.
  intros Hin. apply existsb_exists. exists u. split; [exact Hin|apply String.eqb_refl].
Qed.

(** X17: creating a user whose username is already taken is answered 400
    "Username already exists" and writes nothing, whatever password and role
    the body carries. *)
Theorem duplicate_username_is_refused (st : State) (req : Request) (actor : JwtPayload.t)
    (u : Users.row) (password role : JsValue) :
  In u (users st) ->
  route req = POST_users (mkUserBody (JsString (Users.username u)) password role) ->
  verified req = Some actor ->
  select_role st (JwtPayload.id actor) = Some (Some "admin") ->
  handle st req = (res_error 400 "Username already exists", st).
Proof.
  intros Hin Hroute Hv Hrole. unfold handle. rewrite Hroute.
  rewrite (authenticateToken_verified _ _ _ _ Hv), (isAdmin_allows _ _ _ Hrole).
  unfold post_users. cbn [body_username body_password body_role].
  destruct (hashSync password (salt req)) as [hash|]; simpl; [|reflexivity].
  destruct (bind (js_or role (JsString "employee"))) as [rho|]; simpl; [|reflexivity].
  rewrite (existsb_username st u Hin). reflexivity.
Qed.

Lemma get_snoc_fresh {A : Type} (where_ : A -> bool) (t : list A) (x : A) :
  (forall r, In r t -> where_ r = false) -> where_ x = true ->
  SQL.get where_ (t ++ [x]) = Some x.
Proof.
  intros Hno Hx. unfold SQL.get. induction t as [|r t IH]; simpl.
  - rewrite Hx. reflexivity.
  - rewrite (Hno r) by (left; reflexivity). apply IH. intros y Hy. apply Hno. right. exact Hy.
Qed.

(** X18: an admin creates a user with a fresh username and a string
    password.  The new row has a key no row had, the hash of the password,
    and the role of the body, or employee when the body's role is absent,
    null or empty.  With a hash the password matches, a login with the new
    name and password is then answered with a token for the new key. *)
Theorem created_user_can_log_in (st : State) (create login : Request)
    (actor : JwtPayload.t) (name pw : string) (role any : JsValue) (rho : option string) :
  (forall u, In u (users st) -> Users.username u <> name) ->
  route create = POST_users (mkUserBody (JsString name) (JsString pw) role) ->
  verified create = Some actor ->
  select_role st (JwtPayload.id actor) = Some (Some "admin") ->
  bind (js_or role (JsString "employee")) = Returns rho ->
  bcrypt_compare pw (bcrypt_hash (salt create) pw) = true ->
  route login = POST_auth_login (mkUserBody (JsString name) (JsString pw) any) ->
  let id := SQL.next_rowid (users_seq st) (map Users.id (users st)) in
  let row := Users.mk id name (bcrypt_hash (salt create) pw) rho in
  let st' := snd (handle st create) in
  fst (handle st create) = res_json json_success
  /\ users st' = users st ++ [row]
  /\ (forall u, In u (users st) -> Users.id u <> id)
  /\ (truthy role = false -> rho = Some "employee")
  /\ handle st' login
     = (mkResponse 200 (json_login (mkUserView id name rho))
          (Some (jwt.sign id name SESSION_SECRET (now login))), st').
Proof.
  intros Hfresh Hcreate Hv Hrole Hrho Hhash Hlogin id row st'.
  assert (Hno : existsb (fun u => String.eqb (Users.username u) name) (users st) = false).
  { apply not_true_is_false. intros E. apply existsb_exists in E.
    destruct E as (u & Hu & Hn). apply String.eqb_eq in Hn. apply (Hfresh u Hu Hn). }
  assert (E : handle st create
              = (res_json json_success, set_users st (users st ++ [row]) id)).
  { unfold handle. rewrite Hcreate.
    rewrite (authenticateToken_verified _ _ _ _ Hv), (isAdmin_allows _ _ _ Hrole).
    unfold post_users. cbn [body_username body_password body_role hashSync bind bind_result].
    rewrite Hrho. cbn [bind_result]. unfold insert_user. rewrite Hno. reflexivity. }
  subst st'. rewrite E. cbn [fst snd].
  split; [reflexivity|]. split; [reflexivity|]. split; [|split].
  - intros u Hu Hid.
    apply (next_rowid_fresh (users_seq st) (map Users.id (users st))).
    fold id. rewrite <- Hid. apply in_map. exact Hu.
  - intros Hfalsy. unfold js_or in Hrho. rewrite Hfalsy in Hrho. simpl in Hrho. congruence.
  - unfold handle. rewrite Hlogin. unfold post_auth_login.
    cbn [bind bind_result body_username body_password].
    unfold select_user_by_username. simpl users.
    rewrite (get_snoc_fresh _ (users st) row).
    + unfold compareSync. simpl. rewrite Hhash. reflexivity.
    + intros r Hr. apply String.eqb_neq. apply Hfresh. exact Hr.
    + simpl. apply String.eqb_refl.
Qed.


Lemma update_user_conflict (st : State) (id : Z) (name : string)
    (password role : option string) :
  (exists u v, In u (users st) /\ In v (users st)
               /\ Users.id u = id /\ Users.id v <> id /\ Users.username v = name) ->
  update_user st id (Some name) password role = Throws SqliteError.
Proof.
  intros (u & v & Hu & Hvin & Hid & Hother & Hvn). unfold update_user.
  assert (H1 : existsb (fun x => Users.id x =? id) (users st) = true).
  { apply existsb_exists. exists u. split; [exact Hu|apply Z.eqb_eq; exact Hid]. }
  assert (H2 : existsb (fun x => String.eqb (Users.username x) name
                                 && negb (Users.id x =? id)) (users st) = true).
  { apply existsb_exists. exists v. split; [exact Hvin|].
    apply andb_true_iff. split; [apply String.eqb_eq; exact Hvn|].
    apply negb_true_iff. apply Z.eqb_neq. exact Hother. }
  rewrite H1, H2. reflexivity.
Qed.

Lemma update_user_miss (st : State) (id : Z) (username password role : option string) :
  (forall u, In u (users st) -> Users.id u <> id) ->
  update_user st id username password role = Returns st.
Proof.
  intros Hmiss. unfold update_user.
  assert (H1 : existsb (fun x => Users.id x =? id) (users st) = false).
  { apply not_true_is_false. intros X. apply existsb_exists in X.
    destruct X as (x & Hx & Hid). apply Z.eqb_eq in Hid. apply (Hmiss x Hx Hid). }
  rewrite H1. reflexivity.
Qed.

(** X19: an admin's edit that would give a user the username of another
    user is answered 400 and writes nothing, whatever password and role the
    edit carries.  An edit of an id that no user has writes nothing, and is
    answered with success when its password is absent, empty or a string and
    its username and role bind. *)
Theorem user_edit_conflicts_and_misses (st : State) (req : Request) (actor : JwtPayload.t)
    (id : Z) (body : UserBody) :
  route req = PATCH_users id body ->
  verified req = Some actor ->
  select_role st (JwtPayload.id actor) = Some (Some "admin") ->
  (forall name,
     bind (body_username body) = Returns (Some name) ->
     (exists u v, In u (users st) /\ In v (users st)
                  /\ Users.id u = id /\ Users.id v <> id /\ Users.username v = name) ->
     handle st req = (res_error 400 "Username already exists or update failed", st))
  /\ ((forall u, In u (users st) -> Users.id u <> id) ->
      snd (handle st req) = st
      /\ forall username role,
           truthy (body_password body) = false
           \/ (exists s, body_password body = JsString s) ->
           bind (body_username body) = Returns username ->
           bind (body_role body) = Returns role ->
           handle st req = (res_json json_success, st)).
Proof.
  intros Hroute Hv Hrole.
  assert (E : handle st req = patch_users st req id body).
  { unfold handle. rewrite Hroute.
    rewrite (authenticateToken_verified _ _ _ _ Hv), (isAdmin_allows _ _ _ Hrole).
    reflexivity. }
  rewrite E. unfold patch_users. split.
  - intros name Hname Hconflict.
    destruct (truthy (body_password body)).
    + destruct (hashSync (body_password body) (salt req)) as [hash|]; simpl; [|reflexivity].
      rewrite Hname. simpl.
      destruct (bind (body_role body)) as [role|]; simpl; [|reflexivity].
      rewrite (update_user_conflict st id name (Some hash) role Hconflict). reflexivity.
    + rewrite Hname. simpl.
      destruct (bind (body_role body)) as [role|]; simpl; [|reflexivity].
      rewrite (update_user_conflict st id name None role Hconflict). reflexivity.
  - intros Hmiss. split.
    + destruct (truthy (body_password body)).
      * destruct (hashSync (body_password body) (salt req)) as [hash|]; simpl;
          [|reflexivity].
        destruct (bind (body_username body)) as [username|]; simpl; [|reflexivity].
        destruct (bind (body_role body)) as [role|]; simpl; [|reflexivity].
        rewrite (update_user_miss st id username (Some hash) role Hmiss). reflexivity.
      * destruct (bind (body_username body)) as [username|]; simpl; [|reflexivity].
        destruct (bind (body_role body)) as [role|]; simpl; [|reflexivity].
        rewrite (update_user_miss st id username None role Hmiss). reflexivity.
    + intros username role Hpw Hname Hr.
      destruct (truthy (body_password body)) eqn:T.
      * destruct Hpw as [Hpw|(pw & Hpw)]; [discriminate|].
        rewrite Hpw. cbn [hashSync bind_result]. rewrite Hname. cbn [bind_result].
        rewrite Hr. cbn [bind_result].
        rewrite (update_user_miss st id username _ role Hmiss). reflexivity.
      * rewrite Hname. cbn [bind_result]. rewrite Hr. cbn [bind_result].
        rewrite (update_user_miss st id username None role Hmiss). reflexivity.
Qed.

Lemma get_update_users (st : State) (u : Users.row) (set : Users.row -> Users.row) :
  wf_state st -> In u (users st) ->
  (forall x, Users.id (set x) = Users.id x) ->
  (forall x, Users.username (set x) = Users.username x) ->
  SQL.get (fun x => String.eqb (Users.username x) (Users.username u))
    (SQL.update (fun x => Users.id x =? Users.id u) set (users st))
  = Some (set u).
Proof.
  intros (Hid & Hname & _) Hin Hsi Hsn.
  apply get_unique with (key := Users.username).
  - intros x. rewrite Hsn. apply String.eqb_eq.
  - rewrite usernames_update by exact Hsn. exact Hname.
  - apply In_update; [exact Hin|apply Z.eqb_refl].
Qed.

(** X20: a user changes their own password.  With a wrong current password
    the answer is 400 and nothing is written.  With the right one only the
    password of that user's row changes, to the hash of the new password,
    and, with a hash the new password matches, a login with the new password
    is answered with a token. *)
Theorem password_change_takes_effect (st : State) (change login : Request)
    (user : JwtPayload.t) (u : Users.row) (current new : string) (any : JsValue) :
  wf_state st ->
  In u (users st) ->
  route change = POST_auth_change_password (JsString current) (JsString new) ->
  verified change = Some user ->
  JwtPayload.id user = Users.id u ->
  let row := Users.mk (Users.id u) (Users.username u) (bcrypt_hash (salt change) new)
               (Users.role u) in
  let st' := snd (handle st change) in
  (bcrypt_compare current (Users.password u) = false ->
   handle st change = (res_error 400 "Invalid current password", st))
  /\ (bcrypt_compare current (Users.password u) = true ->
      fst (handle st change) = res_json json_success
      /\ In row (users st')
      /\ (forall x, In x (users st) -> Users.id x <> Users.id u -> In x (users st'))
      /\ auth_records st' = auth_records st
      /\ (bcrypt_compare new (bcrypt_hash (salt change) new) = true ->
          route login
          = POST_auth_login (mkUserBody (JsString (Users.username u)) (JsString new) any) ->
          handle st' login
          = (mkResponse 200 (json_login (view row))
               (Some (jwt.sign (Users.id u) (Users.username u) SESSION_SECRET (now login))),
             st'))).
Proof.
  intros Hwf Hin Hroute Hv Hid row st'.
  assert (E : handle st change
              = express st
                  (post_auth_change_password st change user (JsString current)
                     (JsString new))).
  { unfold handle. rewrite Hroute.
    rewrite (authenticateToken_verified _ _ _ _ Hv). reflexivity. }
  unfold post_auth_change_password in E.
  rewrite Hid, (select_user_by_id_wf st u Hwf Hin) in E.
  cbn [compareSync hashSync bind_result] in E.
  split.
  - intros Hwrong. rewrite E, Hwrong. reflexivity.
  - intros Hright. subst st'. rewrite E, Hright. cbn [express fst snd].
    set (set := fun x => Users.mk (Users.id x) (Users.username x)
                           (bcrypt_hash (salt change) new) (Users.role x)).
    split; [reflexivity|]. split; [|split; [|split]].
    + simpl. apply (In_update _ set (users st) u Hin). apply Z.eqb_refl.
    + intros x Hx Hne. simpl. unfold SQL.update. apply in_map_iff. exists x.
      split; [|exact Hx]. apply Z.eqb_neq in Hne. rewrite Hne. reflexivity.
    + reflexivity.
    + intros Hhash Hlogin. unfold handle. rewrite Hlogin. unfold post_auth_login.
      cbn [bind bind_result body_username body_password].
      unfold select_user_by_username. simpl users.
      rewrite (get_update_users st u set Hwf Hin) by reflexivity.
      unfold compareSync. simpl. rewrite Hhash. reflexivity.
Qed.

Lemma In_update_iff {A : Type} (where_ : A -> bool) (set : A -> A) (t : list A) (x : A) :
  In x (SQL.update where_ set t)
  <-> exists y, In y t /\ x = (if where_ y then set y else y).
Proof.
  unfold SQL.update. rewrite in_map_iff. split; intros (y & H1 & H2); exists y; auto.
Qed.

(** X21: the protection of the primary admin follows the username, not the
    row: once an admin has renamed the user "admin" to a name nobody has,
    an admin can delete the same row, and no user named "admin" is left. *)
Theorem renamed_admin_can_be_deleted (st : State) (rename delete : Request)
    (actor actor' : JwtPayload.t) (u : Users.row) (name : string) (role : option string)
    (new_role : JsValue) :
  wf_state st ->
  In u (users st) ->
  Users.username u = "admin" ->
  name <> "admin" ->
  (forall x, In x (users st) -> Users.username x <> name) ->
  bind new_role = Returns role ->
  route rename = PATCH_users (Users.id u) (mkUserBody (JsString name) JsUndefined new_role) ->
  verified rename = Some actor ->
  select_role st (JwtPayload.id actor) = Some (Some "admin") ->
  route delete = DELETE_users (Users.id u) ->
  verified delete = Some actor' ->
  select_role (snd (handle st rename)) (JwtPayload.id actor') = Some (Some "admin") ->
  let st1 := snd (handle st rename) in
  let st2 := snd (handle st1 delete) in
  fst (handle st rename) = res_json json_success
  /\ fst (handle st1 delete) = res_json json_success
  /\ (forall x, In x (users st2) -> Users.id x <> Users.id u)
  /\ (forall x, In x (users st2) -> Users.username x <> "admin").
Proof.
  intros Hwf Hin Hname Hnew Hfresh Hrole Hrename Hv1 Hadmin Hdelete Hv2 Hadmin' st1 st2.
  pose proof Hwf as (Hids & Hnames & _).
  set (set := fun x : Users.row => Users.mk (Users.id x) name (Users.password x) role).
  assert (H1 : existsb (fun x => Users.id x =? Users.id u) (users st) = true).
  { apply existsb_exists. exists u. split; [exact Hin|apply Z.eqb_refl]. }
  assert (H2 : existsb (fun x => String.eqb (Users.username x) name
                                 && negb (Users.id x =? Users.id u)) (users st) = false).
  { apply not_true_is_false. intros X. apply existsb_exists in X.
    destruct X as (x & Hx & Hc). apply andb_true_iff in Hc. destruct Hc as [Hn _].
    apply String.eqb_eq in Hn. apply (Hfresh x Hx Hn). }
  assert (E1 : handle st rename
               = (res_json json_success,
                  set_users st (SQL.update (fun x => Users.id x =? Users.id u) set (users st))
                    (users_seq st))).
  { unfold handle. rewrite Hrename.
    rewrite (authenticateToken_verified _ _ _ _ Hv1), (isAdmin_allows _ _ _ Hadmin).
    unfold patch_users. cbn [body_username body_password body_role truthy bind bind_result].
    rewrite Hrole. cbn [bind_result]. unfold update_user. rewrite H1, H2. reflexivity. }
  assert (Hget : select_user_by_id st1 (Users.id u) = Some (set u)).
  { subst st1. rewrite E1. unfold select_user_by_id, SQL.get. simpl.
    rewrite find_update by (intros r Hr; exact Hr).
    pose proof (select_user_by_id_wf st u Hwf Hin) as G.
    unfold select_user_by_id, SQL.get in G. rewrite G. reflexivity. }
  assert (E2 : handle st1 delete
               = (res_json json_success,
                  set_users st1 (SQL.delete (fun x => Users.id x =? Users.id u) (users st1))
                    (users_seq st1))).
  { unfold handle. rewrite Hdelete.
    rewrite (authenticateToken_verified _ _ _ _ Hv2), (isAdmin_allows _ _ _ Hadmin').
    unfold delete_users. rewrite Hget. simpl Users.username.
    apply String.eqb_neq in Hnew. rewrite Hnew. reflexivity. }
  split; [rewrite E1; reflexivity|]. split; [rewrite E2; reflexivity|].
  assert (Hleft : forall x, In x (users st2) ->
            Users.id x <> Users.id u /\ In x (users st)).
  { subst st2. rewrite E2. simpl. intros x Hx. apply In_delete in Hx.
    destruct Hx as [Hx Hne]. apply Z.eqb_neq in Hne. split; [exact Hne|].
    subst st1. rewrite E1 in Hx. simpl in Hx. apply In_update_iff in Hx.
    destruct Hx as (y & Hy & ->).
    destruct (Users.id y =? Users.id u) eqn:Q; [|exact Hy].
    apply Z.eqb_eq in Q. simpl in Hne. contradiction. }
  split.
  - intros x Hx. apply (Hleft x Hx).
  - intros x Hx Hadm. destruct (Hleft x Hx) as [Hne Hxin]. apply Hne.
    assert (x = u) by (eapply unique_key with (key := Users.username); eauto; congruence).
    congruence.
Qed.


(** *** Start-up *)

(** X22: seeding never fails on a database that satisfies the schema
    constraints, keeps them, touches no record and loses no user, and leaves
    a user named "admin" behind.  Without such a user before, the new row
    has the role admin and the hash of the configured password; a user
    named "admin" whose password is not the old default "admin" is left
    exactly as it is. *)
Theorem seed_admin_establishes_admin (env : option string) (salt : string) (st : State) :
  wf_state st ->
  exists st',
    seed_admin env salt st = Returns st'
    /\ wf_state st'
    /\ (exists a, In a (users st') /\ Users.username a = "admin")
    /\ auth_records st' = auth_records st
    /\ (forall x, In x (users st) ->
          exists x', In x' (users st') /\ Users.id x' = Users.id x
                     /\ Users.username x' = Users.username x)
    /\ (select_user_by_username st (Some "admin") = None ->
        users st'
        = users st
          ++ [Users.mk (SQL.next_rowid (users_seq st) (map Users.id (users st))) "admin"
                (bcrypt_hash salt (ADMIN_PASSWORD env)) (Some "admin")])
    /\ (forall a, In a (users st) -> Users.username a = "admin" ->
          bcrypt_compare "admin" (Users.password a) = false -> st' = st).
Proof.
  intros Hwf. pose proof Hwf as (Hids & Hnames & Hrec). unfold seed_admin.
  destruct (select_user_by_username st (Some "admin")) as [a|] eqn:G.
  - assert (Ha : In a (users st) /\ Users.username a = "admin").
    { unfold select_user_by_username, SQL.get in G. apply find_some in G.
      destruct G as [Hin Hn]. apply String.eqb_eq in Hn. auto. }
    destruct Ha as [Hain Haname].
    destruct (bcrypt_compare "admin" (Users.password a)) eqn:C.
    + set (set := fun u => Users.mk (Users.id u) (Users.username u)
                             (bcrypt_hash salt "admin-password") (Some "admin")).
      eexists. split; [reflexivity|]. simpl.
      split; [|split; [|split; [|split; [|split]]]].
      * repeat split; simpl; auto.
        -- rewrite ids_update_users; [exact Hids|reflexivity].
        -- rewrite usernames_update; [exact Hnames|reflexivity].
      * exists (set a). split; [|exact Haname].
        apply In_update; [exact Hain|]. apply String.eqb_eq. exact Haname.
      * reflexivity.
      * intros x Hx.
        exists (if String.eqb (Users.username x) "admin" then set x else x). split.
        -- apply In_update_iff. exists x. auto.
        -- destruct (String.eqb (Users.username x) "admin"); auto.
      * discriminate.
      * intros b Hb Hbn Hc.
        assert (b = a) by (eapply unique_key with (key := Users.username); eauto; congruence).
        subst b. congruence.
    + exists st. split; [reflexivity|]. split; [exact Hwf|].
      split; [exists a; auto|]. split; [reflexivity|].
      split; [intros x Hx; exists x; auto|]. split; [discriminate|auto].
  - assert (Hno : existsb (fun u => String.eqb (Users.username u) "admin") (users st) = false).
    { apply not_true_is_false. intros E. apply existsb_exists in E.
      destruct E as (x & Hx & Hn).
      unfold select_user_by_username, SQL.get in G.
      apply (find_none _ _ G) in Hx. congruence. }
    unfold insert_user. rewrite Hno. eexists. split; [reflexivity|].
    assert (Hwf' : wf_state
              (set_users st
                 (users st
                  ++ [Users.mk (SQL.next_rowid (users_seq st) (map Users.id (users st)))
                        "admin" (bcrypt_hash salt (ADMIN_PASSWORD env)) (Some "admin")])
                 (SQL.next_rowid (users_seq st) (map Users.id (users st))))).
    { apply (insert_user_wf st _ (Some "admin")
               (bcrypt_hash salt (ADMIN_PASSWORD env)) (Some "admin") Hwf).
      unfold insert_user. rewrite Hno. reflexivity. }
    split; [exact Hwf'|]. simpl.
    split; [|split; [|split; [|split]]].
    + eexists. split; [apply in_or_app; right; left; reflexivity|reflexivity].
    + reflexivity.
    + intros x Hx. exists x. split; [apply in_or_app; left; exact Hx|auto].
    + reflexivity.
    + intros a Ha Hn _. exfalso.
      unfold select_user_by_username, SQL.get in G.
      apply (find_none _ _ G) in Ha. rewrite Hn in Ha. discriminate.
Qed.

(** *** Settings *)

(** X23: writing a setting under a key that is not NULL leaves exactly one
    row with that key, holding the new value; the rows of the other keys and
    the other tables are as before, and a later [GET /api/settings] answers
    with these rows. *)
Theorem setting_is_stored_once (st : State) (req : Request) (user : JwtPayload.t)
    (key value : JsValue) (k : string) (v : option string) :
  route req = POST_settings key value ->
  verified req = Some user ->
  bind key = Returns (Some k) ->
  bind value = Returns v ->
  let st' := snd (handle st req) in
  fst (handle st req) = res_json json_success
  /\ In (Some k, v) (settings st')
  /\ (forall v', In (Some k, v') (settings st') -> v' = v)
  /\ (forall row, fst row <> Some k -> (In row (settings st') <-> In row (settings st)))
  /\ users st' = users st
  /\ auth_records st' = auth_records st
  /\ (forall req' user',
        route req' = GET_settings -> verified req' = Some user' ->
        handle st' req' = (res_json (json_settings (settings st')), st')).
Proof.
  intros Hroute Hv Hk Hval st'.
  assert (E : handle st req
              = (res_json json_success,
                 mkState (users st) (users_seq st) (auth_records st) (auth_records_seq st)
                   (SQL.delete (same_key (Some k)) (settings st) ++ [(Some k, v)]))).
  { unfold handle. rewrite Hroute.
    rewrite (authenticateToken_verified _ _ _ _ Hv).
    unfold post_settings. rewrite Hk. cbn [bind_result]. rewrite Hval. reflexivity. }
  subst st'. rewrite E. cbn [fst snd settings users auth_records].
  split; [reflexivity|]. split; [|split; [|split; [|split; [|split]]]].
  - apply in_or_app. right. left. reflexivity.
  - intros v' Hin. apply in_app_or in Hin. destruct Hin as [Hin|[Heq|[]]]; [|congruence].
    apply In_delete in Hin. destruct Hin as [_ Hkey].
    unfold same_key in Hkey. simpl in Hkey. rewrite String.eqb_refl in Hkey. discriminate.
  - intros row Hrow. rewrite in_app_iff, In_delete. split.
    + intros [[Hin _]|[<-|[]]]; [exact Hin|]. simpl in Hrow. congruence.
    + intros Hin. left. split; [exact Hin|].
      unfold same_key. destruct (fst row) as [k'|]; [|reflexivity].
      apply String.eqb_neq. congruence.
  - reflexivity.
  - reflexivity.
  - intros req' user' Hroute' Hv'. unfold handle. rewrite Hroute'.
    rewrite (authenticateToken_verified _ _ _ _ Hv'). reflexivity.
Qed.

(** *** Who am I *)



(** *** Each route writes to its own table *)

Lemma state_eta (st st' : State) :
  users st' = users st -> users_seq st' = users_seq st ->
  auth_records st' = auth_records st -> auth_records_seq st' = auth_records_seq st ->
  settings st' = settings st -> st' = st.
Proof. destruct st, st'; simpl; intros; subst; reflexivity. Qed.

Lemma post_records_frame (st : State) (req : Request) (user : JwtPayload.t)
    (body : Fields.t JsValue) (answer : Response * State) :
  post_records st req user body = Returns answer ->
  users (snd answer) = users st /\ users_seq (snd answer) = users_seq st
  /\ settings (snd answer) = settings st.
Proof.
  unfold post_records. destruct (record_params body) as [vals|]; simpl; [|discriminate].
  intros R. injection R as <-. auto.
Qed.

Lemma put_records_frame (st : State) (req : Request) (id : Z)
    (body : Fields.t JsValue) (answer : Response * State) :
  put_records st req id body = Returns answer ->
  users (snd answer) = users st /\ users_seq (snd answer) = users_seq st
  /\ settings (snd answer) = settings st.
Proof.
  unfold put_records. destruct (record_params body) as [vals|]; simpl; [|discriminate].
  intros R. injection R as <-. auto.
Qed.

Lemma post_settings_frame (st : State) (key value : JsValue) (answer : Response * State) :
  post_settings st key value = Returns answer ->
  users (snd answer) = users st /\ users_seq (snd answer) = users_seq st
  /\ auth_records (snd answer) = auth_records st
  /\ auth_records_seq (snd answer) = auth_records_seq st.
Proof.
  unfold post_settings. destruct (bind key) as [k|]; simpl; [|discriminate].
  destruct (bind value) as [v|]; simpl; [|discriminate].
  intros R. injection R as <-. auto.
Qed.

(** The three tables after a request, one by one. *)
Lemma handle_frame (st : State) (req : Request) :
  (writes_users (route req) = false ->
   users (snd (handle st req)) = users st
   /\ users_seq (snd (handle st req)) = users_seq st)
  /\ (writes_records (route req) = false ->
      auth_records (snd (handle st req)) = auth_records st
      /\ auth_records_seq (snd (handle st req)) = auth_records_seq st)
  /\ (writes_settings (route req) = false ->
      settings (snd (handle st req)) = settings st).
Proof.
  unfold handle.
  destruct (route req); (split; [|split]); intros Hw; try discriminate Hw; clear Hw;
    repeat match goal with
           | |- context [authenticateToken ?r ?s ?next] =>
               pattern (authenticateToken r s next); apply authenticateToken_cases;
               [intros; simpl; auto|intros ? ?]
           | |- context [isAdmin ?s ?u ?next] =>
               pattern (isAdmin s u next); apply isAdmin_cases;
               [intros; simpl; auto|intros ?]
           | |- context [express ?s ?r] =>
               pattern (express s r); apply express_cases;
               [intros; simpl; auto|intros ? ?]
           end;
    try (simpl; auto; fail);
    try match goal with
        | H : post_auth_login _ _ _ = Returns _ |- _ =>
            rewrite (login_frame _ _ _ _ H); auto
        | H : post_auth_change_password _ _ _ _ _ = Returns _ |- _ =>
            destruct (change_password_frame _ _ _ _ _ _ H) as (? & ? & ?); auto
        | H : post_records _ _ _ _ = Returns _ |- _ =>
            destruct (post_records_frame _ _ _ _ _ H) as (? & ? & ?); auto
        | H : put_records _ _ _ _ = Returns _ |- _ =>
            destruct (put_records_frame _ _ _ _ _ H) as (? & ? & ?); auto
        | H : post_settings _ _ _ = Returns _ |- _ =>
            destruct (post_settings_frame _ _ _ _ H) as (? & ? & ? & ?); auto
        | |- context [post_users ?s ?r ?b] =>
            destruct (post_users_frame s r b) as (? & ? & ?); auto
        | |- context [patch_users ?s ?r ?i ?b] =>
            destruct (patch_users_frame s r i b) as (? & ? & ?); auto
        | |- context [delete_users ?s ?i] =>
            destruct (delete_users_frame s i) as (? & ? & ?); auto
        end.
Qed.

(** X25: whoever sends it and whatever it carries, a request changes only
    the table of its route: the user routes leave the records and settings
    alone, the record routes the users and settings, the settings route the
    users and records, and login, logout and every GET route leave the whole
    database as it was. *)
Theorem requests_write_only_their_table (st : State) (req : Request) :
  let st' := snd (handle st req) in
  (writes_users (route req) = false ->
   users st' = users st /\ users_seq st' = users_seq st)
  /\ (writes_records (route req) = false ->
      auth_records st' = auth_records st /\ auth_records_seq st' = auth_records_seq st)
  /\ (writes_settings (route req) = false -> settings st' = settings st)
  /\ (read_only (route req) = true
      \/ route req = POST_auth_logout
      \/ (exists body, route req = POST_auth_login body) ->
      st' = st).
Proof.
  intros st'. destruct (handle_frame st req) as (Hu & Hr & Hs).
  split; [exact Hu|]. split; [exact Hr|]. split; [exact Hs|].
  intros Hread.
  assert (Hnone : writes_users (route req) = false
                  /\ writes_records (route req) = false
                  /\ writes_settings (route req) = false).
  { destruct Hread as [H|[H|(body & H)]].
    - destruct (route req); try discriminate H; auto.
    - rewrite H. auto.
    - rewrite H. auto. }
  destruct Hnone as (Nu & Nr & Ns).
  destruct (Hu Nu), (Hr Nr). apply state_eta; auto.
Qed.

(** *** Invariants along a sequence of requests *)

(** X26: from a database in which ids and usernames are distinct and the
    key counter bounds the record ids, every sequence of requests, by
    whatever callers, leads to such a database again, and the counter never
    goes back. *)
Theorem schema_constraints_hold_along_any_run (st : State) (reqs : list Request) :
  wf_state st ->
  ids_bounded st ->
  wf_state (run st reqs)
  /\ ids_bounded (run st reqs)
  /\ auth_records_seq st <= auth_records_seq (run st reqs).
Proof.
  revert st. induction reqs as [|req rest IH]; simpl; intros st Hwf Hb.
  - split; [exact Hwf|]. split; [exact Hb|lia].
  - destruct (IH (snd (handle st req))) as (A & B & C).
    + apply handle_preserves_wf. exact Hwf.
    + apply step_ids_bounded. exact Hb.
    + split; [exact A|]. split; [exact B|].
      pose proof (step_seq_mono st req). lia.
Qed.

(** X6: a purge cannot be undone.  After an admin trashes an active record
    and an admin purges it, no row carries its id, and none does after any
    further sequence of requests: neither a restore nor a create brings the
    id back. *)
Theorem purge_is_irreversible (st : State) (trash purge : Request)
    (admin admin' : JwtPayload.t) (r : AuthRecords.row) (later : list Request) :
  wf_state st ->
  ids_bounded st ->
  In r (auth_records st) ->
  route trash = DELETE_records (AuthRecords.id r) ->
  verified trash = Some admin ->
  select_role st (JwtPayload.id admin) = Some (Some "admin") ->
  route purge = DELETE_records_permanent (AuthRecords.id r) ->
  verified purge = Some admin' ->
  select_role st (JwtPayload.id admin') = Some (Some "admin") ->
  let st2 := snd (handle (snd (handle st trash)) purge) in
  forall x, In x (auth_records (run st2 later)) -> AuthRecords.id x <> AuthRecords.id r.
Proof.
  intros Hwf Hb Hin Htrash Hv Hrole Hpurge Hv' Hrole' st2.
  pose proof Hwf as (_ & _ & Hnd).
  set (st1 := snd (handle st trash)) in *.
  assert (E1 : st1 = set_auth_records st
                       (SQL.update (has_id (AuthRecords.id r))
                          (set_is_deleted 1 (now trash)) (auth_records st))
                       (auth_records_seq st)).
  { subst st1. unfold handle. rewrite Htrash.
    rewrite (authenticateToken_verified _ _ _ _ Hv), (isAdmin_allows _ _ _ Hrole).
    reflexivity. }
  assert (Hrole1 : select_role st1 (JwtPayload.id admin') = Some (Some "admin")).
  { rewrite E1. exact Hrole'. }
  assert (E2 : st2 = set_auth_records st1
                       (SQL.delete (fun x => has_id (AuthRecords.id r) x && trashed x)
                          (auth_records st1))
                       (auth_records_seq st1)).
  { subst st2. unfold handle. rewrite Hpurge.
    rewrite (authenticateToken_verified _ _ _ _ Hv'), (isAdmin_allows _ _ _ Hrole1).
    reflexivity. }
  apply retired_id_is_never_reused.
  - rewrite E2, E1. simpl. apply Hb. exact Hin.
  - intros x Hx Hid. rewrite E2 in Hx. simpl in Hx. apply In_delete in Hx.
    destruct Hx as [Hx Hw]. rewrite E1 in Hx. simpl in Hx.
    apply In_update_iff in Hx. destruct Hx as (y & Hy & ->).
    destruct (has_id (AuthRecords.id r) y) eqn:Q.
    + unfold has_id, trashed in Hw. simpl in Hw.
      unfold has_id in Q. rewrite Q in Hw. discriminate.
    + unfold has_id in Q. apply Z.eqb_neq in Q. contradiction.
Qed.

End Coverage.

(** ** Runs of the further properties *)

Lemma small_db_bounded : ids_bounded small_db.
Proof. intros r [<-|[<-|[]]]; simpl; lia. Defined.


Lemma login_failure_is_uniform_witness :
  @handle null_driver small_db erin_wrong_password
  = (mkResponse 401 (json_error "Invalid credentials") None, small_db)
  /\ @handle null_driver small_db zed_logs_in
     = (mkResponse 401 (json_error "Invalid credentials") None, small_db).
Proof.
  split.
  - apply (@login_failure_is_uniform null_driver small_db erin_wrong_password
             "erin" "nope" JsUndefined eq_refl).
    intros u Hu. vm_compute in Hu. injection Hu as <-. reflexivity.
  - apply (@login_failure_is_uniform null_driver small_db zed_logs_in
             "zed" "pw" JsUndefined eq_refl).
    intros u Hu. vm_compute in Hu. discriminate.
Defined.

Lemma logout_clears_cookie_witness :
  route logout_request = POST_auth_logout
  /\ @handle null_driver small_db logout_request
     = (mkResponse 200 json_success (Some (Malformed EmptyString)), small_db)
  /\ @handle null_driver small_db after_logout = (res_error 401 "Unauthorized", small_db).
Proof.
  destruct (@logout_clears_cookie null_driver small_db logout_request eq_refl)
    as (Hout & Hnext).
  split; [reflexivity|]. split; [exact Hout|].
  apply Hnext; reflexivity.
Defined.

Lemma untrashed_record_survives_witness :
  In pending_record (auth_records small_db)
  /\ AuthRecords.is_deleted pending_record <> 1
  /\ exists r', In r' (auth_records (snd (@handle null_driver small_db purge_pending)))
                /\ AuthRecords.id r' = 1.
Proof.
  assert (Hin : In pending_record (auth_records small_db)) by (simpl; tauto).
  assert (Hlive : AuthRecords.is_deleted pending_record <> 1) by (simpl; lia).
  split; [exact Hin|]. split; [exact Hlive|].
  exact (@untrashed_record_survives null_driver small_db purge_pending pending_record
           Hin Hlive).
Defined.

Lemma record_identity_is_stable_witness :
  wf_state small_db
  /\ ids_bounded small_db
  /\ In pending_record (auth_records small_db)
  /\ In (AuthRecords.mk 1 (bound_with_status (Some "Approved")) 0 2 10 60)
       (auth_records (@run null_driver small_db a_day_of_requests))
  /\ AuthRecords.user_id (AuthRecords.mk 1 (bound_with_status (Some "Approved")) 0 2 10 60)
     = AuthRecords.user_id pending_record
  /\ AuthRecords.created_at (AuthRecords.mk 1 (bound_with_status (Some "Approved")) 0 2 10 60)
     = AuthRecords.created_at pending_record.
Proof.
  assert (Hin : In pending_record (auth_records small_db)) by (simpl; tauto).
  assert (Hin' : In (AuthRecords.mk 1 (bound_with_status (Some "Approved")) 0 2 10 60)
                   (auth_records (@run null_driver small_db a_day_of_requests))).
  { vm_compute. tauto. }
  split; [exact small_db_wf|]. split; [exact small_db_bounded|]. split; [exact Hin|].
  split; [exact Hin'|].
  exact (@record_identity_is_stable null_driver small_db a_day_of_requests pending_record
           _ small_db_wf small_db_bounded Hin Hin' eq_refl).
Defined.

Lemma purge_is_irreversible_witness :
  wf_state small_db
  /\ ids_bounded small_db
  /\ In pending_record (auth_records small_db)
  /\ @verified null_driver soft_delete_pending = Some (JwtPayload.mk 1 "admin" 0 86400)
  /\ @verified null_driver purge_pending = Some (JwtPayload.mk 1 "admin" 0 86400)
  /\ select_role small_db 1 = Some (Some "admin")
  /\ forall x,
       In x (auth_records
               (@run null_driver
                  (snd (@handle null_driver
                          (snd (@handle null_driver small_db soft_delete_pending))
                          purge_pending))
                  [restore_pending; create_archived; update_pending])) ->
       AuthRecords.id x <> 1.
Proof.
  split; [exact small_db_wf|]. split; [exact small_db_bounded|]. split; [simpl; tauto|].
  split; [reflexivity|]. split; [reflexivity|]. split; [reflexivity|].
  apply (@purge_is_irreversible null_driver small_db soft_delete_pending purge_pending
           (JwtPayload.mk 1 "admin" 0 86400) (JwtPayload.mk 1 "admin" 0 86400)
           pending_record [restore_pending; create_archived; update_pending]
           small_db_wf small_db_bounded);
    try reflexivity.
  simpl; tauto.
Defined.

Lemma active_listing_is_sorted_witness :
  route ghost_views = GET_records
  /\ @verified null_driver ghost_views = Some (JwtPayload.mk 99 "ghost" 0 86400)
  /\ exists rows,
       @handle null_driver small_db ghost_views = (res_json (json_records rows), small_db)
       /\ Permutation rows (filter active (auth_records small_db))
       /\ StronglySorted date_worked_desc rows.
Proof.
  split; [reflexivity|]. split; [reflexivity|].
  exact (@active_listing_is_sorted null_driver small_db ghost_views
           (JwtPayload.mk 99 "ghost" 0 86400) eq_refl eq_refl).
Defined.

Lemma trash_listing_is_sorted_witness :
  route erin_views_trash = GET_records_deleted
  /\ @verified null_driver erin_views_trash = Some (JwtPayload.mk 2 "erin" 0 86400)
  /\ exists rows,
       @handle null_driver small_db erin_views_trash
       = (res_json (json_records rows), small_db)
       /\ Permutation rows (filter trashed (auth_records small_db))
       /\ StronglySorted updated_at_desc rows.
Proof.
  split; [reflexivity|]. split; [reflexivity|].
  exact (@trash_listing_is_sorted null_driver small_db erin_views_trash
           (JwtPayload.mk 2 "erin" 0 86400) eq_refl eq_refl).
Defined.

Lemma created_record_is_listed_and_counted_witness :
  route create_archived = POST_records (body_with_status (JsString "Archived"))
  /\ @verified null_driver create_archived = Some (JwtPayload.mk 2 "erin" 0 86400)
  /\ @record_params null_driver (body_with_status (JsString "Archived"))
     = Returns (bound_with_status (Some "Archived"))
  /\ fst (@handle null_driver small_db create_archived) = res_json (json_id 3)
  /\ In (AuthRecords.mk 3 (bound_with_status (Some "Archived")) 0 2 40 40)
       (select_active (snd (@handle null_driver small_db create_archived)))
  /\ total (@select_stats null_driver (snd (@handle null_driver small_db create_archived)) 50)
     = total (@select_stats null_driver small_db 50) + 1
  /\ number (pending (@select_stats null_driver
                        (snd (@handle null_driver small_db create_archived)) 50))
     = number (pending (@select_stats null_driver small_db 50)) + 0.
Proof.
  destruct (@created_record_is_listed_and_counted null_driver small_db create_archived
              (JwtPayload.mk 2 "erin" 0 86400) (body_with_status (JsString "Archived"))
              (bound_with_status (Some "Archived")) eq_refl eq_refl eq_refl)
    as (Hid & _ & Hlisted & _ & Htotal & _ & Hpending).
  split; [reflexivity|]. split; [reflexivity|]. split; [reflexivity|].
  split; [exact Hid|]. split; [exact Hlisted|]. split; [exact (Htotal 50)|exact (Hpending 50)].
Defined.


Lemma purge_leaves_active_view_witness :
  route purge_trashed = DELETE_records_permanent 2
  /\ select_active (snd (@handle null_driver small_db purge_trashed))
     = select_active small_db
  /\ @select_stats null_driver (snd (@handle null_driver small_db purge_trashed)) 50
     = @select_stats null_driver small_db 50.
Proof.
  destruct (@purge_leaves_active_view null_driver small_db purge_trashed 2 eq_refl)
    as (Hlist & Hstats).
  split; [reflexivity|]. split; [exact Hlist|exact (Hstats 50)].
Defined.

Lemma creation_counts_for_its_creator_only_witness :
  route create_archived = POST_records (body_with_status (JsString "Archived"))
  /\ @verified null_driver create_archived = Some (JwtPayload.mk 2 "erin" 0 86400)
  /\ @record_params null_driver (body_with_status (JsString "Archived"))
     = Returns (bound_with_status (Some "Archived"))
  /\ @employee_stats null_driver (snd (@handle null_driver small_db create_archived)) 40
       alex_row
     = @employee_stats null_driver small_db 40 alex_row
  /\ today (@employee_stats null_driver (snd (@handle null_driver small_db create_archived))
              40 erin_row)
     = today (@employee_stats null_driver small_db 40 erin_row) + 1.
Proof.
  split; [reflexivity|]. split; [reflexivity|]. split; [reflexivity|]. split.
  - apply (proj1 (@creation_counts_for_its_creator_only null_driver small_db create_archived
                    (JwtPayload.mk 2 "erin" 0 86400) (body_with_status (JsString "Archived"))
                    (bound_with_status (Some "Archived")) alex_row
                    eq_refl eq_refl eq_refl)).
    simpl. lia.
  - apply (proj2 (@creation_counts_for_its_creator_only null_driver small_db create_archived
                    (JwtPayload.mk 2 "erin" 0 86400) (body_with_status (JsString "Archived"))
                    (bound_with_status (Some "Archived")) erin_row
                    eq_refl eq_refl eq_refl)).
    reflexivity.
Defined.

Lemma primary_admin_is_protected_witness :
  wf_state small_db
  /\ In admin_row (users small_db)
  /\ Users.username admin_row = "admin"
  /\ @verified null_driver alex_deletes_admin = Some (JwtPayload.mk 3 "alex" 0 86400)
  /\ select_role small_db 3 = Some (Some "admin")
  /\ @handle null_driver small_db alex_deletes_admin
     = (res_error 400 "Cannot delete primary admin", small_db).
Proof.
  assert (Hin : In admin_row (users small_db)) by (simpl; tauto).
  destruct (@primary_admin_is_protected null_driver small_db alex_deletes_admin admin_row
              small_db_wf Hin eq_refl eq_refl) as (_ & Hrefused).
  split; [exact small_db_wf|]. split; [exact Hin|]. split; [reflexivity|].
  split; [reflexivity|]. split; [reflexivity|].
  apply (Hrefused (JwtPayload.mk 3 "alex" 0 86400)); reflexivity.
Defined.

Lemma delete_user_removes_one_row_witness :
  wf_state small_db
  /\ In erin_row (users small_db)
  /\ Users.username erin_row <> "admin"
  /\ @verified null_driver admin_deletes_erin = Some (JwtPayload.mk 1 "admin" 0 86400)
  /\ select_role small_db 1 = Some (Some "admin")
  /\ fst (@handle null_driver small_db admin_deletes_erin) = res_json json_success
  /\ select_user_by_id (snd (@handle null_driver small_db admin_deletes_erin)) 2 = None
  /\ auth_records (snd (@handle null_driver small_db admin_deletes_erin))
     = auth_records small_db.
Proof.
  assert (Hin : In erin_row (users small_db)) by (simpl; tauto).
  assert (Hname : Users.username erin_row <> "admin") by (simpl; discriminate).
  destruct (@delete_user_removes_one_row null_driver small_db admin_deletes_erin
              (JwtPayload.mk 1 "admin" 0 86400) erin_row small_db_wf Hin Hname
              eq_refl eq_refl eq_refl)
    as (Hok & _ & Hgone & _ & Hrecords).
  split; [exact small_db_wf|]. split; [exact Hin|]. split; [exact Hname|].
  split; [reflexivity|]. split; [reflexivity|].
  split; [exact Hok|]. split; [exact Hgone|exact Hrecords].
Defined.

Lemma duplicate_username_is_refused_witness :
  In erin_row (users small_db)
  /\ @verified null_driver admin_creates_erin = Some (JwtPayload.mk 1 "admin" 0 86400)
  /\ select_role small_db 1 = Some (Some "admin")
  /\ @handle null_driver small_db admin_creates_erin
     = (res_error 400 "Username already exists", small_db).
Proof.
  assert (Hin : In erin_row (users small_db)) by (simpl; tauto).
  split; [exact Hin|]. split; [reflexivity|]. split; [reflexivity|].
  exact (@duplicate_username_is_refused null_driver small_db admin_creates_erin
           (JwtPayload.mk 1 "admin" 0 86400) erin_row (JsString "x") JsUndefined
           Hin eq_refl eq_refl eq_refl).
Defined.

Lemma created_user_can_log_in_witness :
  (forall u, In u (users small_db) -> Users.username u <> "zoe")
  /\ @verified null_driver admin_creates_zoe = Some (JwtPayload.mk 1 "admin" 0 86400)
  /\ select_role small_db 1 = Some (Some "admin")
  /\ @bind null_driver (js_or JsUndefined (JsString "employee")) = Returns (Some "employee")
  /\ @bcrypt_compare null_driver "pw9" (@bcrypt_hash null_driver "salt" "pw9") = true
  /\ users (snd (@handle null_driver small_db admin_creates_zoe))
     = users small_db ++ [Users.mk 4 "zoe" "pw9" (Some "employee")]
  /\ @handle null_driver (snd (@handle null_driver small_db admin_creates_zoe)) zoe_logs_in
     = (mkResponse 200 (json_login (mkUserView 4 "zoe" (Some "employee")))
          (Some (jwt.sign 4 "zoe" "default-secret-key" 9)),
        snd (@handle null_driver small_db admin_creates_zoe)).
Proof.
  assert (Hfresh : forall u, In u (users small_db) -> Users.username u <> "zoe").
  { simpl. intros u [<-|[<-|[<-|[]]]]; simpl; discriminate. }
  destruct (@created_user_can_log_in null_driver small_db admin_creates_zoe zoe_logs_in
              (JwtPayload.mk 1 "admin" 0 86400) "zoe" "pw9" JsUndefined JsUndefined
              (Some "employee") Hfresh eq_refl eq_refl eq_refl eq_refl eq_refl eq_refl)
    as (_ & Hrows & _ & _ & Hlogin).
  split; [exact Hfresh|]. split; [reflexivity|]. split; [reflexivity|].
  split; [reflexivity|]. split; [reflexivity|]. split; [exact Hrows|exact Hlogin].
Defined.

Lemma user_edit_conflicts_and_misses_witness :
  @verified null_driver admin_renames_erin = Some (JwtPayload.mk 1 "admin" 0 86400)
  /\ select_role small_db 1 = Some (Some "admin")
  /\ @bind null_driver (JsString "alex") = Returns (Some "alex")
  /\ @bind null_driver (JsString "employee") = Returns (Some "employee")
  /\ (exists u v, In u (users small_db) /\ In v (users small_db)
                  /\ Users.id u = 2 /\ Users.id v <> 2 /\ Users.username v = "alex")
  /\ (forall u, In u (users small_db) -> Users.id u <> 7)
  /\ @handle null_driver small_db admin_renames_erin
     = (res_error 400 "Username already exists or update failed", small_db)
  /\ @handle null_driver small_db admin_renames_erin_with_password
     = (res_error 400 "Username already exists or update failed", small_db)
  /\ @handle null_driver small_db admin_edits_nobody = (res_json json_success, small_db)
  /\ @handle null_driver small_db admin_edits_nobody_with_password
     = (res_json json_success, small_db).
Proof.
  assert (Hconflict : exists u v, In u (users small_db) /\ In v (users small_db)
                        /\ Users.id u = 2 /\ Users.id v <> 2 /\ Users.username v = "alex").
  { exists erin_row, alex_row. simpl. repeat split; try tauto; lia. }
  assert (Hmiss : forall u, In u (users small_db) -> Users.id u <> 7).
  { simpl. intros u [<-|[<-|[<-|[]]]]; simpl; lia. }
  split; [reflexivity|]. split; [reflexivity|]. split; [reflexivity|].
  split; [reflexivity|]. split; [exact Hconflict|]. split; [exact Hmiss|].
  split; [|split; [|split]].
  - exact (proj1 (@user_edit_conflicts_and_misses null_driver small_db admin_renames_erin
                    (JwtPayload.mk 1 "admin" 0 86400) 2
                    (mkUserBody (JsString "alex") JsUndefined (JsString "employee"))
                    eq_refl eq_refl eq_refl) "alex" eq_refl Hconflict).
  - exact (proj1 (@user_edit_conflicts_and_misses null_driver small_db
                    admin_renames_erin_with_password
                    (JwtPayload.mk 1 "admin" 0 86400) 2
                    (mkUserBody (JsString "alex") (JsString "secret") (JsString "employee"))
                    eq_refl eq_refl eq_refl) "alex" eq_refl Hconflict).
  - exact (proj2 (proj2 (@user_edit_conflicts_and_misses null_driver small_db
                           admin_edits_nobody
                           (JwtPayload.mk 1 "admin" 0 86400) 7
                           (mkUserBody (JsString "alex") JsUndefined (JsString "employee"))
                           eq_refl eq_refl eq_refl) Hmiss)
             (Some "alex") (Some "employee") (or_introl eq_refl) eq_refl eq_refl).
  - exact (proj2 (proj2 (@user_edit_conflicts_and_misses null_driver small_db
                           admin_edits_nobody_with_password
                           (JwtPayload.mk 1 "admin" 0 86400) 7
                           (mkUserBody (JsString "alex") (JsString "secret")
                              (JsString "employee"))
                           eq_refl eq_refl eq_refl) Hmiss)
             (Some "alex") (Some "employee")
             (or_intror (ex_intro _ "secret" eq_refl)) eq_refl eq_refl).
Defined.

Lemma password_change_takes_effect_witness :
  wf_state small_db
  /\ In erin_row (users small_db)
  /\ @verified null_driver erin_changes_password = Some (JwtPayload.mk 2 "erin" 0 86400)
  /\ @handle null_driver small_db erin_wrong_current
     = (res_error 400 "Invalid current password", small_db)
  /\ fst (@handle null_driver small_db erin_changes_password) = res_json json_success
  /\ In (Users.mk 2 "erin" "new" (Some "employee"))
       (users (snd (@handle null_driver small_db erin_changes_password)))
  /\ @handle null_driver (snd (@handle null_driver small_db erin_changes_password))
       erin_logs_in_anew
     = (mkResponse 200 (json_login (mkUserView 2 "erin" (Some "employee")))
          (Some (jwt.sign 2 "erin" "default-secret-key" 9)),
        snd (@handle null_driver small_db erin_changes_password)).
Proof.
  assert (Hin : In erin_row (users small_db)) by (simpl; tauto).
  destruct (@password_change_takes_effect null_driver small_db erin_wrong_current
              erin_logs_in_anew (JwtPayload.mk 2 "erin" 0 86400) erin_row "no" "new"
              JsUndefined small_db_wf Hin eq_refl eq_refl eq_refl) as (Hwrong & _).
  destruct (@password_change_takes_effect null_driver small_db erin_changes_password
              erin_logs_in_anew (JwtPayload.mk 2 "erin" 0 86400) erin_row "pw" "new"
              JsUndefined small_db_wf Hin eq_refl eq_refl eq_refl) as (_ & Hright).
  destruct (Hright eq_refl) as (Hok & Hrow & _ & _ & Hlogin).
  split; [exact small_db_wf|]. split; [exact Hin|]. split; [reflexivity|].
  split; [exact (Hwrong eq_refl)|]. split; [exact Hok|]. split; [exact Hrow|].
  exact (Hlogin eq_refl eq_refl).
Defined.

Lemma renamed_admin_can_be_deleted_witness :
  wf_state small_db
  /\ In admin_row (users small_db)
  /\ Users.username admin_row = "admin"
  /\ (forall x, In x (users small_db) -> Users.username x <> "root")
  /\ @verified null_driver alex_renames_admin = Some (JwtPayload.mk 3 "alex" 0 86400)
  /\ select_role small_db 3 = Some (Some "admin")
  /\ fst (@handle null_driver (snd (@handle null_driver small_db alex_renames_admin))
            alex_deletes_admin)
     = res_json json_success
  /\ forall x,
       In x (users (snd (@handle null_driver
                           (snd (@handle null_driver small_db alex_renames_admin))
                           alex_deletes_admin))) ->
       Users.username x <> "admin".
Proof.
  assert (Hin : In admin_row (users small_db)) by (simpl; tauto).
  assert (Hfresh : forall x, In x (users small_db) -> Users.username x <> "root").
  { simpl. intros u [<-|[<-|[<-|[]]]]; simpl; discriminate. }
  assert (Hnew : "root" <> "admin") by discriminate.
  destruct (@renamed_admin_can_be_deleted null_driver small_db alex_renames_admin
              alex_deletes_admin (JwtPayload.mk 3 "alex" 0 86400)
              (JwtPayload.mk 3 "alex" 0 86400) admin_row "root" (Some "admin")
              (JsString "admin") small_db_wf Hin eq_refl Hnew Hfresh
              eq_refl eq_refl eq_refl eq_refl eq_refl eq_refl eq_refl)
    as (_ & Hdeleted & _ & Hnone).
  split; [exact small_db_wf|]. split; [exact Hin|]. split; [reflexivity|].
  split; [exact Hfresh|]. split; [reflexivity|]. split; [reflexivity|].
  split; [exact Hdeleted|exact Hnone].
Defined.

Lemma no_users_wf : wf_state no_users.
Proof. repeat split; constructor. Defined.

Lemma seed_admin_establishes_admin_witness :
  wf_state no_users
  /\ exists st',
       @seed_admin null_driver None "salt" no_users = Returns st'
       /\ wf_state st'
       /\ (exists a, In a (users st') /\ Users.username a = "admin")
       /\ users st' = [Users.mk 1 "admin" "admin-password" (Some "admin")].
Proof.
  split; [exact no_users_wf|].
  destruct (@seed_admin_establishes_admin null_driver None "salt" no_users no_users_wf)
    as (st' & Hrun & Hwf & Hadmin & _ & _ & Hnew & _).
  exists st'. split; [exact Hrun|]. split; [exact Hwf|]. split; [exact Hadmin|].
  exact (Hnew eq_refl).
Defined.

Lemma setting_is_stored_once_witness :
  @verified null_driver erin_writes_setting = Some (JwtPayload.mk 2 "erin" 0 86400)
  /\ @bind null_driver (JsString "theme") = Returns (Some "theme")
  /\ @bind null_driver (JsString "dark") = Returns (Some "dark")
  /\ In (Some "theme", Some "dark")
       (settings (snd (@handle null_driver themed_db erin_writes_setting)))
  /\ (forall v', In (Some "theme", v')
                   (settings (snd (@handle null_driver themed_db erin_writes_setting))) ->
                 v' = Some "dark")
  /\ @handle null_driver (snd (@handle null_driver themed_db erin_writes_setting))
       erin_reads_settings
     = (res_json (json_settings [(Some "lang", Some "en"); (Some "theme", Some "dark")]),
        snd (@handle null_driver themed_db erin_writes_setting)).
Proof.
  destruct (@setting_is_stored_once null_driver themed_db erin_writes_setting
              (JwtPayload.mk 2 "erin" 0 86400) (JsString "theme") (JsString "dark")
              "theme" (Some "dark") eq_refl eq_refl eq_refl eq_refl)
    as (_ & Hin & Honce & _ & _ & _ & Hget).
  split; [reflexivity|]. split; [reflexivity|]. split; [reflexivity|].
  split; [exact Hin|]. split; [exact Honce|].
  exact (Hget erin_reads_settings (JwtPayload.mk 2 "erin" 0 86400) eq_refl eq_refl).
Defined.


Lemma schema_constraints_hold_along_any_run_witness :
  wf_state small_db
  /\ ids_bounded small_db
  /\ wf_state (@run null_driver small_db a_day_of_requests)
  /\ ids_bounded (@run null_driver small_db a_day_of_requests)
  /\ auth_records_seq small_db
     <= auth_records_seq (@run null_driver small_db a_day_of_requests).
Proof.
  split; [exact small_db_wf|]. split; [exact small_db_bounded|].
  exact (@schema_constraints_hold_along_any_run null_driver small_db a_day_of_requests
           small_db_wf small_db_bounded).
Defined.
